(** * gstDecoder: the streaming frame capture engine of jetson-utils

    A shallow embedding of [codec/gstDecoder.cpp].  The decoder object, the
    GStreamer pipeline it drives and the calls it makes on its collaborators
    are explicit state; whatever GStreamer, CUDA or the file system answers is
    an input of the operation that asks.

    Threads are serialised: a consumer call ([Open], [Close], [Capture]) and
    a backend callback ([onEOS], [onPreroll], [onBuffer]) each run to their
    end, and the consumer gives way to callbacks only where it waits for
    them, inside [mWaitEvent.Wait].  Messages reach the bus at any time,
    also while the consumer sleeps.  The one other place where the consumer
    stands still is the sleep of [Open]: [Open_meanwhile] is [Open] with the
    callbacks that fire during that sleep. *)

From Stdlib Require Import ZArith String Ascii List Bool Lia DecimalString.
From stdpp Require Import base list.
Import ListNotations.

(** ** Plain data *)

(** Frame memory: the bytes of one buffer. *)
Definition buffer := list Byte.byte.

(** [ostream << int]: decimal digits, with a sign for negatives. *)
Definition string_of_Z (z : Z) : string := NilZero.string_of_int (Z.to_int z).

(** The double quote (ASCII 34) of the RTP caps string. *)
Definition dquote : string := String (ascii_of_nat 34) EmptyString.

(** [std::ostringstream]: the text written so far; [ss << x] appends. *)
Notation "ss << x" := (String.append ss x) (at level 50, left associativity).

(** ** The ring buffer *)

Module RingBuffer.

(** Modelled from the spec: the RingBuffer class (RingBuffer.h is not among
    the sources).  A pool of [numBuffers] slots of [bufferSize] bytes with a
    write cursor; [fresh] says that a slot was published and not read since. *)
Record t := mk {
  numBuffers : nat;
  bufferSize : Z;
  zeroCopy : bool;
  buffers : list buffer;
  latestWrite : nat;
  fresh : bool
}.

(** Modelled from the spec: a pool before its first allocation. *)
Definition empty : t := mk 0 0 false [] 0 false.

(** Modelled from the spec: [Allocate(count, slotSize, zeroCopyFlag)]
    "(re)allocates the pool if count/slotSize differ from the current
    allocation; no-op otherwise", and fails when memory cannot be obtained
    ([mem_ok] is what the allocator answers).  A reallocation invalidates
    every slot, so nothing stays published; a failure leaves the pool as it
    was. *)
Definition Alloc (n : nat) (size : Z) (zc : bool) (mem_ok : bool) (rb : t)
  : bool * t :=
  if Nat.eqb n (numBuffers rb) && Z.eqb size (bufferSize rb) then (true, rb)
  else if mem_ok then (true, mk n size zc (replicate n []) 0 false)
  else (false, rb).

(** Modelled from the spec: [Peek(RingBuffer::Write)], the spec's
    [NextForWrite()], "returns the next unpublished
    slot for the producer to fill; does not block"; there is none in a pool
    of no slots. *)
Definition Peek_Write (rb : t) : option nat :=
  match numBuffers rb with
  | O => None
  | S _ => Some (Nat.modulo (latestWrite rb + 1) (numBuffers rb))
  end.

(** [memcpy] into slot [i]. *)
Definition fill (i : nat) (data : buffer) (rb : t) : t :=
  mk (numBuffers rb) (bufferSize rb) (zeroCopy rb)
     (<[i := data]> (buffers rb)) (latestWrite rb) (fresh rb).

(** Modelled from the spec: [Next(RingBuffer::Write)], the spec's
    [PublishWrite()], advances the write cursor; the slot it reaches is the
    latest published one and has not been read. *)
Definition Next_Write (rb : t) : option nat * t :=
  match numBuffers rb with
  | O => (None, rb)
  | S _ =>
      let i := Nat.modulo (latestWrite rb + 1) (numBuffers rb) in
      (Some i, mk (numBuffers rb) (bufferSize rb) (zeroCopy rb)
                  (buffers rb) i true)
  end.

(** Modelled from the spec: [Next(RingBuffer::ReadLatestOnce)], the spec's
    [ReadLatestOnce()], "returns the most recently
    published slot at most once per publication -- if no new slot has been
    published since the last read, returns null/empty rather than
    re-returning stale data". *)
Definition Next_ReadLatestOnce (rb : t) : option nat * t :=
  match numBuffers rb with
  | O => (None, rb)
  | S _ =>
      if fresh rb
      then (Some (latestWrite rb),
            mk (numBuffers rb) (bufferSize rb) (zeroCopy rb)
               (buffers rb) (latestWrite rb) false)
      else (None, rb)
  end.

(** The bytes behind a slot pointer. *)
Definition contents (i : nat) (rb : t) : buffer :=
  match buffers rb !! i with Some b => b | None => [] end.

(** Cursor and slot list agree with the slot count. *)
Definition wf (rb : t) : Prop :=
  length (buffers rb) = numBuffers rb /\
  (numBuffers rb = 0 \/ latestWrite rb < numBuffers rb).

End RingBuffer.

(** ** The wait/wake signal *)

Module Event.

(** Modelled from the spec: the Event class (Event.h is not among the
    sources), "a single-slot condition signal": [Wake] is idempotent,
    "multiple wakes before a single wait collapse to one pending wake". *)
Record t := mk { pending : bool }.

(** Modelled from the spec: a signal nobody has woken. *)
Definition init : t := mk false.

(** Modelled from the spec: [Wake()], "non-blocking, idempotent". *)
Definition Wake (e : t) : t := mk true.

(** Modelled from the spec: what [Wait] does without blocking: a pending wake
    is taken and the wait succeeds. *)
Definition take (e : t) : bool * t :=
  if pending e then (true, mk false) else (false, e).

(** Modelled from the spec: "a distinguished infinite value blocks
    indefinitely"; the capture API passes [UINT64_MAX] for it. *)
Definition INFINITE : Z := 18446744073709551615%Z.

End Event.

(** ** Stream configuration *)

(** Modelled from the spec: the resource locator, "protocol, path/host,
    port, file extension" (URI.h is not among the sources; these are the
    fields the decoder reads). *)
Record URI := {
  uri_string : string;
  protocol : string;
  path : string;
  extension : string;
  port : Z
}.

(** Modelled from the spec: [videoOptions::Codec] (videoOptions.h is not
    among the sources): the six codecs the decoder names, "H264, H265, VP8,
    VP9, MPEG2, MPEG4", and [CODEC_UNKNOWN] for any other. *)
Inductive Codec :=
| CODEC_UNKNOWN | CODEC_H264 | CODEC_H265 | CODEC_VP8 | CODEC_VP9
| CODEC_MPEG2 | CODEC_MPEG4.

(** Modelled from the spec: [videoOptions::FlipMethod], the "flip transform"
    (videoOptions.h is not among the sources): no flip, or a flip known by
    the integer it is cast to. *)
Inductive FlipMethod := FLIP_NONE | FLIP_METHOD (v : Z).

(** [(int)mOptions.flipMethod], for a flip other than [FLIP_NONE]. *)
Definition flip_int (f : FlipMethod) : Z :=
  match f with
  | FLIP_NONE => 0
  | FLIP_METHOD v => v
  end%Z.

Definition is_FLIP_NONE (f : FlipMethod) : bool :=
  match f with FLIP_NONE => true | _ => false end.

(** Modelled from the spec: [videoOptions::DeviceType] (videoOptions.h is
    not among the sources): the two kinds the decoder assigns, and
    [DEVICE_DEFAULT] for what stood there before. *)
Inductive DeviceType := DEVICE_DEFAULT | DEVICE_IP | DEVICE_FILE.

(** Modelled from the spec: the stream configuration, "resource locator,
    codec identifier, desired output geometry (width, height, flip
    transform), buffer count, zero-copy flag" (videoOptions.h is not among
    the sources; these are the fields the decoder reads or writes). *)
Record videoOptions := {
  resource : URI;
  width : Z;
  height : Z;
  numBuffers : nat;
  zeroCopy : bool;
  flipMethod : FlipMethod;
  codec : Codec;
  deviceType : DeviceType
}.

Definition set_deviceType (t : DeviceType) (o : videoOptions) : videoOptions :=
  {| resource := resource o; width := width o; height := height o;
     numBuffers := numBuffers o; zeroCopy := zeroCopy o;
     flipMethod := flipMethod o; codec := codec o; deviceType := t |}.

Definition set_size (wd ht : Z) (o : videoOptions) : videoOptions :=
  {| resource := resource o; width := wd; height := ht;
     numBuffers := numBuffers o; zeroCopy := zeroCopy o;
     flipMethod := flipMethod o; codec := codec o;
     deviceType := deviceType o |}.

(** [gstDecoder::SupportedExtensions], without the closing NULL. *)
Definition SupportedExtensions : list string :=
  ["mkv"; "mp4"; "qt"; "flv"; "avi"; "h264"; "h265"]%string.

(** Modelled from the spec: the pixel formats (imageFormat.h is not among
    the sources): the raw format of the decoder, "fixed planar NV12", the
    output formats [Capture] lists as supported, and [IMAGE_UNKNOWN] for any
    other. *)
Inductive imageFormat :=
| IMAGE_RGB8 | IMAGE_RGBA8 | IMAGE_RGB32F | IMAGE_RGBA32F | IMAGE_NV12
| IMAGE_UNKNOWN.

(** ** GStreamer, as far as the decoder sees it *)

Inductive GstState :=
| GST_STATE_VOID_PENDING | GST_STATE_NULL | GST_STATE_READY
| GST_STATE_PAUSED | GST_STATE_PLAYING.

Inductive GstStateChangeReturn :=
| GST_STATE_CHANGE_FAILURE | GST_STATE_CHANGE_SUCCESS
| GST_STATE_CHANGE_ASYNC | GST_STATE_CHANGE_NO_PREROLL.

Inductive GstMessageType :=
| GST_MESSAGE_EOS | GST_MESSAGE_ERROR | GST_MESSAGE_WARNING
| GST_MESSAGE_STATE_CHANGED | GST_MESSAGE_ASYNC_DONE | GST_MESSAGE_OTHER.

Record GstMessage := { msg_type : GstMessageType; msg_text : string }.

(** A field of a caps structure holds an int or something else. *)
Inductive GValue := G_INT (v : Z) | G_STRING (s : string).

(** [GstStructure]: named fields, the first of a name wins. *)
Definition GstStructure := list (string * GValue).

(** [gst_structure_get_int]: the value of an int field of that name. *)
Fixpoint gst_structure_get_int (s : GstStructure) (name : string) : option Z :=
  match s with
  | [] => None
  | (k, v) :: rest =>
      if String.eqb k name
      then match v with G_INT z => Some z | G_STRING _ => None end
      else gst_structure_get_int rest name
  end.

(** [GstCaps]: [gst_caps_get_structure(caps, 0)] is its first structure. *)
Definition GstCaps := list GstStructure.

Definition gst_caps_get_structure0 (c : GstCaps) : option GstStructure :=
  match c with [] => None | s :: _ => Some s end.

(** [GstBuffer]: [buffer_data] is what mapping it for reading gives
    (GStreamer 1.0) or its data pointer (0.10); [buffer_caps] are the caps a
    0.10 buffer carries. *)
Record GstBuffer := {
  buffer_data : option buffer;
  buffer_caps : option GstCaps
}.

(** [GstSample] (GStreamer 1.0). *)
Record GstSample := {
  sample_caps : option GstCaps;
  sample_buffer : option GstBuffer
}.

(** What the appsink hands over when asked: a sample under GStreamer 1.0, a
    buffer under 0.10. *)
Record Pulled := {
  pull_sample : option GstSample;
  pull_buffer : option GstBuffer
}.

Definition handle := nat.

(** ** Calls on the collaborators, in the order they are made *)

Inductive LogLevel := LOG_ERROR | LOG_WARNING | LOG_INFO | LOG_VERBOSE | LOG_DEBUG.

Inductive Effect :=
| EvLog (lvl : LogLevel) (text : string)
| EvParseLaunch (launch : string)
| EvSetCallbacks
| EvSetState (st : GstState) (ret : GstStateChangeReturn)
| EvSleep (usec : Z)
| EvMessagePrint (m : GstMessage)
| EvPull
| EvPullPreroll
| EvUnref
| EvUnmap
| EvPublish (slot : nat) (data : buffer)
| EvWake
| EvWait (timeout : Z)
| EvConvert (src : buffer) (dst : option nat) (format : imageFormat)
            (wd ht : Z) (ok : bool)
| EvOutput (out : nat) (slot : option nat).

(** ** The decoder object and its world *)

Record gstDecoder := {
  mOptions : videoOptions;
  mLaunchStr : string;
  mAppSink : option handle;
  mBus : option handle;
  mPipeline : option handle;
  mEOS : bool;
  mStreaming : bool;
  mBufferYUV : RingBuffer.t;
  mBufferRGB : RingBuffer.t;
  mWaitEvent : Event.t
}.

(** The decoder, the state last requested of the pipeline, the messages
    waiting on the pipeline's bus, and the calls made so far. *)
Record world := {
  self : gstDecoder;
  requested_state : GstState;
  bus : list GstMessage;
  trace : list Effect
}.

Definition with_mOptions (o : videoOptions) (d : gstDecoder) : gstDecoder :=
  {| mOptions := o; mLaunchStr := mLaunchStr d; mAppSink := mAppSink d;
     mBus := mBus d; mPipeline := mPipeline d; mEOS := mEOS d;
     mStreaming := mStreaming d; mBufferYUV := mBufferYUV d;
     mBufferRGB := mBufferRGB d; mWaitEvent := mWaitEvent d |}.

Definition with_mLaunchStr (s : string) (d : gstDecoder) : gstDecoder :=
  {| mOptions := mOptions d; mLaunchStr := s; mAppSink := mAppSink d;
     mBus := mBus d; mPipeline := mPipeline d; mEOS := mEOS d;
     mStreaming := mStreaming d; mBufferYUV := mBufferYUV d;
     mBufferRGB := mBufferRGB d; mWaitEvent := mWaitEvent d |}.

Definition with_mAppSink (h : option handle) (d : gstDecoder) : gstDecoder :=
  {| mOptions := mOptions d; mLaunchStr := mLaunchStr d; mAppSink := h;
     mBus := mBus d; mPipeline := mPipeline d; mEOS := mEOS d;
     mStreaming := mStreaming d; mBufferYUV := mBufferYUV d;
     mBufferRGB := mBufferRGB d; mWaitEvent := mWaitEvent d |}.

Definition with_mBus (h : option handle) (d : gstDecoder) : gstDecoder :=
  {| mOptions := mOptions d; mLaunchStr := mLaunchStr d;
     mAppSink := mAppSink d; mBus := h; mPipeline := mPipeline d;
     mEOS := mEOS d; mStreaming := mStreaming d;
     mBufferYUV := mBufferYUV d; mBufferRGB := mBufferRGB d;
     mWaitEvent := mWaitEvent d |}.

Definition with_mPipeline (h : option handle) (d : gstDecoder) : gstDecoder :=
  {| mOptions := mOptions d; mLaunchStr := mLaunchStr d;
     mAppSink := mAppSink d; mBus := mBus d; mPipeline := h;
     mEOS := mEOS d; mStreaming := mStreaming d;
     mBufferYUV := mBufferYUV d; mBufferRGB := mBufferRGB d;
     mWaitEvent := mWaitEvent d |}.

Definition with_mEOS (b : bool) (d : gstDecoder) : gstDecoder :=
  {| mOptions := mOptions d; mLaunchStr := mLaunchStr d;
     mAppSink := mAppSink d; mBus := mBus d; mPipeline := mPipeline d;
     mEOS := b; mStreaming := mStreaming d; mBufferYUV := mBufferYUV d;
     mBufferRGB := mBufferRGB d; mWaitEvent := mWaitEvent d |}.

Definition with_mStreaming (b : bool) (d : gstDecoder) : gstDecoder :=
  {| mOptions := mOptions d; mLaunchStr := mLaunchStr d;
     mAppSink := mAppSink d; mBus := mBus d; mPipeline := mPipeline d;
     mEOS := mEOS d; mStreaming := b; mBufferYUV := mBufferYUV d;
     mBufferRGB := mBufferRGB d; mWaitEvent := mWaitEvent d |}.

Definition with_mBufferYUV (r : RingBuffer.t) (d : gstDecoder) : gstDecoder :=
  {| mOptions := mOptions d; mLaunchStr := mLaunchStr d;
     mAppSink := mAppSink d; mBus := mBus d; mPipeline := mPipeline d;
     mEOS := mEOS d; mStreaming := mStreaming d; mBufferYUV := r;
     mBufferRGB := mBufferRGB d; mWaitEvent := mWaitEvent d |}.

Definition with_mBufferRGB (r : RingBuffer.t) (d : gstDecoder) : gstDecoder :=
  {| mOptions := mOptions d; mLaunchStr := mLaunchStr d;
     mAppSink := mAppSink d; mBus := mBus d; mPipeline := mPipeline d;
     mEOS := mEOS d; mStreaming := mStreaming d;
     mBufferYUV := mBufferYUV d; mBufferRGB := r;
     mWaitEvent := mWaitEvent d |}.

Definition with_mWaitEvent (e : Event.t) (d : gstDecoder) : gstDecoder :=
  {| mOptions := mOptions d; mLaunchStr := mLaunchStr d;
     mAppSink := mAppSink d; mBus := mBus d; mPipeline := mPipeline d;
     mEOS := mEOS d; mStreaming := mStreaming d;
     mBufferYUV := mBufferYUV d; mBufferRGB := mBufferRGB d;
     mWaitEvent := e |}.

(** ** A state monad over the world *)

Definition M (A : Type) : Type := world -> A * world.

Definition ret {A : Type} (a : A) : M A := fun w => (a, w).

Definition bind {A B : Type} (m : M A) (k : A -> M B) : M B :=
  fun w => let (a, w') := m w in k a w'.

Notation "x <- m ;; k" := (bind m (fun x => k))
  (at level 100, m at next level, right associativity).
Notation "m ;; k" := (bind m (fun _ => k))
  (at level 100, right associativity).

(** Read a member of the decoder. *)
Definition member {A : Type} (f : gstDecoder -> A) : M A :=
  fun w => (f (self w), w).

(** Assign a member of the decoder. *)
Definition assign (f : gstDecoder -> gstDecoder) : M unit :=
  fun w => (tt, {| self := f (self w); requested_state := requested_state w;
                   bus := bus w; trace := trace w |}).

(** Record a call on a collaborator. *)
Definition emit (e : Effect) : M unit :=
  fun w => (tt, {| self := self w; requested_state := requested_state w;
                   bus := bus w; trace := trace w ++ [e] |}).

Definition LogError (text : string) : M unit := emit (EvLog LOG_ERROR text).
Definition LogWarning (text : string) : M unit := emit (EvLog LOG_WARNING text).
Definition LogInfo (text : string) : M unit := emit (EvLog LOG_INFO text).
Definition LogVerbose (text : string) : M unit := emit (EvLog LOG_VERBOSE text).
Definition LogDebug (text : string) : M unit := emit (EvLog LOG_DEBUG text).

(** The backend posts messages on the bus. *)
Definition post (ms : list GstMessage) : M unit :=
  fun w => (tt, {| self := self w; requested_state := requested_state w;
                   bus := bus w ++ ms; trace := trace w |}).

(** [usleep], during which the backend posts [ms]. *)
Definition usleep (usec : Z) (ms : list GstMessage) : M unit :=
  emit (EvSleep usec) ;; post ms.

(** [gst_element_set_state(mPipeline, st)]: the pipeline answers [r] and
    posts [ms]. *)
Definition gst_element_set_state (st : GstState) (r : GstStateChangeReturn)
    (ms : list GstMessage) : M GstStateChangeReturn :=
  fun w => (r, {| self := self w; requested_state := st;
                  bus := bus w ++ ms; trace := trace w ++ [EvSetState st r] |}).

(** The loop of [checkMsgBus] over the messages waiting: pop, print, unref,
    until [gst_bus_pop] returns NULL.  [gst_message_print] (gstUtility.cpp,
    not among the sources) is a call on a collaborator; its result is
    ignored. *)
Fixpoint print_all (ms : list GstMessage) : list Effect :=
  match ms with
  | [] => []
  | m :: rest => EvMessagePrint m :: print_all rest
  end.

Definition checkMsgBus : M unit :=
  fun w => (tt, {| self := self w; requested_state := requested_state w;
                   bus := []; trace := trace w ++ print_all (bus w) |}).

(** A step that may end the function early: [None] is [return false]. *)
Definition bind_opt {A B : Type} (m : M (option A)) (k : A -> M (option B))
  : M (option B) :=
  fun w => match m w with
           | (Some a, w') => k a w'
           | (None, w') => (None, w')
           end.

Notation "x <~ m ;; k" := (bind_opt m (fun x => k))
  (at level 100, m at next level, right associativity).

(** Several log lines in a row.  Log texts are the format strings of the
    source, without the [LOG_GSTREAMER] prefix and the newline. *)
Fixpoint LogErrors (texts : list string) : M unit :=
  match texts with
  | [] => ret tt
  | t :: rest => LogError t ;; LogErrors rest
  end.

(** What GStreamer and the file system answer while a decoder is set up. *)
Record InitEnv := {
  gstreamerInit : bool;
  fileExists : string -> bool;
  gst_parse_launch : string -> option handle * option string;
  GST_PIPELINE : option handle -> option handle;
  gst_pipeline_get_bus : handle -> option handle;
  gst_bin_get_by_name : handle -> string -> option handle;
  GST_APP_SINK : option handle -> option handle
}.

(** How a call that may block ends. *)
Inductive outcome (A : Type) :=
| Returns (a : A)
| BlocksForever.
Arguments Returns {A} a.
Arguments BlocksForever {A}.

Section Decoder.

(** [GST_CHECK_VERSION(1,0,0)], fixed when the decoder is compiled. *)
Variable GST_CHECK_VERSION_1_0_0 : bool.

(** [imageFormatSize(format, width, height)] (imageFormat.h is not among the
    sources). *)
Variable imageFormatSize : imageFormat -> Z -> Z -> Z.

(** [cudaConvertColor(src, srcFormat, dst, dstFormat, width, height)]
    (cudaColorspace.h is not among the sources): the bytes written to [dst],
    or [None] when CUDA reports a failure. *)
Variable cudaConvertColor :
  buffer -> imageFormat -> imageFormat -> Z -> Z -> option buffer.

Local Open Scope string_scope.

(** ** Construction *)

(** [tolower] in the C locale. *)
Definition tolower (c : ascii) : ascii :=
  let n := nat_of_ascii c in
  if ((65 <=? n) && (n <=? 90))%nat then ascii_of_nat (n + 32) else c.

(** The byte a C string starts with, lowered; a string of the model has its
    terminating NUL after its last character. *)
Definition lowered_head (s : string) : ascii :=
  match s with
  | EmptyString => zero
  | String c _ => tolower c
  end.

(** [strcasecmp]: the strings are compared byte by byte, lowered, up to the
    first NUL; the result is the difference of the first two bytes that
    differ, and 0 when none does. *)
Fixpoint strcasecmp (s1 s2 : string) : Z :=
  let c1 := lowered_head s1 in
  let c2 := lowered_head s2 in
  if negb (Ascii.eqb c1 c2) then
    (Z.of_nat (nat_of_ascii c1) - Z.of_nat (nat_of_ascii c2))%Z
  else if Ascii.eqb c1 zero then 0%Z
  else
    match s1, s2 with
    | String _ r1, String _ r2 => strcasecmp r1 r2
    | _, _ => 0%Z
    end.

(** The loop of [IsSupportedExtension] over the entries of the table from
    [extCount] on, up to the NULL that closes it. *)
Fixpoint IsSupportedExtension_from (table : list string) (ext : string) : bool :=
  match table with
  | [] => false
  | entry :: rest =>
      if (strcasecmp entry ext =? 0)%Z then true
      else IsSupportedExtension_from rest ext
  end.

(** [gstDecoder::IsSupportedExtension]; [None] is the NULL pointer. *)
Definition IsSupportedExtension (ext : option string) : bool :=
  match ext with
  | None => false
  | Some ext => IsSupportedExtension_from SupportedExtensions ext
  end.

(** [gstDecoder::buildLaunchStr] *)
Definition buildLaunchStr (env : InitEnv) : M bool :=
  o <- member mOptions ;;
  let ss := "" in
  (* determine the requested protocol to use *)
  let uri := resource o in
  r <- (ss <~
          (if protocol uri =? "file" then
             if negb (fileExists env (path uri)) then
               LogError "gstDecoder -- couldn't find file '%s'" ;; ret None
             else
               let ss := ss << "filesrc location=" << path (resource o) << " ! " in
               ss <~
                 (if extension uri =? "mkv" then
                    ret (Some (ss << "matroskademux ! "))
                  else if (extension uri =? "mp4") || (extension uri =? "qt") then
                    ret (Some (ss << "qtdemux ! "))
                  else if extension uri =? "flv" then
                    ret (Some (ss << "flvdemux ! "))
                  else if extension uri =? "avi" then
                    ret (Some (ss << "avidemux ! "))
                  else if negb (extension uri =? "h264")
                          && negb (extension uri =? "h265") then
                    LogErrors
                      ["gstDecoder -- unsupported video file extension (%s)";
                       "              supported video extensions are:";
                       "                 * mkv";
                       "                 * mp4, qt";
                       "                 * flv";
                       "                 * avi";
                       "                 * h264, h265"] ;;
                    ret None
                  else ret (Some ss)) ;;
               let ss := ss << "queue ! " in
               let ss :=
                 match codec o with
                 | CODEC_H264 => ss << "h264parse ! "
                 | CODEC_H265 => ss << "h265parse ! "
                 | CODEC_MPEG2 => ss << "mpegvideoparse ! "
                 | CODEC_MPEG4 => ss << "mpeg4videoparse ! "
                 | _ => ss
                 end in
               assign (fun d => with_mOptions
                                  (set_deviceType DEVICE_FILE (mOptions d)) d) ;;
               ret (Some ss)
           else if protocol uri =? "rtp" then
             if (port uri <=? 0)%Z then
               LogError "gstDecoder -- invalid RTP port (%i)" ;; ret None
             else
               let ss := ss << "udpsrc port=" << string_of_Z (port uri) in
               let ss := ss << " multicast-group=" << path uri
                            << " auto-multicast=true" in
               let ss := ss << " caps=" << dquote
                            << "application/x-rtp,media=(string)video,clock-rate=(int)90000,encoding-name=(string)" in
               let ss :=
                 match codec o with
                 | CODEC_H264 =>
                     ss << "H264" << dquote << " ! rtph264depay ! h264parse ! "
                 | CODEC_H265 =>
                     ss << "H265" << dquote << " ! rtph265depay ! h265parse ! "
                 | CODEC_VP8 => ss << "VP8" << dquote << " ! rtpvp8depay ! "
                 | CODEC_VP9 => ss << "VP9" << dquote << " ! rtpvp9depay ! "
                 | _ => ss
                 end in
               assign (fun d => with_mOptions
                                  (set_deviceType DEVICE_IP (mOptions d)) d) ;;
               ret (Some ss)
           else if protocol uri =? "rtsp" then
             let ss := ss << "rtspsrc location=" << uri_string uri in
             let ss := ss << " ! queue ! " in
             let ss :=
               match codec o with
               | CODEC_H264 => ss << "rtph264depay ! h264parse ! "
               | CODEC_H265 => ss << "rtph265depay ! h265parse ! "
               | CODEC_VP8 => ss << "rtpvp8depay ! "
               | CODEC_VP9 => ss << "rtpvp9depay ! "
               | _ => ss
               end in
             assign (fun d => with_mOptions
                                (set_deviceType DEVICE_IP (mOptions d)) d) ;;
             ret (Some ss)
           else
             LogErrors ["gstDecoder -- unsupported protocol (%s)";
                        "              supported protocols are:";
                        "                 * file://";
                        "                 * rtp://";
                        "                 * rtsp://"] ;;
             ret None) ;;
        ss <~
          (let dec (new old : string) : M (option string) :=
             ret (Some (ss << (if GST_CHECK_VERSION_1_0_0 then new else old))) in
           match codec o with
           | CODEC_H264 => dec "omxh264dec ! " "nv_omx_h264dec ! "
           | CODEC_H265 => dec "omxh265dec ! " "nv_omx_h265dec ! "
           | CODEC_VP8 => dec "omxvp8dec ! " "nv_omx_vp8dec ! "
           | CODEC_VP9 => dec "omxvp9dec ! " "nv_omx_vp9dec ! "
           | CODEC_MPEG2 => dec "omxmpeg2videodec ! " "nx_omx_mpeg2videodec ! "
           | CODEC_MPEG4 => dec "omxmpeg4videodec ! " "nx_omx_mpeg4videodec ! "
           | _ =>
               LogErrors ["gstDecoder -- unsupported codec requested (%s)";
                          "              supported decoder codecs are:";
                          "                 * h264";
                          "                 * h265";
                          "                 * vp8";
                          "                 * vp9";
                          "                 * mpeg2";
                          "                 * mpeg4"] ;;
               ret None
           end) ;;
        (* resize if requested *)
        let sized := negb (width o =? 0)%Z && negb (height o =? 0)%Z in
        let ss :=
          if sized || negb (is_FLIP_NONE (flipMethod o)) then
            let ss := ss << "nvvidconv" in
            let ss :=
              if negb (is_FLIP_NONE (flipMethod o))
              then ss << " flip-method=" << string_of_Z (flip_int (flipMethod o))
              else ss in
            let ss := ss << " ! video/x-raw" in
            let ss :=
              if sized
              then ss << ", width=(int)" << string_of_Z (width o)
                      << ", height=(int)" << string_of_Z (height o)
                      << ", format=(string)NV12"
              else ss in
            ss << " ! "
          else ss << "video/x-raw ! " in
        let ss := ss << "appsink name=mysink" in
        ret (Some ss)) ;;
  match r with
  | None => ret false
  | Some ss =>
      assign (with_mLaunchStr ss) ;;
      LogInfo "gstDecoder -- pipeline string:" ;;
      LogInfo "%s" ;;
      ret true
  end.

(** [gstDecoder::init] *)
Definition init (env : InitEnv) : M bool :=
  if negb (gstreamerInit env) then
    LogError "failed to initialize gstreamer API" ;; ret false
  else
    (* build pipeline string *)
    built <- buildLaunchStr env ;;
    if negb built then
      LogError "gstDecoder -- failed to build pipeline string" ;; ret false
    else
      (* create pipeline *)
      launch <- member mLaunchStr ;;
      emit (EvParseLaunch launch) ;;
      let (pipe, err) := gst_parse_launch env launch in
      assign (with_mPipeline pipe) ;;
      match err with
      | Some _ =>
          LogErrors ["gstDecoder -- failed to create pipeline"; "   (%s)"] ;;
          ret false
      | None =>
          match GST_PIPELINE env pipe with
          | None =>
              LogError "gstDecoder -- failed to cast GstElement into GstPipeline" ;;
              ret false
          | Some pipeline =>
              (* retrieve pipeline bus *)
              assign (with_mBus (gst_pipeline_get_bus env pipeline)) ;;
              match gst_pipeline_get_bus env pipeline with
              | None =>
                  LogError "gstDecoder -- failed to retrieve GstBus from pipeline" ;;
                  ret false
              | Some _ =>
                  (* get the appsrc *)
                  let appsinkElement := gst_bin_get_by_name env pipeline "mysink" in
                  let appsink := GST_APP_SINK env appsinkElement in
                  match appsinkElement, appsink with
                  | Some _, Some _ =>
                      assign (with_mAppSink appsink) ;;
                      (* setup callbacks *)
                      emit EvSetCallbacks ;;
                      ret true
                  | _, _ =>
                      LogError "gstDecoder -- failed to retrieve AppSink element from pipeline" ;;
                      ret false
                  end
              end
          end
      end.

(** The constructor, after [videoSource(options)] has stored the options and
    cleared [mStreaming]. *)
Definition construct (options : videoOptions) : gstDecoder :=
  {| mOptions := options; mLaunchStr := ""; mAppSink := None; mBus := None;
     mPipeline := None; mEOS := false; mStreaming := false;
     mBufferYUV := RingBuffer.empty; mBufferRGB := RingBuffer.empty;
     mWaitEvent := Event.init |}.

(** The world of a decoder just constructed. *)
Definition new_world (options : videoOptions) : world :=
  {| self := construct options; requested_state := GST_STATE_NULL;
     bus := []; trace := [] |}.

(** [gstDecoder::Create(const videoOptions&)]: the decoder, or [None] for
    NULL, and the world it leaves. *)
Definition Create (env : InitEnv) (options : videoOptions)
  : option gstDecoder * world :=
  let (ok, w) := init env (new_world options) in
  if ok then (Some (self w), w)
  else
    let (_, w) := LogError "gstDecoder -- failed to create decoder engine" w in
    (None, w).

(** ** Backend callbacks *)

(** The [user_data] pointer a callback receives: NULL, or the decoder that
    registered the callback. *)
Inductive UserData := UD_NULL | UD_this.

Inductive GstFlowReturn := GST_FLOW_OK.

(** [gstDecoder::onEOS] *)
Definition onEOS (user_data : UserData) : M unit :=
  LogWarning "gstDecoder -- end of stream (EOS)" ;;
  match user_data with
  | UD_NULL => ret tt
  | UD_this =>
      assign (with_mEOS true) ;;
      assign (with_mStreaming false)
  end.

(** [gstDecoder::onPreroll]; [preroll] is what [gst_app_sink_pull_preroll]
    hands over. *)
Definition onPreroll (user_data : UserData) (preroll : option GstSample)
  : M GstFlowReturn :=
  LogVerbose "gstDecoder -- onPreroll()" ;;
  match user_data with
  | UD_NULL => ret GST_FLOW_OK
  | UD_this =>
      if GST_CHECK_VERSION_1_0_0 then
        (* onPreroll gets called sometimes, just pull and free the buffer *)
        emit EvPullPreroll ;;
        match preroll with
        | None =>
            LogError "gstDecoder -- app_sink_pull_sample() returned NULL..." ;;
            ret GST_FLOW_OK
        | Some _ =>
            emit EvUnref ;;
            checkMsgBus ;;
            ret GST_FLOW_OK
        end
      else
        checkMsgBus ;;
        ret GST_FLOW_OK
  end.

(** The macro [release_return]: unref the sample (or buffer) and return. *)
Definition release_return {A : Type} : M (option A) :=
  emit EvUnref ;; ret None.

(** [Wake()] on [mWaitEvent]. *)
Definition Wake : M unit :=
  assign (fun d => with_mWaitEvent (Event.Wake (mWaitEvent d)) d) ;;
  emit EvWake.

(** [gstDecoder::checkBuffer]; [p] is what the appsink hands over and
    [mem_ok] what the allocator answers should the ring buffer ask. *)
Definition checkBuffer (p : Pulled) (mem_ok : bool) : M unit :=
  sink <- member mAppSink ;;
  match sink with
  | None => ret tt
  | Some _ =>
      (emit EvPull ;;
         got <~
           (if GST_CHECK_VERSION_1_0_0 then
              (* block waiting for the sample *)
              match pull_sample p with
              | None =>
                  LogError "gstDecoder -- app_sink_pull_sample() returned NULL..." ;;
                  ret None
              | Some gstSample =>
                  (* retrieve sample caps *)
                  match sample_caps gstSample with
                  | None =>
                      LogError "gstDecoder -- gst_sample had NULL caps..." ;;
                      release_return
                  | Some gstCaps =>
                      (* retrieve the buffer from the sample *)
                      match sample_buffer gstSample with
                      | None =>
                          LogError "gstDecoder -- app_sink_pull_sample() returned NULL..." ;;
                          release_return
                      | Some gstBuffer =>
                          (* map the buffer memory for read access *)
                          match buffer_data gstBuffer with
                          | None =>
                              LogError "gstDecoder -- failed to map gstreamer buffer memory" ;;
                              release_return
                          | Some gstData => ret (Some (gstData, gstCaps))
                          end
                      end
                  end
              end
            else
              (* block waiting for the buffer *)
              match pull_buffer p with
              | None =>
                  LogError "gstDecoder -- app_sink_pull_buffer() returned NULL..." ;;
                  ret None
              | Some gstBuffer =>
                  (* retrieve data pointer *)
                  match buffer_data gstBuffer with
                  | None =>
                      LogError "gstDecoder -- gst_buffer had NULL data pointer..." ;;
                      release_return
                  | Some gstData =>
                      (* retrieve caps *)
                      match buffer_caps gstBuffer with
                      | None =>
                          LogError "gstDecoder -- gst_buffer had NULL caps..." ;;
                          release_return
                      | Some gstCaps => ret (Some (gstData, gstCaps))
                      end
                  end
              end) ;;
         let gstData := fst got in
         let gstCaps := snd got in
         (* const guint gstSize *)
         let gstSize := (Z.of_nat (length gstData) mod 2 ^ 32)%Z in
         (* retrieve caps structure *)
         match gst_caps_get_structure0 gstCaps with
         | None =>
             LogError "gstDecoder -- gst_caps had NULL structure..." ;;
             release_return
         | Some gstCapsStruct =>
             (* retrieve the width and height of the buffer *)
             match gst_structure_get_int gstCapsStruct "width",
                   gst_structure_get_int gstCapsStruct "height" with
             | Some width, Some height =>
                 LogDebug "gstDecoder -- recieved %ix%i frame" ;;
                 if (width <? 1)%Z || (height <? 1)%Z then release_return
                 else
                   assign (fun d => with_mOptions
                                      (set_size width height (mOptions d)) d) ;;
                   (* allocate ringbuffer *)
                   o <- member mOptions ;;
                   yuv <- member mBufferYUV ;;
                   let (ok, yuv) :=
                     RingBuffer.Alloc (numBuffers o) gstSize true mem_ok yuv in
                   assign (with_mBufferYUV yuv) ;;
                   if negb ok then
                     LogError "gstDecoder -- failed to allocate %u buffers (%u bytes each)" ;;
                     release_return
                   else
                     (* copy to next ringbuffer *)
                     match RingBuffer.Peek_Write yuv with
                     | None =>
                         LogError "gstDecoder -- failed to retrieve next ringbuffer for writing" ;;
                         release_return
                     | Some nextBuffer =>
                         let yuv :=
                           RingBuffer.fill nextBuffer
                             (firstn (Z.to_nat gstSize) gstData) yuv in
                         let (_, yuv) := RingBuffer.Next_Write yuv in
                         assign (with_mBufferYUV yuv) ;;
                         emit (EvPublish (RingBuffer.latestWrite yuv)
                                 (RingBuffer.contents
                                    (RingBuffer.latestWrite yuv) yuv)) ;;
                         Wake ;;
                         (if GST_CHECK_VERSION_1_0_0 then emit EvUnmap
                          else ret tt) ;;
                         release_return
                     end
             | _, _ =>
                 LogError "gstDecoder -- gst_caps missing width/height..." ;;
                 release_return
             end
         end : M (option unit)) ;;
      ret tt
  end.

(** [gstDecoder::onBuffer] *)
Definition onBuffer (user_data : UserData) (p : Pulled) (mem_ok : bool)
  : M GstFlowReturn :=
  match user_data with
  | UD_NULL => ret GST_FLOW_OK
  | UD_this =>
      checkBuffer p mem_ok ;;
      checkMsgBus ;;
      ret GST_FLOW_OK
  end.

(** What the backend thread may do between, or during, consumer calls. *)
Inductive BackendStep :=
| CbEOS (user_data : UserData)
| CbPreroll (user_data : UserData) (preroll : option GstSample)
| CbBuffer (user_data : UserData) (p : Pulled) (mem_ok : bool)
| BusPost (ms : list GstMessage).

Definition backend_step (b : BackendStep) : M unit :=
  match b with
  | CbEOS u => onEOS u
  | CbPreroll u s => onPreroll u s ;; ret tt
  | CbBuffer u p mem_ok => onBuffer u p mem_ok ;; ret tt
  | BusPost ms => post ms
  end.

Fixpoint backend_steps (bs : list BackendStep) : M unit :=
  match bs with
  | [] => ret tt
  | b :: rest => backend_step b ;; backend_steps rest
  end.

(** ** The capture state machine *)

(** What the pipeline answers to a state change, and what it posts on the
    bus at once and during the sleep that follows. *)
Record PipelineEnv := {
  set_state_ret : GstStateChangeReturn;
  posted : list GstMessage;
  posted_asleep : list GstMessage
}.

(** [gstDecoder::Open] *)
Definition Open (env : PipelineEnv) : M bool :=
  eos <- member mEOS ;;
  if eos then
    LogError "gstDecoder -- End of Stream (EOS) has been reached, stream has been closed" ;;
    ret false
  else
    streaming <- member mStreaming ;;
    if streaming then ret true
    else
      (* transition pipline to STATE_PLAYING *)
      LogInfo "opening gstDecoder for streaming, transitioning pipeline to GST_STATE_PLAYING" ;;
      result <- gst_element_set_state GST_STATE_PLAYING
                  (set_state_ret env) (posted env) ;;
      proceed <-
        match result with
        | GST_STATE_CHANGE_ASYNC => ret true
        | GST_STATE_CHANGE_SUCCESS => ret true
        | _ =>
            LogError "gstDecoder -- failed to set pipeline state to PLAYING (error %u)" ;;
            ret false
        end ;;
      if negb proceed then ret false
      else
        checkMsgBus ;;
        usleep (100 * 1000) (posted_asleep env) ;;
        checkMsgBus ;;
        assign (with_mStreaming true) ;;
        ret true.

(** [gstDecoder::Open] while the backend thread runs: the callbacks
    [asleep] fire during the sleep between the two polls of the bus. *)
Definition Open_meanwhile (env : PipelineEnv) (asleep : list BackendStep)
  : M bool :=
  eos <- member mEOS ;;
  if eos then
    LogError "gstDecoder -- End of Stream (EOS) has been reached, stream has been closed" ;;
    ret false
  else
    streaming <- member mStreaming ;;
    if streaming then ret true
    else
      (* transition pipline to STATE_PLAYING *)
      LogInfo "opening gstDecoder for streaming, transitioning pipeline to GST_STATE_PLAYING" ;;
      result <- gst_element_set_state GST_STATE_PLAYING
                  (set_state_ret env) (posted env) ;;
      proceed <-
        match result with
        | GST_STATE_CHANGE_ASYNC => ret true
        | GST_STATE_CHANGE_SUCCESS => ret true
        | _ =>
            LogError "gstDecoder -- failed to set pipeline state to PLAYING (error %u)" ;;
            ret false
        end ;;
      if negb proceed then ret false
      else
        checkMsgBus ;;
        usleep (100 * 1000) (posted_asleep env) ;;
        backend_steps asleep ;;
        checkMsgBus ;;
        assign (with_mStreaming true) ;;
        ret true.

(** [gstDecoder::Close] *)
Definition Close (env : PipelineEnv) : M unit :=
  streaming <- member mStreaming ;;
  eos <- member mEOS ;;
  (* if EOS was set, the pipeline is actually open *)
  if negb streaming && negb eos then ret tt
  else
    (* stop pipeline *)
    LogInfo "gstDecoder -- stopping pipeline, transitioning to GST_STATE_NULL" ;;
    result <- gst_element_set_state GST_STATE_NULL
                (set_state_ret env) (posted env) ;;
    match result with
    | GST_STATE_CHANGE_SUCCESS => ret tt
    | _ => LogError "gstDecoder -- failed to stop pipeline (error %u)"
    end ;;
    usleep (250 * 1000) (posted_asleep env) ;;
    checkMsgBus ;;
    assign (with_mStreaming false) ;;
    LogInfo "gstDecoder -- pipeline stopped".

(** [gstDecoder::~gstDecoder]: the stream is closed; then each handle that
    is not NULL is passed to [gst_object_unref] and set to NULL.  The result
    lists the handles passed to [gst_object_unref], in that order. *)
Definition destructor (env : PipelineEnv) : M (list handle) :=
  Close env ;;
  sink <- member mAppSink ;;
  unref1 <-
    match sink with
    | Some h => assign (with_mAppSink None) ;; ret [h]
    | None => ret []
    end ;;
  b <- member mBus ;;
  unref2 <-
    match b with
    | Some h => assign (with_mBus None) ;; ret [h]
    | None => ret []
    end ;;
  pipe <- member mPipeline ;;
  unref3 <-
    match pipe with
    | Some h => assign (with_mPipeline None) ;; ret [h]
    | None => ret []
    end ;;
  ret (unref1 ++ unref2 ++ unref3)%list.

(** Modelled from the spec: [Wait(timeoutMillis)] of the Event class
    "blocks until woken or timeout elapses, returns success/failure"; a
    pending wake is taken at once; "timeout of zero means
    poll-without-blocking"; the infinite value never times out.  While the
    consumer is blocked the backend thread runs [arrivals]. *)
Definition Wait (timeout : Z) (arrivals : list BackendStep)
  : M (outcome bool) :=
  emit (EvWait timeout) ;;
  ev <- member mWaitEvent ;;
  if Event.pending ev then
    assign (with_mWaitEvent (snd (Event.take ev))) ;;
    ret (Returns true)
  else if (timeout =? 0)%Z then ret (Returns false)
  else
    backend_steps arrivals ;;
    ev <- member mWaitEvent ;;
    if Event.pending ev then
      assign (with_mWaitEvent (snd (Event.take ev))) ;;
      ret (Returns true)
    else if (timeout =? Event.INFINITE)%Z then ret BlocksForever
    else ret (Returns false).

(** What the collaborators answer during one [Capture]. *)
Record CaptureEnv := {
  cap_open : PipelineEnv;
  cap_arrivals : list BackendStep;
  cap_mem_ok : bool
}.

(** [gstDecoder::Capture]; [output] is the address the caller passes, [None]
    for NULL. *)
Definition Capture (output : option nat) (format : imageFormat) (timeout : Z)
    (env : CaptureEnv) : M (outcome bool) :=
  (* verify the output pointer exists *)
  match output with
  | None => ret (Returns false)
  | Some out =>
      (* confirm the stream is open *)
      streaming <- member mStreaming ;;
      opened <- (if negb streaming then Open (cap_open env) else ret true) ;;
      if negb opened then ret (Returns false)
      else
        (* wait until a new frame is recieved *)
        waited <- Wait timeout (cap_arrivals env) ;;
        match waited with
        | BlocksForever => ret BlocksForever
        | Returns false => ret (Returns false)
        | Returns true =>
            (* get the latest ringbuffer *)
            yuv <- member mBufferYUV ;;
            let (latestYUV, yuv) := RingBuffer.Next_ReadLatestOnce yuv in
            assign (with_mBufferYUV yuv) ;;
            match latestYUV with
            | None => ret (Returns false)
            | Some latest =>
                (* allocate ringbuffer for colorspace conversion *)
                o <- member mOptions ;;
                let rgbBufferSize :=
                  imageFormatSize format (width o) (height o) in
                rgb <- member mBufferRGB ;;
                let (ok, rgb) :=
                  RingBuffer.Alloc (numBuffers o) rgbBufferSize (zeroCopy o)
                    (cap_mem_ok env) rgb in
                assign (with_mBufferRGB rgb) ;;
                if negb ok then
                  LogError "gstDecoder -- failed to allocate %u buffers (%zu bytes each)" ;;
                  ret (Returns false)
                else
                  (* perform colorspace conversion *)
                  let (nextRGB, rgb) := RingBuffer.Next_Write rgb in
                  assign (with_mBufferRGB rgb) ;;
                  let src := RingBuffer.contents latest yuv in
                  (* the conversion fails when CUDA says so, and on the
                     NULL destination of a pool of no slots *)
                  match nextRGB,
                        cudaConvertColor src IMAGE_NV12 format
                          (width o) (height o) with
                  | Some slot, Some converted =>
                      emit (EvConvert src nextRGB format
                              (width o) (height o) true) ;;
                      assign (with_mBufferRGB
                                (RingBuffer.fill slot converted rgb)) ;;
                      emit (EvOutput out nextRGB) ;;
                      ret (Returns true)
                  | _, _ =>
                      emit (EvConvert src nextRGB format
                              (width o) (height o) false) ;;
                      LogErrors
                        ["gstDecoder::Capture() -- unsupported image format (%s)";
                         "                         supported formats are:";
                         "                             * rgb8";
                         "                             * rgba8";
                         "                             * rgb32f";
                         "                             * rgba32f"] ;;
                      ret (Returns false)
                  end
            end
        end
  end.

(** ** Runs: consumer calls and backend steps, one after the other *)

Inductive Call :=
| CallOpen (env : PipelineEnv)
| CallClose (env : PipelineEnv)
| CallCapture (output : option nat) (format : imageFormat) (timeout : Z)
              (env : CaptureEnv)
| Backend (b : BackendStep).

Inductive Result :=
| ROpen (b : bool)
| RClose
| RCapture (r : outcome bool)
| RBackend.

Definition call (c : Call) : M Result :=
  match c with
  | CallOpen env => b <- Open env ;; ret (ROpen b)
  | CallClose env => Close env ;; ret RClose
  | CallCapture output format timeout env =>
      r <- Capture output format timeout env ;; ret (RCapture r)
  | Backend b => backend_step b ;; ret RBackend
  end.

Fixpoint run (cs : list Call) : M (list Result) :=
  match cs with
  | [] => ret []
  | c :: rest => r <- call c ;; rs <- run rest ;; ret (r :: rs)
  end.

(** ** What a trace shows *)

Local Open Scope list_scope.

(** The frames published to the raw ring buffer, oldest first. *)
Definition published (t : list Effect) : list buffer :=
  omap (fun e => match e with EvPublish _ d => Some d | _ => None end) t.

(** The raw frames handed to the caller (converted with success), oldest
    first. *)
Definition delivered (t : list Effect) : list buffer :=
  omap (fun e => match e with
                 | EvConvert src _ _ _ _ true => Some src
                 | _ => None
                 end) t.

(** The wakes of the consumer. *)
Definition wakes (t : list Effect) : list unit :=
  omap (fun e => match e with EvWake => Some tt | _ => None end) t.

(** The waits on the wait/wake signal, by their timeouts. *)
Definition waits (t : list Effect) : list Z :=
  omap (fun e => match e with EvWait timeout => Some timeout | _ => None end) t.

(** The pipeline descriptions handed to [gst_parse_launch]. *)
Definition launched (t : list Effect) : list string :=
  omap (fun e => match e with EvParseLaunch l => Some l | _ => None end) t.

(** The state changes asked of the pipeline. *)
Definition state_changes (t : list Effect) : list GstState :=
  omap (fun e => match e with EvSetState st _ => Some st | _ => None end) t.

(** [in_order parts s]: the texts [parts] occur in [s] one after the other,
    without overlap. *)
Fixpoint in_order (parts : list string) (s : string) : Prop :=
  match parts with
  | [] => True
  | p :: rest =>
      exists pre post, s = (pre ++ p ++ post)%string /\ in_order rest post
  end.

(** The decoder stage of an H.264 pipeline, by GStreamer version. *)
Definition h264_decoder : string :=
  if GST_CHECK_VERSION_1_0_0 then "omxh264dec" else "nv_omx_h264dec".

(** The caps of what the appsink hands over: of the sample under GStreamer
    1.0, of the buffer under 0.10. *)
Definition pulled_caps (p : Pulled) : option GstCaps :=
  if GST_CHECK_VERSION_1_0_0
  then match pull_sample p with
       | Some gstSample => sample_caps gstSample
       | None => None
       end
  else match pull_buffer p with
       | Some gstBuffer => buffer_caps gstBuffer
       | None => None
       end.

(** The first structure of those caps. *)
Definition pulled_structure (p : Pulled) : option GstStructure :=
  match pulled_caps p with
  | Some gstCaps => gst_caps_get_structure0 gstCaps
  | None => None
  end.

(** The int field [name] the caps declare. *)
Definition declared (p : Pulled) (name : string) : option Z :=
  match pulled_structure p with
  | Some gstCapsStruct => gst_structure_get_int gstCapsStruct name
  | None => None
  end.

(** The frame bytes of what the appsink hands over. *)
Definition pulled_data (p : Pulled) : option buffer :=
  if GST_CHECK_VERSION_1_0_0
  then match pull_sample p with
       | Some gstSample =>
           match sample_buffer gstSample with
           | Some gstBuffer => buffer_data gstBuffer
           | None => None
           end
       | None => None
       end
  else match pull_buffer p with
       | Some gstBuffer => buffer_data gstBuffer
       | None => None
       end.

(** The ways ingestion fails that the frame callback must survive: no
    capability metadata, no width or height in it, or no memory for the ring
    buffer the frame asks for. *)
Inductive ingestion_fails (p : Pulled) (mem_ok : bool) (w : world) : Prop :=
| no_metadata :
    pulled_structure p = None -> ingestion_fails p mem_ok w
| no_size :
    declared p "width" = None \/ declared p "height" = None ->
    ingestion_fails p mem_ok w
| no_memory (gstData : buffer) :
    pulled_data p = Some gstData ->
    fst (RingBuffer.Alloc (numBuffers (mOptions (self w)))
           (Z.of_nat (length gstData) mod 2 ^ 32)%Z true mem_ok
           (mBufferYUV (self w))) = false ->
    ingestion_fails p mem_ok w.

(** [const guint gstSize = map.size] *)
Definition gstSize_of (gstData : buffer) : Z :=
  (Z.of_nat (length gstData) mod 2 ^ 32)%Z.

(** The three ways [checkBuffer] leaves the world [w'] it reaches from [w]:
    the frame was dropped and the decoder is as before; or its size was
    stored but no slot could be had; or it was published and the consumer
    woken. *)
Inductive ingested (p : Pulled) (mem_ok : bool) (w w' : world) : Prop :=
| frame_dropped :
    mAppSink (self w) = None \/
    pulled_data p = None \/
    declared p "width" = None \/
    declared p "height" = None \/
    (exists wd ht, declared p "width" = Some wd /\
                   declared p "height" = Some ht /\ (wd < 1 \/ ht < 1)%Z) ->
    self w' = self w ->
    published (trace w') = published (trace w) ->
    wakes (trace w') = wakes (trace w) ->
    ingested p mem_ok w w'
| frame_sized (gstData : buffer) (wd ht : Z) (ok : bool) (yuv : RingBuffer.t) :
    pulled_data p = Some gstData ->
    declared p "width" = Some wd ->
    declared p "height" = Some ht ->
    (1 <= wd)%Z -> (1 <= ht)%Z ->
    RingBuffer.Alloc (numBuffers (mOptions (self w))) (gstSize_of gstData)
      true mem_ok (mBufferYUV (self w)) = (ok, yuv) ->
    ok = false \/ RingBuffer.Peek_Write yuv = None ->
    self w' = with_mBufferYUV yuv
                (with_mOptions (set_size wd ht (mOptions (self w))) (self w)) ->
    published (trace w') = published (trace w) ->
    wakes (trace w') = wakes (trace w) ->
    ingested p mem_ok w w'
| frame_published (gstData : buffer) (wd ht : Z) (yuv : RingBuffer.t)
    (nextBuffer : nat) :
    pulled_data p = Some gstData ->
    declared p "width" = Some wd ->
    declared p "height" = Some ht ->
    (1 <= wd)%Z -> (1 <= ht)%Z ->
    RingBuffer.Alloc (numBuffers (mOptions (self w))) (gstSize_of gstData)
      true mem_ok (mBufferYUV (self w)) = (true, yuv) ->
    RingBuffer.Peek_Write yuv = Some nextBuffer ->
    let yuv' :=
      snd (RingBuffer.Next_Write
             (RingBuffer.fill nextBuffer
                (firstn (Z.to_nat (gstSize_of gstData)) gstData) yuv)) in
    self w' = with_mWaitEvent (Event.Wake (mWaitEvent (self w)))
                (with_mBufferYUV yuv'
                   (with_mOptions (set_size wd ht (mOptions (self w)))
                      (self w))) ->
    published (trace w') =
      published (trace w)
      ++ [RingBuffer.contents (RingBuffer.latestWrite yuv') yuv'] ->
    wakes (trace w') = wakes (trace w) ++ [tt] ->
    ingested p mem_ok w w'.

(** Two configurations that differ at most in width and height. *)
Definition same_but_size (o o' : videoOptions) : Prop :=
  o' = set_size (width o') (height o') o.

(** The frames a backend step, a call and a run offer to the frame
    callback of the decoder. *)
Definition frames_of_step (b : BackendStep) : list Pulled :=
  match b with
  | CbBuffer UD_this p _ => [p]
  | _ => []
  end.

Definition frames_of_call (c : Call) : list Pulled :=
  match c with
  | Backend b => frames_of_step b
  | CallCapture _ _ _ env => flat_map frames_of_step (cap_arrivals env)
  | _ => []
  end.

Definition frames_of_run (cs : list Call) : list Pulled :=
  flat_map frames_of_call cs.

(** [sized_by ps o o']: the configuration [o'] is [o], or it is [o] with
    the width and height that one of the frames [ps] declares, a frame that
    has its bytes and declares at least 1 by 1. *)
Definition sized_by (ps : list Pulled) (o o' : videoOptions) : Prop :=
  o' = o \/
  exists (p : Pulled) (wd ht : Z),
    In p ps /\ pulled_data p <> None /\
    declared p "width" = Some wd /\ declared p "height" = Some ht /\
    (1 <= wd)%Z /\ (1 <= ht)%Z /\
    o' = set_size wd ht o.

(** The frame waiting in the raw ring buffer: published, and not read yet. *)
Definition pending (w : world) : list buffer :=
  let yuv := mBufferYUV (self w) in
  if RingBuffer.fresh yuv
  then [RingBuffer.contents (RingBuffer.latestWrite yuv) yuv]
  else [].

(** [follows w w']: from [w] to [w'] the configuration changed at most in
    width and height, and the frames delivered on the way, then the frame
    left waiting, are taken in order from the frame that was waiting and the
    frames published on the way. *)
Definition follows (w w' : world) : Prop :=
  same_but_size (mOptions (self w)) (mOptions (self w')) /\
  exists D P : list buffer,
    delivered (trace w') = delivered (trace w) ++ D /\
    published (trace w') = published (trace w) ++ P /\
    sublist (D ++ pending w') (pending w ++ P).

(** How many of the calls of a run were captures that returned true. *)
Fixpoint captures (rs : list Result) : nat :=
  match rs with
  | [] => 0
  | RCapture (Returns true) :: rest => S (captures rest)
  | _ :: rest => captures rest
  end.

(** The answers to a state change that let [Open] go on: success, or a
    change that completes asynchronously. *)
Definition start_accepted (r : GstStateChangeReturn) : bool :=
  match r with
  | GST_STATE_CHANGE_ASYNC | GST_STATE_CHANGE_SUCCESS => true
  | _ => false
  end.

(** The stream state Closed: not streaming, and no end of stream seen. *)
Definition Closed (w : world) : Prop :=
  mStreaming (self w) = false /\ mEOS (self w) = false.

(** The stream state EndOfStream, as [onEOS] sets it. *)
Definition EndOfStream (w : world) : Prop :=
  mEOS (self w) = true /\ mStreaming (self w) = false.

(** ** Further vocabulary *)

(** The characters of a string of the model that a C function sees: those
    before the first NUL. *)
Fixpoint c_str (s : string) : string :=
  match s with
  | EmptyString => EmptyString
  | String c r => if Ascii.eqb c zero then EmptyString else String c (c_str r)
  end.

(** A string with its upper-case letters lowered. *)
Fixpoint lowercase (s : string) : string :=
  match s with
  | EmptyString => EmptyString
  | String c r => String (tolower c) (lowercase r)
  end.

(** The resources [buildLaunchStr] can read: an existing file with one of
    the supported extensions, an RTP port above 0, or any RTSP stream. *)
Definition source_usable (env : InitEnv) (o : videoOptions) : bool :=
  if protocol (resource o) =? "file" then
    fileExists env (path (resource o)) &&
    existsb (String.eqb (extension (resource o))) SupportedExtensions
  else if protocol (resource o) =? "rtp" then (0 <? port (resource o))%Z
  else protocol (resource o) =? "rtsp".

(** The codecs [buildLaunchStr] has a decoder element for. *)
Definition codec_known (c : Codec) : bool :=
  match c with
  | CODEC_UNKNOWN => false
  | _ => true
  end.

(** A stretch of a trace that holds nothing but log lines. *)
Definition logs_only (t : list Effect) : Prop :=
  Forall (fun e => match e with EvLog _ _ => True | _ => False end) t.

(** The double quotes in a text. *)
Fixpoint quotes (s : string) : nat :=
  match s with
  | EmptyString => 0
  | String c r => (if Ascii.eqb c (ascii_of_nat 34) then 1 else 0) + quotes r
  end.

(** The registrations of the callbacks with the appsink. *)
Definition callbacks_set (t : list Effect) : list unit :=
  omap (fun e => match e with EvSetCallbacks => Some tt | _ => None end) t.

(** The bus messages printed, oldest first. *)
Definition printed (t : list Effect) : list GstMessage :=
  omap (fun e => match e with EvMessagePrint m => Some m | _ => None end) t.

(** The samples and buffers given back to GStreamer. *)
Definition unrefs (t : list Effect) : list unit :=
  omap (fun e => match e with EvUnref => Some tt | _ => None end) t.

(** The buffers unmapped. *)
Definition unmaps (t : list Effect) : list unit :=
  omap (fun e => match e with EvUnmap => Some tt | _ => None end) t.

(** Whether the appsink handed something over: a sample under GStreamer
    1.0, a buffer under 0.10. *)
Definition handed_over (p : Pulled) : bool :=
  if GST_CHECK_VERSION_1_0_0
  then match pull_sample p with Some _ => true | None => false end
  else match pull_buffer p with Some _ => true | None => false end.

(** Two decoders wired alike: the same launch string and the same three
    GStreamer handles. *)
Definition wired_as (d d' : gstDecoder) : Prop :=
  mLaunchStr d' = mLaunchStr d /\ mAppSink d' = mAppSink d /\
  mBus d' = mBus d /\ mPipeline d' = mPipeline d.

(** The two flags agree: a decoder that has seen the end of the stream is
    not streaming. *)
Definition flags_agree (d : gstDecoder) : Prop :=
  mEOS d = true -> mStreaming d = false.

(** [keeps w w']: from [w] to [w'] the wiring is kept, [mEOS] is not
    cleared, and flags that agreed still agree. *)
Definition keeps (w w' : world) : Prop :=
  wired_as (self w) (self w') /\
  (mEOS (self w) = true -> mEOS (self w') = true) /\
  (flags_agree (self w) -> flags_agree (self w')).

(** ** Sample inputs *)

(** An H.264 stream in an mp4 file, nothing pre-specified. *)
Definition sample_options : videoOptions :=
  {| resource := {| uri_string := "file:///media/clip.mp4";
                    protocol := "file"; path := "/media/clip.mp4";
                    extension := "mp4"; port := (-1)%Z |};
     width := 0; height := 0; numBuffers := 4; zeroCopy := true;
     flipMethod := FLIP_NONE; codec := CODEC_H264;
     deviceType := DEVICE_DEFAULT |}.

(** The same stream in a QuickTime file named [.mov]. *)
Definition mov_options : videoOptions :=
  {| resource := {| uri_string := "file:///media/clip.mov";
                    protocol := "file"; path := "/media/clip.mov";
                    extension := "mov"; port := (-1)%Z |};
     width := 0; height := 0; numBuffers := 4; zeroCopy := true;
     flipMethod := FLIP_NONE; codec := CODEC_H264;
     deviceType := DEVICE_DEFAULT |}.

(** A stream whose width alone is pre-specified. *)
Definition wide_options : videoOptions := set_size 1280 0 sample_options.

(** GStreamer and a file system where every step of the set-up succeeds. *)
Definition sample_init : InitEnv :=
  {| gstreamerInit := true;
     fileExists := fun _ => true;
     gst_parse_launch := fun _ => (Some 1, None);
     GST_PIPELINE := fun h => h;
     gst_pipeline_get_bus := fun _ => Some 2;
     gst_bin_get_by_name := fun _ _ => Some 3;
     GST_APP_SINK := fun h => h |}.

(** A decoder set up for [options], in the Closed state. *)
Definition closed_world (options : videoOptions) : world :=
  {| self := with_mAppSink (Some 3)
               (with_mBus (Some 2)
                  (with_mPipeline (Some 1) (construct options)));
     requested_state := GST_STATE_NULL; bus := []; trace := [] |}.

(** The same decoder after the end of stream. *)
Definition ended_world (options : videoOptions) : world :=
  {| self := with_mEOS true (self (closed_world options));
     requested_state := GST_STATE_PLAYING; bus := []; trace := [] |}.

(** A streaming decoder with a wake pending and no unread frame in its raw
    ring buffer. *)
Definition stale_world (options : videoOptions) : world :=
  {| self :=
       with_mWaitEvent (Event.mk true)
         (with_mBufferYUV
            (RingBuffer.mk 4 2 true [[]; [Byte.x10; Byte.x80]; []; []] 1 false)
            (with_mStreaming true (self (closed_world options))));
     requested_state := GST_STATE_PLAYING; bus := []; trace := [] |}.

(** An error the pipeline posts on its bus. *)
Definition start_error : GstMessage :=
  {| msg_type := GST_MESSAGE_ERROR;
     msg_text := "Internal data stream error." |}.

(** A pipeline that accepts the state change, then reports the error, once
    at once and once during the sleep. *)
Definition failing_pipeline : PipelineEnv :=
  {| set_state_ret := GST_STATE_CHANGE_ASYNC;
     posted := [start_error]; posted_asleep := [start_error] |}.

(** A pipeline that changes state and has nothing to say. *)
Definition quiet_pipeline : PipelineEnv :=
  {| set_state_ret := GST_STATE_CHANGE_SUCCESS;
     posted := []; posted_asleep := [] |}.

(** The caps of an NV12 frame of [wd] by [ht]. *)
Definition frame_caps (wd ht : Z) : GstCaps :=
  [[("format", G_STRING "NV12"); ("width", G_INT wd); ("height", G_INT ht)]].

(** A frame of [wd] by [ht] with the bytes [data], as either GStreamer
    version hands it over. *)
Definition frame (wd ht : Z) (data : buffer) : Pulled :=
  {| pull_sample :=
       Some {| sample_caps := Some (frame_caps wd ht);
               sample_buffer :=
                 Some {| buffer_data := Some data; buffer_caps := None |} |};
     pull_buffer :=
       Some {| buffer_data := Some data;
               buffer_caps := Some (frame_caps wd ht) |} |}.

(** A frame that comes without caps. *)
Definition frame_without_caps (data : buffer) : Pulled :=
  {| pull_sample :=
       Some {| sample_caps := None;
               sample_buffer :=
                 Some {| buffer_data := Some data; buffer_caps := None |} |};
     pull_buffer := Some {| buffer_data := Some data; buffer_caps := None |} |}.

(** A frame whose caps give a width and no height. *)
Definition frame_without_height (wd : Z) (data : buffer) : Pulled :=
  let caps := [[("format", G_STRING "NV12"); ("width", G_INT wd)]] in
  {| pull_sample :=
       Some {| sample_caps := Some caps;
               sample_buffer :=
                 Some {| buffer_data := Some data; buffer_caps := None |} |};
     pull_buffer := Some {| buffer_data := Some data; buffer_caps := Some caps |} |}.

(** Three bytes for each pixel, whatever the format. *)
Definition sample_imageFormatSize (format : imageFormat) (wd ht : Z) : Z :=
  (wd * ht * 3)%Z.

(** A conversion that knows the four RGB formats and copies the bytes. *)
Definition sample_cudaConvertColor (src : buffer) (srcFormat dstFormat : imageFormat)
    (wd ht : Z) : option buffer :=
  match dstFormat with
  | IMAGE_RGB8 | IMAGE_RGBA8 | IMAGE_RGB32F | IMAGE_RGBA32F => Some src
  | _ => None
  end.

(** What the collaborators answer during a capture with [arrivals] while the
    consumer waits. *)
Definition sample_capture (arrivals : list BackendStep) : CaptureEnv :=
  {| cap_open := quiet_pipeline; cap_arrivals := arrivals;
     cap_mem_ok := true |}.

(** The sample stream in a file whose extension is written in capitals. *)
Definition capitals_options : videoOptions :=
  {| resource := {| uri_string := "file:///media/CLIP.MP4";
                    protocol := "file"; path := "/media/CLIP.MP4";
                    extension := "MP4"; port := (-1)%Z |};
     width := 0; height := 0; numBuffers := 4; zeroCopy := true;
     flipMethod := FLIP_NONE; codec := CODEC_H264;
     deviceType := DEVICE_DEFAULT |}.

(** An MPEG-2 stream sent over RTP to a multicast group. *)
Definition rtp_options : videoOptions :=
  {| resource := {| uri_string := "rtp://224.1.1.1:5000";
                    protocol := "rtp"; path := "224.1.1.1";
                    extension := ""; port := 5000%Z |};
     width := 0; height := 0; numBuffers := 4; zeroCopy := true;
     flipMethod := FLIP_NONE; codec := CODEC_MPEG2;
     deviceType := DEVICE_DEFAULT |}.

(** The sample stream, to be scaled to 1280 by 720. *)
Definition scaled_options : videoOptions := set_size 1280 720 sample_options.

(** A pipeline that refuses every state change. *)
Definition refusing_pipeline : PipelineEnv :=
  {| set_state_ret := GST_STATE_CHANGE_FAILURE;
     posted := []; posted_asleep := [] |}.

(** What the collaborators answer during a capture on that pipeline. *)
Definition refused_capture : CaptureEnv :=
  {| cap_open := refusing_pipeline; cap_arrivals := [];
     cap_mem_ok := true |}.

(** The decoder of the sample stream after an [Open] during whose sleep the
    stream ended. *)
Definition ended_in_Open : world :=
  snd (Open_meanwhile quiet_pipeline [CbEOS UD_this]
         (closed_world sample_options)).

(** * Properties *)

(** Run the monadic code of an operation down to its case analysis. *)
Ltac exec :=
  cbv beta iota zeta delta
    [bind bind_opt ret member assign emit post usleep gst_element_set_state
     checkMsgBus LogError LogWarning LogInfo LogVerbose LogDebug LogErrors
     release_return Wake] in *;
  simpl in *.

(** Split on every test the code makes. *)
Ltac cases :=
  repeat first
    [ done
    | congruence
    | progress (simpl in *)
    | progress simplify_eq
    | case_match ].

(** Printing bus messages shows in no observation that ignores prints. *)
Lemma omap_print_all {A : Type} (f : Effect -> option A) (ms : list GstMessage) :
  (forall m, f (EvMessagePrint m) = None) -> omap f (print_all ms) = [].
Proof.
  intros Hf. induction ms as [|m ms IH]; simpl; [reflexivity|].
  rewrite Hf. exact IH.
Qed.

(** Normalise the observations of a trace built by appending. *)
Ltac observe :=
  unfold published, delivered, wakes, waits, launched, state_changes in *;
  repeat (rewrite ?omap_app, ?omap_print_all by (intros; reflexivity); simpl);
  rewrite ?app_nil_r.

(** ** Null output pointer *)

(** C10: with a NULL output pointer [Capture] returns false at once: no
    stream state is consulted, nothing is opened, nothing is waited for, and
    the whole world (decoder, pipeline, bus, calls made) is as before. *)
Theorem Capture_null_output :
  forall (format : imageFormat) (timeout : Z) (env : CaptureEnv) (w : world),
    Capture None format timeout env w = (Returns false, w).
Proof. intros. reflexivity. Qed.

(** ** End of stream *)

Lemma onEOS_EndOfStream (w : world) : EndOfStream (snd (onEOS UD_this w)).
Proof. split; reflexivity. Qed.

Lemma checkBuffer_flags (p : Pulled) (mem_ok : bool) (w : world) :
  mEOS (self (snd (checkBuffer p mem_ok w))) = mEOS (self w) /\
  mStreaming (self (snd (checkBuffer p mem_ok w))) = mStreaming (self w).
Proof. unfold checkBuffer. exec. cases. Qed.

Lemma backend_step_EndOfStream (b : BackendStep) (w : world) :
  EndOfStream w -> EndOfStream (snd (backend_step b w)).
Proof.
  intros [He Hs]. destruct b as [u|u s|u p m|ms]; unfold EndOfStream.
  - destruct u; simpl; auto.
  - unfold backend_step, onPreroll. exec. cases.
  - unfold backend_step, onBuffer. destruct u; [simpl; auto|].
    pose proof (checkBuffer_flags p m w) as [H1 H2].
    exec. destruct (checkBuffer p m w) as [[] w1]. simpl in *.
    rewrite H1, H2. auto.
  - simpl. auto.
Qed.

(** In the EndOfStream state [Open] only logs and fails. *)
Lemma Open_at_EOS (env : PipelineEnv) (w : world) :
  mEOS (self w) = true ->
  Open env w =
    (false,
     snd (LogError "gstDecoder -- End of Stream (EOS) has been reached, stream has been closed" w)).
Proof. intros He. unfold Open. exec. rewrite He. reflexivity. Qed.

(** In the EndOfStream state [Capture] fails on the [Open] it attempts,
    before it reaches the wait. *)
Lemma Capture_at_EOS (out : nat) (format : imageFormat) (timeout : Z)
    (env : CaptureEnv) (w : world) :
  EndOfStream w ->
  Capture (Some out) format timeout env w =
    (Returns false,
     snd (LogError "gstDecoder -- End of Stream (EOS) has been reached, stream has been closed" w)).
Proof.
  intros [He Hs]. unfold Capture, Open. exec. rewrite Hs. simpl. rewrite He. reflexivity.
Qed.

Lemma Close_EndOfStream (env : PipelineEnv) (w : world) :
  EndOfStream w -> EndOfStream (snd (Close env w)).
Proof.
  intros [He Hs]. unfold Close, EndOfStream. exec. rewrite He, Hs. simpl.
  destruct (set_state_ret env); simpl; auto.
Qed.

Lemma call_EndOfStream (c : Call) (w : world) :
  EndOfStream w -> EndOfStream (snd (call c w)).
Proof.
  intros H. destruct c as [env|env|out f t env|b]; simpl.
  - unfold bind. rewrite Open_at_EOS by apply H. simpl. exact H.
  - pose proof (Close_EndOfStream env w H) as H'.
    unfold bind. destruct (Close env w). exact H'.
  - destruct out as [out|].
    + unfold bind. rewrite Capture_at_EOS by exact H. simpl. exact H.
    + exact H.
  - pose proof (backend_step_EndOfStream b w H) as H'.
    unfold bind. destruct (backend_step b w). exact H'.
Qed.

Lemma run_EndOfStream (cs : list Call) (w : world) :
  EndOfStream w -> EndOfStream (snd (run cs w)).
Proof.
  revert w. induction cs as [|c cs IH]; intros w H; [exact H|].
  simpl. unfold bind.
  pose proof (call_EndOfStream c w H) as Hc.
  destruct (call c w) as [r w1]. simpl in Hc.
  specialize (IH w1 Hc). destruct (run cs w1) as [rs w2]. exact IH.
Qed.

(** Where calls and callbacks do not overlap: once [onEOS] has fired,
    whatever calls and callbacks follow one after the other, every [Open]
    returns false and every [Capture] returns false, and neither gets as far
    as the wait/wake signal: the waits made are those made before. *)
Theorem after_EOS_Open_and_Capture_fail :
  forall (w0 : world) (cs : list Call) (penv : PipelineEnv)
         (output : option nat) (format : imageFormat) (timeout : Z)
         (cenv : CaptureEnv),
    let w := snd (run cs (snd (onEOS UD_this w0))) in
    fst (Open penv w) = false /\
    waits (trace (snd (Open penv w))) = waits (trace w) /\
    fst (Capture output format timeout cenv w) = Returns false /\
    waits (trace (snd (Capture output format timeout cenv w))) = waits (trace w) /\
    EndOfStream (snd (Open penv w)) /\
    EndOfStream (snd (Capture output format timeout cenv w)).
Proof.
  intros w0 cs penv output format timeout cenv w.
  assert (H : EndOfStream w)
    by (apply run_EndOfStream, onEOS_EndOfStream).
  rewrite Open_at_EOS by apply H.
  destruct output as [out|].
  - rewrite Capture_at_EOS by exact H. simpl. observe.
    repeat split; try reflexivity; apply H.
  - simpl. observe.
    repeat split; try reflexivity; apply H.
Qed.

(** ** End of stream while [Open] sleeps *)

(** With no callback during the sleep [Open_meanwhile] is [Open]. *)
Lemma Open_meanwhile_nil (env : PipelineEnv) (w : world) :
  Open_meanwhile env [] w = Open env w.
Proof. unfold Open_meanwhile, Open. exec. cases. Qed.

(** The end-of-stream flag, once set, stays set through the callbacks. *)
Lemma backend_steps_mEOS (bs : list BackendStep) (w : world) :
  mEOS (self w) = true -> mEOS (self (snd (backend_steps bs w))) = true.
Proof.
  revert w. induction bs as [|b bs IH]; intros w He; [exact He|].
  simpl. unfold bind.
  assert (Hb : mEOS (self (snd (backend_step b w))) = true).
  { destruct b as [u|u s|u p m|ms].
    - destruct u; simpl; auto.
    - unfold backend_step, onPreroll. exec. cases.
    - unfold backend_step, onBuffer. destruct u; [simpl; auto|].
      pose proof (checkBuffer_flags p m w) as [H1 _].
      exec. destruct (checkBuffer p m w) as [[] w1]. simpl in *.
      congruence.
    - simpl. auto. }
  destruct (backend_step b w) as [[] w1]. apply IH. exact Hb.
Qed.

(** It is set by the end-of-stream callback of the decoder. *)
Lemma backend_steps_EOS (bs : list BackendStep) (w : world) :
  In (CbEOS UD_this) bs -> mEOS (self (snd (backend_steps bs w))) = true.
Proof.
  revert w. induction bs as [|b bs IH]; intros w; [contradiction|].
  intros [-> | Hin]; simpl; unfold bind.
  - pose proof (backend_steps_mEOS bs (snd (onEOS UD_this w)) eq_refl) as He.
    destruct (onEOS UD_this w) as [[] w1]. exact He.
  - destruct (backend_step b w) as [[] w1]. apply IH. exact Hin.
Qed.

(** An end of stream that is signalled while [Open] sleeps is lost on
    [Open]: it returns true and sets [mStreaming] all the same, and leaves
    the decoder with both flags set. *)
Lemma Open_meanwhile_EOS (env : PipelineEnv) (asleep : list BackendStep)
    (w : world) :
  Closed w ->
  start_accepted (set_state_ret env) = true ->
  In (CbEOS UD_this) asleep ->
  fst (Open_meanwhile env asleep w) = true /\
  mEOS (self (snd (Open_meanwhile env asleep w))) = true /\
  mStreaming (self (snd (Open_meanwhile env asleep w))) = true.
Proof.
  intros [Hs He] Hacc Hin. unfold Open_meanwhile. exec. rewrite He, Hs.
  destruct (set_state_ret env); try discriminate; simpl.
  all: match goal with
       | |- context [backend_steps ?bs ?w0] =>
           pose proof (backend_steps_EOS bs w0 Hin) as Heos;
           destruct (backend_steps bs w0) as [[] w1]
       end; simpl in *; auto.
Qed.

(** With [mStreaming] set [Capture] goes to the wait without a look at
    [mEOS]: when no wake is pending and no frame arrives, it blocks for the
    whole timeout, for ever when the timeout is the infinite one. *)
Lemma Capture_waits_when_streaming (out : nat) (format : imageFormat)
    (timeout : Z) (env : CaptureEnv) (w : world) :
  mStreaming (self w) = true ->
  Event.pending (mWaitEvent (self w)) = false ->
  cap_arrivals env = [] ->
  timeout <> 0%Z ->
  Capture (Some out) format timeout env w =
    (if (timeout =? Event.INFINITE)%Z then BlocksForever else Returns false,
     snd (emit (EvWait timeout) w)).
Proof.
  intros Hs Hp Ha Ht. unfold Capture, Wait. exec.
  rewrite Hs, Ha. simpl. rewrite Hp.
  apply Z.eqb_neq in Ht. rewrite Ht. simpl. rewrite Hp.
  destruct (timeout =? Event.INFINITE)%Z; reflexivity.
Qed.

(** ** Opening *)

(** C2 (amended): from the Closed state [Open] fails, and leaves the state
    Closed, exactly when the pipeline answers the state change with something
    other than success or async.  Whatever is on the bus, error messages
    included, is printed and dropped during the two polls around the sleep
    and has no part in the result: [Open] then returns true and the state is
    Streaming. *)
Theorem Open_from_Closed :
  forall (env : PipelineEnv) (w : world),
    Closed w ->
    let w' := snd (Open env w) in
    fst (Open env w) = start_accepted (set_state_ret env) /\
    mStreaming (self w') = start_accepted (set_state_ret env) /\
    mEOS (self w') = false /\
    trace w' =
      trace w ++
      EvLog LOG_INFO "opening gstDecoder for streaming, transitioning pipeline to GST_STATE_PLAYING"
      :: EvSetState GST_STATE_PLAYING (set_state_ret env)
      :: (if start_accepted (set_state_ret env)
          then print_all (bus w ++ posted env)
               ++ EvSleep 100000 :: print_all (posted_asleep env)
          else [EvLog LOG_ERROR "gstDecoder -- failed to set pipeline state to PLAYING (error %u)"]).
Proof.
  intros env w [Hs He] w'. subst w'. unfold Open. exec. rewrite He, Hs.
  destruct (set_state_ret env); simpl; rewrite ?Hs, ?He;
    repeat split; try reflexivity;
    rewrite <- ?app_assoc; simpl; rewrite <- ?app_assoc; reflexivity.
Qed.

(** ** Closing *)

Lemma Close_when_Closed (env : PipelineEnv) (w : world) :
  Closed w -> Close env w = (tt, w).
Proof. intros [Hs He]. unfold Close. exec. rewrite Hs, He. reflexivity. Qed.

Lemma Close_flags (env : PipelineEnv) (w : world) :
  mStreaming (self (snd (Close env w))) = false /\
  mEOS (self (snd (Close env w))) = mEOS (self w).
Proof.
  unfold Close. exec.
  destruct (mStreaming (self w)) eqn:Hs, (mEOS (self w)) eqn:He; simpl;
    destruct (set_state_ret env); simpl; auto.
Qed.

(** What [Close] does once the end of stream was seen: the pipeline is sent
    to [GST_STATE_NULL] and the bus is drained, every message printed. *)
Lemma Close_at_EOS (env : PipelineEnv) (w : world) :
  mEOS (self w) = true ->
  let w' := snd (Close env w) in
  requested_state w' = GST_STATE_NULL /\
  bus w' = [] /\
  state_changes (trace w') = state_changes (trace w) ++ [GST_STATE_NULL] /\
  self w' = with_mStreaming false (self w).
Proof.
  intros He w'. subst w'. unfold Close. exec. rewrite He.
  rewrite andb_false_r.
  destruct (set_state_ret env); simpl; observe;
    repeat split; try reflexivity.
Qed.

(** C5: [Close] may be called any number of times.  In the Closed state it
    does nothing at all.  After one [Close] a second one leaves the decoder
    as the first left it, and does nothing at all unless the end of stream
    was seen.  Once the end of stream was seen, every [Close] sends the
    pipeline to [GST_STATE_NULL] and drains the bus, and the end-of-stream
    flag stays set. *)
Theorem Close_idempotent :
  forall (env1 env2 : PipelineEnv) (w : world),
    let w1 := snd (Close env1 w) in
    let w2 := snd (Close env2 w1) in
    (Closed w -> w1 = w) /\
    (mEOS (self w) = false -> w2 = w1) /\
    self w2 = self w1 /\
    mStreaming (self w1) = false /\
    mEOS (self w1) = mEOS (self w) /\
    (mEOS (self w) = true ->
       requested_state w1 = GST_STATE_NULL /\ bus w1 = [] /\
       state_changes (trace w1) = state_changes (trace w) ++ [GST_STATE_NULL] /\
       requested_state w2 = GST_STATE_NULL /\ bus w2 = [] /\
       state_changes (trace w2) = state_changes (trace w1) ++ [GST_STATE_NULL] /\
       mEOS (self w2) = true).
Proof.
  intros env1 env2 w w1 w2.
  destruct (Close_flags env1 w) as [Hs1 He1]. fold w1 in Hs1, He1.
  split; [|split; [|split; [|split; [|split]]]].
  - intros H. subst w1. rewrite Close_when_Closed by exact H. reflexivity.
  - intros He. subst w2. rewrite Close_when_Closed; [reflexivity|].
    split; [exact Hs1 | rewrite He1; exact He].
  - destruct (mEOS (self w)) eqn:He.
    + destruct (Close_at_EOS env2 w1) as (_ & _ & _ & Hself);
        [rewrite He1; reflexivity|].
      fold w2 in Hself. rewrite Hself.
      destruct (self w1) eqn:Hd; simpl in *. subst. reflexivity.
    + subst w2. rewrite Close_when_Closed; [reflexivity|].
      split; [exact Hs1 | rewrite He1; reflexivity].
  - exact Hs1.
  - exact He1.
  - intros He.
    destruct (Close_at_EOS env1 w He) as (Hp1 & Hb1 & Ht1 & _).
    fold w1 in Hp1, Hb1, Ht1.
    destruct (Close_at_EOS env2 w1) as (Hp2 & Hb2 & Ht2 & _);
      [rewrite He1; exact He|].
    fold w2 in Hp2, Hb2, Ht2.
    destruct (Close_flags env2 w1) as [_ He2]. fold w2 in He2.
    repeat split; try assumption. rewrite He2, He1. exact He.
Qed.

(** ** Construction *)

Lemma append_assoc (a b c : string) :
  ((a ++ b) ++ c = a ++ (b ++ c))%string.
Proof.
  induction a as [|x a IH]; simpl; [reflexivity|]. rewrite IH. reflexivity.
Qed.

Lemma append_empty (a : string) : (a ++ "")%string = a.
Proof.
  induction a as [|x a IH]; simpl; [reflexivity|]. rewrite IH. reflexivity.
Qed.

(** The launch string built for an H.264 stream in an mp4 file: source,
    [qtdemux], queue, [h264parse], decoder, whatever the resize options add,
    and the sink. *)
Lemma buildLaunchStr_file_mp4_h264 (env : InitEnv) (w : world) :
  protocol (resource (mOptions (self w))) = "file" ->
  extension (resource (mOptions (self w))) = "mp4" ->
  codec (mOptions (self w)) = CODEC_H264 ->
  fileExists env (path (resource (mOptions (self w)))) = true ->
  exists resize,
    buildLaunchStr env w =
      (true,
       {| self :=
            with_mLaunchStr
              ("filesrc location=" ++ path (resource (mOptions (self w)))
               ++ " ! qtdemux ! queue ! h264parse ! " ++ h264_decoder
               ++ " ! " ++ resize ++ "appsink name=mysink")%string
              (with_mOptions
                 (set_deviceType DEVICE_FILE (mOptions (self w))) (self w));
          requested_state := requested_state w;
          bus := bus w;
          trace := trace w ++ [EvLog LOG_INFO "gstDecoder -- pipeline string:";
                               EvLog LOG_INFO "%s"] |}).
Proof.
  intros Hp He Hc Hf. unfold buildLaunchStr, h264_decoder.
  unfold bind at 1. unfold member at 1.
  rewrite Hp, He, Hc, Hf.
  cbn -[String.append string_of_Z app Z.eqb is_FLIP_NONE negb andb orb].
  cbn [negb orb andb].
  set (o := mOptions (self w)).
  set (sized := negb (width o =? 0)%Z && negb (height o =? 0)%Z).
  set (flipped := negb (is_FLIP_NONE (flipMethod o))).
  exists (if sized || flipped
          then "nvvidconv"
               ++ (if flipped
                   then " flip-method=" ++ string_of_Z (flip_int (flipMethod o))
                   else "")
               ++ " ! video/x-raw"
               ++ (if sized
                   then ", width=(int)" ++ string_of_Z (width o)
                        ++ ", height=(int)" ++ string_of_Z (height o)
                        ++ ", format=(string)NV12"
                   else "")
               ++ " ! "
          else "video/x-raw ! ")%string.
  destruct GST_CHECK_VERSION_1_0_0, sized, flipped;
    cbv beta iota zeta delta
      [bind bind_opt ret assign emit LogInfo negb orb andb];
    cbn -[String.append string_of_Z app];
    rewrite <- (app_assoc (trace w)); cbn [app];
    do 2 f_equal; f_equal;
    rewrite !append_assoc; reflexivity.
Qed.

(** Once the launch string is built, [init] hands it to [gst_parse_launch]
    and does not change it. *)
Lemma init_launches (env : InitEnv) (w w1 : world) :
  gstreamerInit env = true ->
  buildLaunchStr env w = (true, w1) ->
  launched (trace (snd (init env w))) =
    launched (trace w1) ++ [mLaunchStr (self w1)] /\
  mLaunchStr (self (snd (init env w))) = mLaunchStr (self w1).
Proof.
  intros Hg Hb. unfold init. rewrite Hg. cbn [negb].
  unfold bind at 1. rewrite Hb. exec. cases; observe; auto.
Qed.

Lemma Create_init (env : InitEnv) (options : videoOptions) :
  launched (trace (snd (Create env options))) =
    launched (trace (snd (init env (new_world options)))) /\
  self (snd (Create env options)) = self (snd (init env (new_world options))).
Proof.
  unfold Create. destruct (init env (new_world options)) as [[] w1];
    simpl; [auto|]. observe. auto.
Qed.

(** C6: constructing a decoder for an H.264 stream in an existing mp4 file
    hands GStreamer one pipeline description, kept in [mLaunchStr], that
    holds in this order the file source, [qtdemux], [h264parse], the H.264
    decoder and, at its end, the sink [appsink name=mysink]. *)
Theorem Create_file_mp4_h264 :
  forall (env : InitEnv) (options : videoOptions),
    protocol (resource options) = "file" ->
    extension (resource options) = "mp4" ->
    codec options = CODEC_H264 ->
    fileExists env (path (resource options)) = true ->
    gstreamerInit env = true ->
    exists launch,
      launched (trace (snd (Create env options))) = [launch] /\
      mLaunchStr (self (snd (Create env options))) = launch /\
      in_order [("filesrc location=" ++ path (resource options))%string;
                "qtdemux"; "h264parse"; h264_decoder;
                "appsink name=mysink"] launch /\
      exists before, launch = (before ++ "appsink name=mysink")%string.
Proof.
  intros env options Hp He Hc Hf Hg.
  destruct (buildLaunchStr_file_mp4_h264 env (new_world options) Hp He Hc Hf)
    as (resize & Hb).
  destruct (init_launches env (new_world options) _ Hg Hb) as [Hi1 Hi2].
  destruct (Create_init env options) as [Hc1 Hc2].
  rewrite Hc1, Hc2, Hi1, Hi2. cbn -[String.append in_order].
  eexists. split; [reflexivity|]. split; [reflexivity|]. split.
  - exists ""%string. eexists. split; [rewrite append_assoc; reflexivity|].
    exists " ! "%string. eexists. split; [reflexivity|].
    exists " ! queue ! "%string. eexists. split; [reflexivity|].
    exists " ! "%string. eexists. split; [reflexivity|].
    exists (" ! " ++ resize)%string, ""%string.
    split; [|exact I].
    rewrite append_assoc, append_empty. reflexivity.
  - eexists. rewrite <- !append_assoc. reflexivity.
Qed.

(** An extension outside the supported ones matches none of the names
    [buildLaunchStr] tests. *)
Lemma unsupported_extension (ext : string) :
  ~ In ext SupportedExtensions ->
  (ext =? "mkv")%string = false /\ (ext =? "mp4")%string = false /\
  (ext =? "qt")%string = false /\ (ext =? "flv")%string = false /\
  (ext =? "avi")%string = false /\ (ext =? "h264")%string = false /\
  (ext =? "h265")%string = false.
Proof.
  intros H. repeat split; apply String.eqb_neq; intros ->; apply H;
    simpl; tauto.
Qed.

(** For a file with an unsupported extension [buildLaunchStr] fails, and
    all it does is log. *)
Lemma buildLaunchStr_unsupported_extension (env : InitEnv) (w : world) :
  protocol (resource (mOptions (self w))) = "file" ->
  ~ In (extension (resource (mOptions (self w)))) SupportedExtensions ->
  exists w1,
    buildLaunchStr env w = (false, w1) /\
    self w1 = self w /\
    launched (trace w1) = launched (trace w).
Proof.
  intros Hp Hext.
  destruct (unsupported_extension _ Hext)
    as (H1 & H2 & H3 & H4 & H5 & H6 & H7).
  destruct (fileExists env (path (resource (mOptions (self w))))) eqn:Hf;
    (eexists; split;
     [ unfold buildLaunchStr; unfold bind at 1; unfold member at 1;
       rewrite Hp, ?H1, ?H2, ?H3, ?H4, ?H5, ?H6, ?H7, Hf;
       cbn -[String.append string_of_Z app Z.eqb is_FLIP_NONE];
       exec; reflexivity
     | simpl; observe; auto ]).
Qed.

(** C7: for a file resource whose extension is none of mkv, mp4, qt, flv,
    avi, h264, h265 construction fails: an error is logged, [Create] returns
    NULL, and no pipeline was asked of GStreamer. *)
Theorem Create_unsupported_extension :
  forall (env : InitEnv) (options : videoOptions),
    protocol (resource options) = "file" ->
    ~ In (extension (resource options)) SupportedExtensions ->
    fst (Create env options) = None /\
    launched (trace (snd (Create env options))) = [] /\
    mPipeline (self (snd (Create env options))) = None /\
    In (EvLog LOG_ERROR "gstDecoder -- failed to create decoder engine")
       (trace (snd (Create env options))).
Proof.
  intros env options Hp Hext.
  destruct (buildLaunchStr_unsupported_extension env (new_world options)
              Hp Hext) as (w1 & Hb & Hs & Hl).
  unfold Create, init.
  destruct (gstreamerInit env); cbn [negb].
  - unfold bind. rewrite Hb. exec. rewrite Hs. observe. rewrite Hl.
    repeat split; try reflexivity. apply in_app_iff. right. simpl. auto.
  - exec. repeat split; try reflexivity. auto.
Qed.

(** ** Frame ingestion *)

Lemma Alloc_failed (n : nat) (size : Z) (zc mem_ok : bool)
    (rb rb' : RingBuffer.t) :
  RingBuffer.Alloc n size zc mem_ok rb = (false, rb') -> rb' = rb.
Proof. unfold RingBuffer.Alloc. intros H. cases. Qed.

(** Settle what the appsink handed over from the tests already made. *)
Ltac pulled Hv :=
  unfold pulled_data, declared, pulled_structure, pulled_caps;
  rewrite ?Hv;
  repeat match goal with
         | H : ?x = _ |- context [?x] => rewrite H
         end;
  reflexivity.

(** [Alloc] keeps the ring buffer well formed, or makes it so. *)
Lemma Alloc_wf (n : nat) (size : Z) (zc mem_ok ok : bool)
    (rb rb' : RingBuffer.t) :
  RingBuffer.wf rb ->
  RingBuffer.Alloc n size zc mem_ok rb = (ok, rb') ->
  RingBuffer.wf rb'.
Proof.
  unfold RingBuffer.Alloc. intros Hwf H. cases.
  split; simpl; [apply length_replicate|].
  destruct n; [left; reflexivity|right; lia].
Qed.

(** In a well-formed ring buffer the slot published after a [memcpy] holds
    the bytes copied, and the ring buffer stays well formed. *)
Lemma publish_contents (rb : RingBuffer.t) (i : nat) (data : buffer) :
  RingBuffer.wf rb ->
  RingBuffer.Peek_Write rb = Some i ->
  let rb' := snd (RingBuffer.Next_Write (RingBuffer.fill i data rb)) in
  RingBuffer.wf rb' /\
  RingBuffer.latestWrite rb' = i /\
  RingBuffer.contents (RingBuffer.latestWrite rb') rb' = data.
Proof.
  intros [Hlen Hcur] Hpeek rb'. subst rb'.
  unfold RingBuffer.Peek_Write in Hpeek.
  unfold RingBuffer.Next_Write, RingBuffer.fill, RingBuffer.contents,
    RingBuffer.wf. simpl.
  destruct (RingBuffer.numBuffers rb) as [|n] eqn:Hn; [discriminate|].
  simplify_eq. simpl.
  assert (Hlt : (RingBuffer.latestWrite rb + 1) mod S n < S n)
    by (apply Nat.mod_upper_bound; lia).
  repeat split.
  - rewrite length_insert. exact Hlen.
  - right. exact Hlt.
  - rewrite list_lookup_insert_eq by (rewrite Hlen; exact Hlt). reflexivity.
Qed.

(** Whatever the appsink hands over, [checkBuffer] ends in one of the three
    ways, makes no call but logs, pulls, unrefs and the publication, and
    leaves the pipeline and its bus alone. *)
Lemma checkBuffer_ingested (p : Pulled) (mem_ok : bool) (w : world) :
  let w' := snd (checkBuffer p mem_ok w) in
  ingested p mem_ok w w' /\
  delivered (trace w') = delivered (trace w) /\
  waits (trace w') = waits (trace w) /\
  state_changes (trace w') = state_changes (trace w) /\
  bus w' = bus w /\ requested_state w' = requested_state w.
Proof.
  unfold checkBuffer. exec.
  destruct GST_CHECK_VERSION_1_0_0 eqn:Hv; cases; observe;
    (split; [|auto]).
  all: try (apply frame_dropped; [|simpl; observe; reflexivity ..];
            first
              [ left; assumption
              | right; left; pulled Hv
              | right; right; left; pulled Hv
              | right; right; right; left; pulled Hv
              | right; right; right; right;
                match goal with
                | Hs : (?wd <? 1)%Z || (?ht <? 1)%Z = true |- _ =>
                    exists wd, ht; split; [pulled Hv|]; split; [pulled Hv|];
                    apply orb_true_iff in Hs;
                    destruct Hs as [Hs|Hs]; apply Z.ltb_lt in Hs; auto
                end ]).
  all: match goal with
       | Hs : (?wd <? 1)%Z || (?ht <? 1)%Z = false |- _ =>
           apply orb_false_iff in Hs; destruct Hs as [Hwd Hht];
           apply Z.ltb_ge in Hwd, Hht
       end.
  all: repeat match goal with
              | H : negb ?b = _ |- _ =>
                  destruct b; simpl in H; try discriminate; clear H
              end.
  all: unfold gstSize_of in *.
  all: lazymatch goal with
       | Ha : RingBuffer.Alloc _ (_ (length ?d) `mod` _)%Z _ _ _ = (?ok, ?yuv),
         Hwd : (1 <= ?wd)%Z, Hht : (1 <= ?ht)%Z
         |- ingested _ _ _ {| self := with_mWaitEvent _ _; requested_state := _;
                              bus := _; trace := _ |} =>
           eapply (frame_published p mem_ok _ _ d wd ht yuv)
       | Ha : RingBuffer.Alloc _ (_ (length ?d) `mod` _)%Z _ _ _ = (?ok, ?yuv),
         Hwd : (1 <= ?wd)%Z, Hht : (1 <= ?ht)%Z |- _ =>
           eapply (frame_sized p mem_ok _ _ d wd ht ok yuv)
       end.
  all: unfold gstSize_of in *.
  all: try eassumption.
  all: try pulled Hv.
  all: try (left; reflexivity).
  all: try (right; assumption).
  all: simpl; observe;
       repeat match goal with
              | H : ?x = _ |- context [?x] => rewrite H
              end;
       try reflexivity.
Qed.

(** [onBuffer] is [checkBuffer] followed by a drain of the bus. *)
Lemma onBuffer_this (p : Pulled) (mem_ok : bool) (w : world) :
  onBuffer UD_this p mem_ok w =
    (GST_FLOW_OK, snd (checkMsgBus (snd (checkBuffer p mem_ok w)))).
Proof.
  unfold onBuffer. exec. destruct (checkBuffer p mem_ok w) as [[] w1].
  reflexivity.
Qed.

(** C8: a frame whose declared width or height is below 1 is dropped in
    silence: the callback returns [GST_FLOW_OK] and the decoder is as
    before, so nothing was published, the consumer was not woken and the
    stored width and height were not touched. *)
Theorem onBuffer_drops_nonpositive_size :
  forall (p : Pulled) (mem_ok : bool) (w : world) (wd ht : Z),
    declared p "width" = Some wd ->
    declared p "height" = Some ht ->
    (wd < 1 \/ ht < 1)%Z ->
    let w' := snd (onBuffer UD_this p mem_ok w) in
    fst (onBuffer UD_this p mem_ok w) = GST_FLOW_OK /\
    self w' = self w /\
    published (trace w') = published (trace w) /\
    wakes (trace w') = wakes (trace w).
Proof.
  intros p mem_ok w wd ht Hw Hh Hsmall w'. subst w'.
  rewrite onBuffer_this. simpl. observe.
  destruct (checkBuffer_ingested p mem_ok w) as [Hi _].
  destruct Hi as [_ Hs Hp Hk | d wd' ht' ok yuv _ Hw' Hh' ? ? | d wd' ht' yuv i _ Hw' Hh' ? ?];
    [ observe; auto | | ];
    rewrite Hw in Hw'; rewrite Hh in Hh'; simplify_eq; lia.
Qed.

(** When ingestion fails the callback leaves the stream flags, the wait/wake
    signal and the raw ring buffer as they were. *)
Lemma onBuffer_ingestion_failure (p : Pulled) (mem_ok : bool) (w : world) :
    ingestion_fails p mem_ok w ->
    let w' := snd (onBuffer UD_this p mem_ok w) in
    fst (onBuffer UD_this p mem_ok w) = GST_FLOW_OK /\
    mStreaming (self w') = mStreaming (self w) /\
    mEOS (self w') = mEOS (self w) /\
    mWaitEvent (self w') = mWaitEvent (self w) /\
    mBufferYUV (self w') = mBufferYUV (self w) /\
    published (trace w') = published (trace w) /\
    wakes (trace w') = wakes (trace w).
Proof.
  intros Hfail w'. subst w'.
  rewrite onBuffer_this. simpl. observe.
  destruct (checkBuffer_ingested p mem_ok w) as [Hi _].
  destruct Hi as [_ Hs Hp Hk
                 | d wd ht ok yuv Hd Hw Hh ? ? Ha Hno Hs Hp Hk
                 | d wd ht yuv i Hd Hw Hh ? ? Ha Hpk yuv' Hs Hp Hk].
  - observe. rewrite Hs. repeat split; auto.
  - (* the size was stored: only a failed allocation is an ingestion failure *)
    observe. rewrite Hs. simpl.
    assert (yuv = mBufferYUV (self w)) as ->; [|repeat split; auto].
    destruct Hfail as [Hm | Hsz | d' Hd' Ha'].
    + unfold declared in Hw. rewrite Hm in Hw. discriminate.
    + destruct Hsz; congruence.
    + rewrite Hd in Hd'. simplify_eq. fold (gstSize_of d') in Ha'.
      rewrite Ha in Ha'. simpl in Ha'. subst ok.
      apply Alloc_failed in Ha. exact Ha.
  - (* a published frame had its metadata, its size and its memory *)
    exfalso. destruct Hfail as [Hm | Hsz | d' Hd' Ha'].
    + unfold declared in Hw. rewrite Hm in Hw. discriminate.
    + destruct Hsz; congruence.
    + rewrite Hd in Hd'. simplify_eq. fold (gstSize_of d') in Ha'.
      rewrite Ha in Ha'. discriminate.
Qed.

(** C4: when the capability metadata, the width or height in it, or the
    memory for the ring buffer cannot be had, the frame callback still
    returns [GST_FLOW_OK]: no slot was published (the write cursor and the
    unread mark of the raw ring buffer stand, no publication was made), the
    consumer was not woken (no wake is pending that was not, none was made),
    and the Streaming and EndOfStream flags are as before. *)
Theorem onBuffer_survives_ingestion_failure :
  forall (p : Pulled) (mem_ok : bool) (w : world),
    ingestion_fails p mem_ok w ->
    let w' := snd (onBuffer UD_this p mem_ok w) in
    fst (onBuffer UD_this p mem_ok w) = GST_FLOW_OK /\
    mStreaming (self w') = mStreaming (self w) /\
    mEOS (self w') = mEOS (self w) /\
    mWaitEvent (self w') = mWaitEvent (self w) /\
    RingBuffer.latestWrite (mBufferYUV (self w')) =
      RingBuffer.latestWrite (mBufferYUV (self w)) /\
    RingBuffer.fresh (mBufferYUV (self w')) =
      RingBuffer.fresh (mBufferYUV (self w)) /\
    published (trace w') = published (trace w) /\
    wakes (trace w') = wakes (trace w).
Proof.
  intros p mem_ok w Hfail w'.
  destruct (onBuffer_ingestion_failure p mem_ok w Hfail)
    as (Hr & Hs & He & Hv & Hy & Hp & Hk).
  fold w' in Hs, He, Hv, Hy, Hp, Hk. rewrite Hy.
  repeat split; assumption.
Qed.

(** ** From one world to the next *)

Lemma same_but_size_refl (o : videoOptions) : same_but_size o o.
Proof. destruct o; reflexivity. Qed.

Lemma same_but_size_trans (o1 o2 o3 : videoOptions) :
  same_but_size o1 o2 -> same_but_size o2 o3 -> same_but_size o1 o3.
Proof.
  unfold same_but_size. intros H12 H23. rewrite H23 at 1. rewrite H12.
  reflexivity.
Qed.

Lemma set_size_same_but_size (wd ht : Z) (o : videoOptions) :
  same_but_size o (set_size wd ht o).
Proof. reflexivity. Qed.

Lemma follows_refl (w : world) : follows w w.
Proof.
  split; [apply same_but_size_refl|]. exists [], [].
  rewrite !app_nil_r. auto.
Qed.

Lemma follows_trans (w1 w2 w3 : world) :
  follows w1 w2 -> follows w2 w3 -> follows w1 w3.
Proof.
  intros [Ho12 (D1 & P1 & Hd1 & Hp1 & Hs1)] [Ho23 (D2 & P2 & Hd2 & Hp2 & Hs2)].
  split; [eapply same_but_size_trans; eassumption|].
  exists (D1 ++ D2), (P1 ++ P2).
  rewrite Hd2, Hd1, Hp2, Hp1, !app_assoc. repeat split.
  transitivity ((D1 ++ pending w2) ++ P2).
  - rewrite <- !app_assoc. apply sublist_app; [reflexivity|exact Hs2].
  - apply sublist_app; [exact Hs1|reflexivity].
Qed.

(** A step that keeps the configuration and the raw ring buffer, and neither
    publishes nor delivers. *)
Lemma follows_quiet (w w' : world) :
  mOptions (self w') = mOptions (self w) ->
  mBufferYUV (self w') = mBufferYUV (self w) ->
  delivered (trace w') = delivered (trace w) ->
  published (trace w') = published (trace w) ->
  follows w w'.
Proof.
  intros Ho Hy Hd Hp. split.
  - rewrite Ho. apply same_but_size_refl.
  - exists [], []. unfold pending. rewrite Hd, Hp, Hy, !app_nil_r. auto.
Qed.

(** What is waiting after [Alloc] was waiting before. *)
Lemma Alloc_pending (n : nat) (size : Z) (zc mem_ok ok : bool)
    (rb rb' : RingBuffer.t) :
  RingBuffer.Alloc n size zc mem_ok rb = (ok, rb') ->
  sublist
    (if RingBuffer.fresh rb'
     then [RingBuffer.contents (RingBuffer.latestWrite rb') rb'] else [])
    (if RingBuffer.fresh rb
     then [RingBuffer.contents (RingBuffer.latestWrite rb) rb] else []).
Proof.
  unfold RingBuffer.Alloc. intros H. cases; apply sublist_nil_l.
Qed.

Lemma checkBuffer_follows (p : Pulled) (mem_ok : bool) (w : world) :
  follows w (snd (checkBuffer p mem_ok w)).
Proof.
  destruct (checkBuffer_ingested p mem_ok w) as (Hi & Hd & _).
  destruct Hi as [_ Hs Hp Hk
                 | d wd ht ok yuv _ _ _ _ _ Ha _ Hs Hp Hk
                 | d wd ht yuv i _ _ _ _ _ Ha Hpk yuv' Hs Hp Hk].
  - apply follows_quiet; try assumption; rewrite Hs; reflexivity.
  - split; [rewrite Hs; apply set_size_same_but_size|].
    exists [], []. rewrite Hd, Hp, !app_nil_r. repeat split.
    unfold pending. rewrite Hs. simpl. eapply Alloc_pending. exact Ha.
  - split; [rewrite Hs; apply set_size_same_but_size|].
    eexists [], _. rewrite Hd, Hp, app_nil_r. repeat split.
    unfold pending at 1. rewrite Hs. simpl.
    assert (Hf : RingBuffer.fresh yuv' = true).
    { subst yuv'. unfold RingBuffer.Next_Write, RingBuffer.Peek_Write in *.
      simpl. destruct (RingBuffer.numBuffers yuv); [discriminate|reflexivity]. }
    rewrite Hf. apply sublist_inserts_l. reflexivity.
Qed.

Lemma checkMsgBus_follows (w : world) : follows w (snd (checkMsgBus w)).
Proof. apply follows_quiet; simpl; observe; reflexivity. Qed.

Lemma backend_step_follows (b : BackendStep) (w : world) :
  follows w (snd (backend_step b w)).
Proof.
  destruct b as [u|u s|u p m|ms]; simpl.
  - apply follows_quiet; destruct u; simpl; observe; reflexivity.
  - unfold bind, onPreroll. exec.
    apply follows_quiet; cases; observe; reflexivity.
  - destruct u; [apply follows_refl|].
    unfold bind. rewrite onBuffer_this. simpl.
    eapply follows_trans; [apply checkBuffer_follows|].
    apply follows_quiet; simpl; observe; reflexivity.
  - apply follows_quiet; simpl; observe; reflexivity.
Qed.

Lemma backend_steps_follows (bs : list BackendStep) (w : world) :
  follows w (snd (backend_steps bs w)).
Proof.
  revert w. induction bs as [|b bs IH]; intros w; [apply follows_refl|].
  simpl. unfold bind.
  pose proof (backend_step_follows b w) as Hb.
  destruct (backend_step b w) as [[] w1]. simpl in Hb.
  eapply follows_trans; [exact Hb|apply IH].
Qed.

Lemma Open_follows (env : PipelineEnv) (w : world) :
  follows w (snd (Open env w)).
Proof.
  unfold Open. exec. apply follows_quiet; cases; observe; reflexivity.
Qed.

Lemma Close_follows (env : PipelineEnv) (w : world) :
  follows w (snd (Close env w)).
Proof.
  unfold Close. exec. apply follows_quiet; cases; observe; reflexivity.
Qed.

(** A wait changes the decoder by the callbacks that arrive and by the wake
    it takes. *)
Lemma Wait_follows (timeout : Z) (arrivals : list BackendStep) (w : world) :
  follows w (snd (Wait timeout arrivals w)).
Proof.
  unfold Wait. exec.
  destruct (Event.pending (mWaitEvent (self w)));
    [apply follows_quiet; simpl; observe; reflexivity|].
  destruct (timeout =? 0)%Z;
    [apply follows_quiet; simpl; observe; reflexivity|].
  set (w0 := {| self := self w; requested_state := requested_state w;
                bus := bus w; trace := trace w ++ [EvWait timeout] |}).
  assert (H0 : follows w w0)
    by (apply follows_quiet; simpl; observe; reflexivity).
  pose proof (backend_steps_follows arrivals w0) as H1.
  destruct (backend_steps arrivals w0) as [[] w1]. simpl in H1.
  eapply follows_trans; [exact H0|].
  eapply follows_trans; [exact H1|].
  apply follows_quiet; cases; observe; reflexivity.
Qed.

(** Reading the latest frame once leaves nothing waiting, and hands over
    what was waiting. *)
Lemma Next_ReadLatestOnce_pending (rb rb' : RingBuffer.t) (latest : option nat) :
  RingBuffer.Next_ReadLatestOnce rb = (latest, rb') ->
  match latest with
  | Some i =>
      RingBuffer.fresh rb = true /\ RingBuffer.fresh rb' = false /\
      RingBuffer.contents i rb' =
        RingBuffer.contents (RingBuffer.latestWrite rb) rb
  | None => rb' = rb
  end.
Proof.
  unfold RingBuffer.Next_ReadLatestOnce. intros H.
  destruct (RingBuffer.numBuffers rb); [simplify_eq; reflexivity|].
  destruct (RingBuffer.fresh rb) eqn:Hf; simplify_eq; [|reflexivity].
  repeat split.
Qed.

(** [Capture] delivers the frame that is waiting once the wait is over, or
    nothing. *)
Lemma Capture_follows (output : option nat) (format : imageFormat)
    (timeout : Z) (env : CaptureEnv) (w : world) :
  follows w (snd (Capture output format timeout env w)).
Proof.
  unfold Capture. destruct output as [out|]; [|apply follows_refl].
  unfold bind at 1. unfold member at 1. unfold bind at 1.
  assert (Hopen : follows w
            (snd ((if negb (mStreaming (self w))
                   then Open (cap_open env) else ret true) w))).
  { destruct (mStreaming (self w)); simpl;
      [apply follows_refl|apply Open_follows]. }
  destruct ((if negb (mStreaming (self w))
             then Open (cap_open env) else ret true) w) as [opened w1].
  simpl in Hopen. destruct opened; simpl; [|exact Hopen].
  eapply follows_trans; [exact Hopen|]. clear Hopen.
  unfold bind at 1.
  pose proof (Wait_follows timeout (cap_arrivals env) w1) as Hwait.
  destruct (Wait timeout (cap_arrivals env) w1) as [waited w2].
  simpl in Hwait. eapply follows_trans; [exact Hwait|]. clear Hwait.
  destruct waited as [[|]|]; try apply follows_refl.
  exec.
  destruct (RingBuffer.Next_ReadLatestOnce (mBufferYUV (self w2)))
    as [latest yuv] eqn:Hread.
  apply Next_ReadLatestOnce_pending in Hread.
  destruct latest as [latest|].
  - destruct Hread as (Hf & Hf' & Hc).
    assert (Hnone : forall w3 : world,
              mOptions (self w3) = mOptions (self w2) ->
              mBufferYUV (self w3) = yuv ->
              delivered (trace w3) = delivered (trace w2) ->
              published (trace w3) = published (trace w2) ->
              follows w2 w3).
    { intros w3 Ho Hy Hd Hp. split; [rewrite Ho; apply same_but_size_refl|].
      exists [], []. rewrite Hd, Hp, !app_nil_r. repeat split.
      unfold pending. rewrite Hy, Hf'. apply sublist_nil_l. }
    cases; try (apply Hnone; simpl; observe; reflexivity).
    split; [apply same_but_size_refl|].
    eexists [_], []. simpl. observe. repeat split.
    unfold pending. simpl. rewrite Hf, Hf', Hc. reflexivity.
  - subst yuv. cases. apply follows_quiet; simpl; observe; reflexivity.
Qed.

Lemma call_follows (c : Call) (w : world) : follows w (snd (call c w)).
Proof.
  destruct c as [env|env|out f t env|b]; simpl; unfold bind.
  - pose proof (Open_follows env w) as H.
    destruct (Open env w). exact H.
  - pose proof (Close_follows env w) as H.
    destruct (Close env w). exact H.
  - pose proof (Capture_follows out f t env w) as H.
    destruct (Capture out f t env w). exact H.
  - pose proof (backend_step_follows b w) as H.
    destruct (backend_step b w). exact H.
Qed.

Lemma run_follows (cs : list Call) (w : world) : follows w (snd (run cs w)).
Proof.
  revert w. induction cs as [|c cs IH]; intros w; [apply follows_refl|].
  simpl. unfold bind.
  pose proof (call_follows c w) as Hc.
  destruct (call c w) as [r w1]. simpl in Hc.
  specialize (IH w1). destruct (run cs w1) as [rs w2]. simpl in *.
  eapply follows_trans; eassumption.
Qed.

(** ** Who delivers *)

Lemma backend_step_delivered (b : BackendStep) (w : world) :
  delivered (trace (snd (backend_step b w))) = delivered (trace w).
Proof.
  destruct b as [u|u s|u p m|ms]; simpl.
  - destruct u; simpl; observe; reflexivity.
  - unfold bind, onPreroll. exec. cases; observe; reflexivity.
  - destruct u; [reflexivity|].
    unfold bind. rewrite onBuffer_this. simpl.
    destruct (checkBuffer_ingested p m w) as (_ & Hd & _).
    observe. exact Hd.
  - reflexivity.
Qed.

Lemma backend_steps_delivered (bs : list BackendStep) (w : world) :
  delivered (trace (snd (backend_steps bs w))) = delivered (trace w).
Proof.
  revert w. induction bs as [|b bs IH]; intros w; [reflexivity|].
  simpl. unfold bind.
  pose proof (backend_step_delivered b w) as Hb.
  destruct (backend_step b w) as [[] w1]. simpl in Hb.
  rewrite IH. exact Hb.
Qed.

Lemma Open_delivered (env : PipelineEnv) (w : world) :
  delivered (trace (snd (Open env w))) = delivered (trace w).
Proof. unfold Open. exec. cases; observe; reflexivity. Qed.

Lemma Close_delivered (env : PipelineEnv) (w : world) :
  delivered (trace (snd (Close env w))) = delivered (trace w).
Proof. unfold Close. exec. cases; observe; reflexivity. Qed.

Lemma Wait_delivered (timeout : Z) (arrivals : list BackendStep) (w : world) :
  delivered (trace (snd (Wait timeout arrivals w))) = delivered (trace w).
Proof.
  unfold Wait. exec.
  destruct (Event.pending (mWaitEvent (self w))); [simpl; observe; reflexivity|].
  destruct (timeout =? 0)%Z; [simpl; observe; reflexivity|].
  set (w0 := {| self := self w; requested_state := requested_state w;
                bus := bus w; trace := trace w ++ [EvWait timeout] |}).
  pose proof (backend_steps_delivered arrivals w0) as H1.
  destruct (backend_steps arrivals w0) as [[] w1]. simpl in H1.
  assert (H0 : delivered (trace w0) = delivered (trace w))
    by (simpl; observe; reflexivity).
  cases; rewrite H1; exact H0.
Qed.

(** [Capture] returns true exactly when it has delivered a frame, and it
    delivers one frame at most. *)
Lemma Capture_delivers (output : option nat) (format : imageFormat)
    (timeout : Z) (env : CaptureEnv) (w w' : world) (r : outcome bool) :
  Capture output format timeout env w = (r, w') ->
  exists D : list buffer,
    delivered (trace w') = delivered (trace w) ++ D /\
    length D = captures [RCapture r].
Proof.
  unfold Capture. destruct output as [out|];
    [|intros H; cbv [ret] in H; simplify_eq; exists []; rewrite app_nil_r; split; reflexivity].
  unfold bind at 1. unfold member at 1. unfold bind at 1.
  assert (Hopen : delivered (trace
            (snd ((if negb (mStreaming (self w))
                   then Open (cap_open env) else ret true) w)))
          = delivered (trace w)).
  { destruct (mStreaming (self w)); simpl;
      [reflexivity|apply Open_delivered]. }
  destruct ((if negb (mStreaming (self w))
             then Open (cap_open env) else ret true) w) as [opened w1].
  simpl in Hopen. rewrite <- Hopen. clear Hopen.
  destruct opened; simpl;
    [|intros H; cbv [ret] in H; simplify_eq; exists []; rewrite app_nil_r; split; reflexivity].
  unfold bind at 1.
  pose proof (Wait_delivered timeout (cap_arrivals env) w1) as Hwait.
  destruct (Wait timeout (cap_arrivals env) w1) as [waited w2].
  simpl in Hwait. rewrite <- Hwait. clear Hwait.
  destruct waited as [[|]|];
    try (intros H; cbv [ret] in H; simplify_eq; exists []; rewrite app_nil_r;
         split; reflexivity).
  intros H. exec.
  cases;
    first [ exists []; observe; split; reflexivity
          | eexists [_]; observe; split; reflexivity ].
Qed.

Lemma call_delivers (c : Call) (w : world) :
  exists D : list buffer,
    delivered (trace (snd (call c w))) = delivered (trace w) ++ D /\
    length D = captures [fst (call c w)].
Proof.
  destruct c as [env|env|out f t env|b]; simpl; unfold bind.
  - pose proof (Open_delivered env w) as H. destruct (Open env w).
    exists []. rewrite app_nil_r. split; [exact H|reflexivity].
  - pose proof (Close_delivered env w) as H. destruct (Close env w).
    exists []. rewrite app_nil_r. split; [exact H|reflexivity].
  - destruct (Capture out f t env w) as [r w'] eqn:H.
    exact (Capture_delivers out f t env w w' r H).
  - pose proof (backend_step_delivered b w) as H. destruct (backend_step b w).
    exists []. rewrite app_nil_r. split; [exact H|reflexivity].
Qed.

Lemma captures_cons (r : Result) (rs : list Result) :
  captures (r :: rs) = captures [r] + captures rs.
Proof. destruct r as [| |[[|]|]|]; reflexivity. Qed.

(** Over a run, the frames delivered are as many as the captures that
    returned true. *)
Lemma run_delivers (cs : list Call) (w : world) :
  length (delivered (trace (snd (run cs w))))
  = length (delivered (trace w)) + captures (fst (run cs w)).
Proof.
  revert w. induction cs as [|c cs IH]; intros w; [simpl; lia|].
  simpl. unfold bind.
  destruct (call_delivers c w) as (D & Hd & Hn).
  destruct (call c w) as [r w1]. cbn [fst snd] in Hd, Hn.
  specialize (IH w1). destruct (run cs w1) as [rs w2].
  cbv beta iota zeta delta [fst snd ret] in *.
  rewrite IH, Hd, length_app, (captures_cons r rs). lia.
Qed.

(** ** The stream configuration *)

(** Only frames change the stored size: what a call or a callback makes of
    the configuration is what it was, or that with the width and height of a
    frame offered on the way. *)
Lemma sized_by_refl (ps : list Pulled) (o : videoOptions) : sized_by ps o o.
Proof. left. reflexivity. Qed.

Lemma sized_by_trans (ps1 ps2 : list Pulled) (o1 o2 o3 : videoOptions) :
  sized_by ps1 o1 o2 -> sized_by ps2 o2 o3 -> sized_by (ps1 ++ ps2) o1 o3.
Proof.
  intros [-> | (p & wd & ht & Hin & Hd & Hw & Hh & Hwd & Hht & ->)]
         [-> | (p' & wd' & ht' & Hin' & Hd' & Hw' & Hh' & Hwd' & Hht' & ->)].
  - left. reflexivity.
  - right. exists p', wd', ht'. rewrite in_app_iff. auto 10.
  - right. exists p, wd, ht. rewrite in_app_iff. auto 10.
  - right. exists p', wd', ht'. rewrite in_app_iff. auto 10.
Qed.

Lemma checkBuffer_sized (p : Pulled) (mem_ok : bool) (w : world) :
  sized_by [p] (mOptions (self w))
    (mOptions (self (snd (checkBuffer p mem_ok w)))).
Proof.
  destruct (checkBuffer_ingested p mem_ok w) as (Hi & _).
  destruct Hi as [_ Hs _ _
                 | d wd ht ok yuv Hd Hw Hh Hwd Hht _ _ Hs _ _
                 | d wd ht yuv i Hd Hw Hh Hwd Hht _ _ yuv' Hs _ _];
    rewrite Hs; [left; reflexivity| |];
    right; exists p, wd, ht; simpl;
    repeat split; auto; congruence.
Qed.

Lemma backend_step_sized (b : BackendStep) (w : world) :
  sized_by (frames_of_step b) (mOptions (self w))
    (mOptions (self (snd (backend_step b w)))).
Proof.
  destruct b as [u|u s|u p m|ms]; simpl.
  - left. destruct u; reflexivity.
  - left. unfold bind, onPreroll. exec. cases.
  - destruct u; [left; reflexivity|].
    unfold bind. rewrite onBuffer_this. simpl. apply checkBuffer_sized.
  - left. reflexivity.
Qed.

Lemma backend_steps_sized (bs : list BackendStep) (w : world) :
  sized_by (flat_map frames_of_step bs) (mOptions (self w))
    (mOptions (self (snd (backend_steps bs w)))).
Proof.
  revert w. induction bs as [|b bs IH]; intros w; [left; reflexivity|].
  simpl. unfold bind.
  pose proof (backend_step_sized b w) as Hb.
  destruct (backend_step b w) as [[] w1]. simpl in Hb.
  eapply sized_by_trans; [exact Hb|apply IH].
Qed.

Lemma Open_options (env : PipelineEnv) (w : world) :
  mOptions (self (snd (Open env w))) = mOptions (self w).
Proof. unfold Open. exec. cases. Qed.

Lemma Close_options (env : PipelineEnv) (w : world) :
  mOptions (self (snd (Close env w))) = mOptions (self w).
Proof. unfold Close. exec. cases. Qed.

Lemma Wait_sized (timeout : Z) (arrivals : list BackendStep) (w : world) :
  sized_by (flat_map frames_of_step arrivals) (mOptions (self w))
    (mOptions (self (snd (Wait timeout arrivals w)))).
Proof.
  unfold Wait. exec.
  destruct (Event.pending (mWaitEvent (self w))); [left; reflexivity|].
  destruct (timeout =? 0)%Z; [left; reflexivity|].
  set (w0 := {| self := self w; requested_state := requested_state w;
                bus := bus w; trace := trace w ++ [EvWait timeout] |}).
  pose proof (backend_steps_sized arrivals w0) as H1.
  destruct (backend_steps arrivals w0) as [[] w1]. simpl in H1.
  cases.
Qed.

Lemma Capture_sized (output : option nat) (format : imageFormat)
    (timeout : Z) (env : CaptureEnv) (w w' : world) (r : outcome bool) :
  Capture output format timeout env w = (r, w') ->
  sized_by (flat_map frames_of_step (cap_arrivals env)) (mOptions (self w))
    (mOptions (self w')).
Proof.
  unfold Capture. destruct output as [out|];
    [|intros H; cbv [ret] in H; simplify_eq; left; reflexivity].
  unfold bind at 1. unfold member at 1. unfold bind at 1.
  assert (Hopen : mOptions (self
            (snd ((if negb (mStreaming (self w))
                   then Open (cap_open env) else ret true) w)))
            = mOptions (self w)).
  { destruct (mStreaming (self w)); simpl;
      [reflexivity|apply Open_options]. }
  destruct ((if negb (mStreaming (self w))
             then Open (cap_open env) else ret true) w) as [opened w1].
  simpl in Hopen. rewrite <- Hopen. clear Hopen.
  destruct opened; cbn [negb]; cbv [ret];
    [|intros H; simplify_eq; left; reflexivity].
  unfold bind at 1.
  pose proof (Wait_sized timeout (cap_arrivals env) w1) as Hwait.
  destruct (Wait timeout (cap_arrivals env) w1) as [waited w2].
  simpl in Hwait.
  destruct waited as [[|]|];
    try (intros H; simplify_eq; exact Hwait).
  exec. intros H.
  enough (Hsame : mOptions (self w') = mOptions (self w2))
    by (rewrite Hsame; exact Hwait).
  cases.
Qed.

Lemma call_sized (c : Call) (w : world) :
  sized_by (frames_of_call c) (mOptions (self w))
    (mOptions (self (snd (call c w)))).
Proof.
  destruct c as [env|env|out f t env|b]; simpl; unfold bind.
  - pose proof (Open_options env w) as H.
    destruct (Open env w). left. exact H.
  - pose proof (Close_options env w) as H.
    destruct (Close env w). left. exact H.
  - destruct (Capture out f t env w) as [r w'] eqn:H.
    exact (Capture_sized _ _ _ _ _ _ _ H).
  - pose proof (backend_step_sized b w) as H.
    destruct (backend_step b w). exact H.
Qed.

Lemma run_sized (cs : list Call) (w : world) :
  sized_by (frames_of_run cs) (mOptions (self w))
    (mOptions (self (snd (run cs w)))).
Proof.
  revert w. induction cs as [|c cs IH]; intros w; [left; reflexivity|].
  simpl. unfold bind.
  pose proof (call_sized c w) as Hc.
  destruct (call c w) as [r w1]. simpl in Hc.
  specialize (IH w1). destruct (run cs w1) as [rs w2]. simpl in *.
  eapply sized_by_trans; eassumption.
Qed.

(** C9 (amended): calls and callbacks leave the stream configuration as it
    is except for width and height, and these change only by the frames
    offered to the frame callback: after a run the configuration is the one
    before it, or that with the width and height that one of the run's
    frames declares, a frame that has its bytes and declares at least 1 by
    1; a run without frames leaves the whole configuration as it was.  And
    every frame that reaches the dimension test with a width and height of
    at least 1 overwrites both with its own, whatever they were before:
    pre-specified or not, found out before or not. *)
Theorem configuration_changes_only_in_size :
  (forall (cs : list Call) (w : world),
      same_but_size (mOptions (self w)) (mOptions (self (snd (run cs w))))) /\
  (forall (cs : list Call) (w : world),
      sized_by (frames_of_run cs) (mOptions (self w))
        (mOptions (self (snd (run cs w))))) /\
  (forall (cs : list Call) (w : world),
      frames_of_run cs = [] ->
      mOptions (self (snd (run cs w))) = mOptions (self w)) /\
  (forall (p : Pulled) (mem_ok : bool) (w : world) (gstData : buffer)
          (wd ht : Z),
      mAppSink (self w) <> None ->
      pulled_data p = Some gstData ->
      declared p "width" = Some wd ->
      declared p "height" = Some ht ->
      (1 <= wd)%Z -> (1 <= ht)%Z ->
      let o' := mOptions (self (snd (onBuffer UD_this p mem_ok w))) in
      width o' = wd /\ height o' = ht).
Proof.
  split; [|split; [|split]].
  - intros cs w. apply run_follows.
  - exact run_sized.
  - intros cs w Hnone.
    destruct (run_sized cs w) as [H | (p & wd & ht & Hin & _)]; [exact H|].
    rewrite Hnone in Hin. destruct Hin.
  - intros p mem_ok w gstData wd ht Hsink Hd Hw Hh Hwd Hht o'. subst o'.
    rewrite onBuffer_this. simpl.
    destruct (checkBuffer_ingested p mem_ok w) as [Hi _].
    destruct Hi as [Hwhy _ _ _
                   | d wd' ht' ok yuv _ Hw' Hh' _ _ _ _ Hs _ _
                   | d wd' ht' yuv i _ Hw' Hh' _ _ _ _ yuv' Hs _ _].
    + exfalso.
      destruct Hwhy as [H|[H|[H|[H|(wd' & ht' & Hw' & Hh' & Hsmall)]]]];
        try congruence.
      rewrite Hw in Hw'. rewrite Hh in Hh'. simplify_eq. lia.
    + rewrite Hs. simpl. split; congruence.
    + rewrite Hs. simpl. split; congruence.
Qed.

(** ** Delivery *)

(** C3: when the read of the latest frame finds nothing new, [Capture]
    returns false and leaves the world as the wait left it: nothing is
    converted, nothing is handed out again.  And over any run that starts
    with nothing waiting, the frames delivered, one for each capture that
    returned true, are in order among the frames published: a frame
    published once is delivered at most once. *)
Theorem frames_delivered_at_most_once :
  (forall (out : nat) (format : imageFormat) (timeout : Z)
          (env : CaptureEnv) (w w2 : world),
      let opened :=
        (if negb (mStreaming (self w)) then Open (cap_open env) else ret true)
          w in
      fst opened = true ->
      Wait timeout (cap_arrivals env) (snd opened) = (Returns true, w2) ->
      fst (RingBuffer.Next_ReadLatestOnce (mBufferYUV (self w2))) = None ->
      Capture (Some out) format timeout env w = (Returns false, w2)) /\
  (forall (cs : list Call) (w : world),
      RingBuffer.fresh (mBufferYUV (self w)) = false ->
      exists D P : list buffer,
        delivered (trace (snd (run cs w))) = delivered (trace w) ++ D /\
        published (trace (snd (run cs w))) = published (trace w) ++ P /\
        length D = captures (fst (run cs w)) /\
        sublist D P).
Proof.
  split.
  - intros out format timeout env w w2 opened Hopen Hwait Hnone.
    subst opened. unfold Capture.
    unfold bind at 1. unfold member at 1. unfold bind at 1.
    destruct ((if negb (mStreaming (self w))
               then Open (cap_open env) else ret true) w) as [o w1].
    simpl in Hopen, Hwait. subst o. simpl.
    unfold bind at 1. rewrite Hwait.
    exec.
    destruct (RingBuffer.Next_ReadLatestOnce (mBufferYUV (self w2)))
      as [latest yuv] eqn:Hread.
    simpl in Hnone. subst latest.
    apply Next_ReadLatestOnce_pending in Hread. subst yuv.
    destruct w2 as [[] ? ? ?]. reflexivity.
  - intros cs w Hfresh.
    destruct (run_follows cs w) as [_ (D & P & Hd & Hp & Hsub)].
    exists D, P. split; [exact Hd|]. split; [exact Hp|]. split.
    + pose proof (run_delivers cs w) as Hn.
      rewrite Hd, length_app in Hn. lia.
    + unfold pending at 2 in Hsub. rewrite Hfresh in Hsub. simpl in Hsub.
      etransitivity; [|exact Hsub]. apply sublist_inserts_r. reflexivity.
Qed.

(** * Further properties *)

(** ** Supported extensions *)

Lemma tolower_zero (c : ascii) : tolower c = zero <-> c = zero.
Proof.
  destruct c as [[] [] [] [] [] [] [] []]; vm_compute; split; congruence.
Qed.

Lemma nat_of_ascii_inj (a b : ascii) :
  Z.of_nat (nat_of_ascii a) = Z.of_nat (nat_of_ascii b) -> a = b.
Proof.
  intros H. apply Nat2Z.inj in H.
  rewrite <- (ascii_nat_embedding a), <- (ascii_nat_embedding b), H.
  reflexivity.
Qed.

(** [strcasecmp] answers 0 exactly for strings that are the same once
    lowered. *)
Lemma strcasecmp_0 (s1 s2 : string) :
  strcasecmp s1 s2 = 0%Z <-> lowercase (c_str s1) = lowercase (c_str s2).
Proof.
  revert s2.
  induction s1 as [|c1 r1 IH]; intros [|c2 r2];
    cbn [strcasecmp lowered_head c_str lowercase].
  - rewrite Ascii.eqb_refl. simpl. tauto.
  - destruct (Ascii.eqb_spec zero (tolower c2)) as [E|E]; cbn [negb].
    + rewrite Ascii.eqb_refl.
      symmetry in E. apply (proj1 (tolower_zero c2)) in E. subst c2.
      rewrite Ascii.eqb_refl. simpl. tauto.
    + destruct (Ascii.eqb_spec c2 zero) as [->|E2];
        [exfalso; apply E; reflexivity|].
      cbn [lowercase]. split; [|discriminate]. intros H. exfalso. apply E.
      apply nat_of_ascii_inj. lia.
  - destruct (Ascii.eqb_spec (tolower c1) zero) as [E|E]; cbn [negb].
    + apply (proj1 (tolower_zero c1)) in E. subst c1.
      rewrite !Ascii.eqb_refl. simpl. tauto.
    + destruct (Ascii.eqb_spec c1 zero) as [->|E1];
        [exfalso; apply E; reflexivity|].
      cbn [lowercase]. split; [|discriminate]. intros H. exfalso. apply E.
      apply nat_of_ascii_inj. lia.
  - destruct (Ascii.eqb_spec (tolower c1) (tolower c2)) as [E|E]; cbn [negb].
    + destruct (Ascii.eqb_spec (tolower c1) zero) as [E0|E0].
      * rewrite E0 in E. symmetry in E.
        apply (proj1 (tolower_zero _)) in E0, E. subst.
        rewrite !Ascii.eqb_refl. simpl. tauto.
      * assert (E1 : c1 <> zero) by (intros ->; apply E0; reflexivity).
        assert (E2 : c2 <> zero)
          by (intros ->; apply E0; rewrite E; reflexivity).
        destruct (Ascii.eqb_spec c1 zero); [contradiction|].
        destruct (Ascii.eqb_spec c2 zero); [contradiction|].
        cbn [lowercase]. rewrite IH, E. split; [intros ->; reflexivity|].
        intros H. injection H. auto.
    + split.
      * intros H. exfalso. apply E. apply nat_of_ascii_inj. lia.
      * intros H. exfalso.
        destruct (Ascii.eqb_spec c1 zero) as [->|E1];
          destruct (Ascii.eqb_spec c2 zero) as [->|E2]; cbn [lowercase] in H.
        -- apply E. reflexivity.
        -- discriminate.
        -- discriminate.
        -- injection H. intros _ H1. contradiction.
Qed.

Lemma IsSupportedExtension_from_In (table : list string) (ext : string) :
  Forall (fun entry => lowercase (c_str entry) = entry) table ->
  IsSupportedExtension_from table ext = true <->
  In (lowercase (c_str ext)) table.
Proof.
  induction 1 as [|entry rest He Hrest IH]; simpl;
    [split; [discriminate|tauto]|].
  destruct (Z.eqb_spec (strcasecmp entry ext) 0) as [E|E].
  - apply strcasecmp_0 in E. rewrite He in E. split; auto.
  - rewrite IH. split; [auto|]. intros [H|H]; [|exact H].
    exfalso. apply E. apply strcasecmp_0. rewrite He. exact H.
Qed.

Lemma SupportedExtensions_lower :
  Forall (fun entry => lowercase (c_str entry) = entry) SupportedExtensions.
Proof. repeat constructor. Qed.

(** X1: [IsSupportedExtension] answers false for the NULL pointer, and for
    a string it answers true exactly when the string, read up to its first
    NUL and with its capitals lowered, is one of the seven names of
    [SupportedExtensions]: the test does not look at the case of letters. *)
Theorem IsSupportedExtension_any_case :
  IsSupportedExtension None = false /\
  forall ext : string,
    IsSupportedExtension (Some ext) = true <->
    In (lowercase (c_str ext)) SupportedExtensions.
Proof.
  split; [reflexivity|]. intros ext.
  apply IsSupportedExtension_from_In, SupportedExtensions_lower.
Qed.

(** ** The launch string *)

(** Run [buildLaunchStr] once its tests are settled. *)
Ltac build :=
  cbv beta iota zeta delta
    [bind bind_opt ret member assign emit LogError LogInfo LogErrors fst snd
     self requested_state bus trace].

Ltac build_in H :=
  cbv beta iota zeta delta
    [bind bind_opt ret member assign emit LogError LogInfo LogErrors fst snd
     self requested_state bus trace] in H.

(** Split on the tests [buildLaunchStr] makes on the resource of [o]. *)
Ltac by_source o env :=
  destruct (protocol (resource o) =? "file") eqn:Hfile;
  [ destruct (fileExists env (path (resource o))) eqn:Hexists;
    [ destruct (extension (resource o) =? "mkv") eqn:Hmkv;
      [| destruct (extension (resource o) =? "mp4") eqn:Hmp4;
         [| destruct (extension (resource o) =? "qt") eqn:Hqt;
            [| destruct (extension (resource o) =? "flv") eqn:Hflv;
               [| destruct (extension (resource o) =? "avi") eqn:Havi;
                  [| destruct (extension (resource o) =? "h264") eqn:Hh264;
                     [| destruct (extension (resource o) =? "h265")
                          eqn:Hh265 ]]]]]]
    | ]
  | destruct (protocol (resource o) =? "rtp") eqn:Hrtp;
    [ destruct (port (resource o) <=? 0)%Z eqn:Hport
    | destruct (protocol (resource o) =? "rtsp") eqn:Hrtsp ] ];
  cbn [negb andb orb].

(** What a step that went on, or a function that returned, tells about its
    parts. *)
Lemma bind_inv {A B : Type} (m : M A) (k : A -> M B) (w w' : world) (b : B) :
  bind m k w = (b, w') -> exists a w1, m w = (a, w1) /\ k a w1 = (b, w').
Proof. unfold bind. destruct (m w) as [a w1]. eauto. Qed.

Lemma bind_opt_Some {A B : Type} (m : M (option A)) (k : A -> M (option B))
    (w w' : world) (b : B) :
  bind_opt m k w = (Some b, w') ->
  exists a w1, m w = (Some a, w1) /\ k a w1 = (Some b, w').
Proof. unfold bind_opt. destruct (m w) as [[a|] w1]; [eauto|discriminate]. Qed.

(** [buildLaunchStr] returns true exactly for a usable source and a known
    codec. *)
Lemma buildLaunchStr_result (env : InitEnv) (w : world) :
  fst (buildLaunchStr env w) =
    source_usable env (mOptions (self w))
    && codec_known (codec (mOptions (self w))).
Proof.
  unfold buildLaunchStr, source_usable, SupportedExtensions, existsb.
  unfold bind at 1. unfold member at 1.
  set (o := mOptions (self w)). rewrite Z.ltb_antisym.
  by_source o env; destruct (codec o); build; reflexivity.
Qed.

(** X2: [buildLaunchStr] returns true exactly when the codec is one of the
    six it has a decoder for and the resource is an existing file with one
    of the seven extensions, or an RTP stream with a port above 0, or an
    RTSP stream.  Any other protocol, a missing file, an RTP port of 0 or
    below and a codec outside the six all make it return false. *)
Theorem buildLaunchStr_succeeds_iff :
  forall (env : InitEnv) (w : world),
    fst (buildLaunchStr env w) = true <->
    codec (mOptions (self w)) <> CODEC_UNKNOWN /\
    (protocol (resource (mOptions (self w))) = "file" /\
     fileExists env (path (resource (mOptions (self w)))) = true /\
     In (extension (resource (mOptions (self w)))) SupportedExtensions
     \/ protocol (resource (mOptions (self w))) = "rtp" /\
        (0 < port (resource (mOptions (self w))))%Z
     \/ protocol (resource (mOptions (self w))) = "rtsp").
Proof.
  intros env w. rewrite buildLaunchStr_result, andb_true_iff.
  set (o := mOptions (self w)). rewrite (and_comm (codec o <> _)).
  assert (Hc : codec_known (codec o) = true <-> codec o <> CODEC_UNKNOWN)
    by (destruct (codec o); simpl; split; congruence).
  rewrite Hc. clear Hc.
  enough (Hs : source_usable env o = true <->
               protocol (resource o) = "file" /\
               fileExists env (path (resource o)) = true /\
               In (extension (resource o)) SupportedExtensions
               \/ protocol (resource o) = "rtp" /\ (0 < port (resource o))%Z
               \/ protocol (resource o) = "rtsp")
    by (rewrite Hs; reflexivity).
  unfold source_usable.
  destruct (String.eqb_spec (protocol (resource o)) "file") as [Hf|Hf].
  - rewrite andb_true_iff, existsb_exists. split.
    + intros [He (x & Hin & Hx)]. apply String.eqb_eq in Hx. subst x. auto.
    + intros [(_ & He & Hin)|[[Hr _]|Hr]]; try congruence.
      split; [exact He|]. eexists. split; [exact Hin|apply String.eqb_refl].
  - destruct (String.eqb_spec (protocol (resource o)) "rtp") as [Hr|Hr].
    + rewrite Z.ltb_lt. split; [auto|].
      intros [(? & _)|[[_ ?]|Hs]]; try congruence; try assumption.
    + rewrite String.eqb_eq. split; [auto|].
      intros [(? & _)|[[? _]|Hs]]; congruence.
Qed.

Lemma launch_eta (o : videoOptions) (d : gstDecoder) :
  with_mOptions o d = with_mLaunchStr (mLaunchStr d) (with_mOptions o d).
Proof. reflexivity. Qed.

Lemma deviceType_eta (d : gstDecoder) :
  d = with_mLaunchStr (mLaunchStr d)
        (with_mOptions
           (set_deviceType (deviceType (mOptions d)) (mOptions d)) d).
Proof. destruct d as [[] ? ? ? ? ? ? ? ? ?]; reflexivity. Qed.

(** What [buildLaunchStr] leaves behind, whatever it returns. *)
Lemma buildLaunchStr_outcome (env : InitEnv) (w w' : world) (r : bool) :
  buildLaunchStr env w = (r, w') ->
  exists (dev : DeviceType) (launch : string) (logs : list Effect),
    self w' =
      with_mLaunchStr launch
        (with_mOptions (set_deviceType dev (mOptions (self w))) (self w)) /\
    (r = true ->
     dev = if protocol (resource (mOptions (self w))) =? "file"
           then DEVICE_FILE else DEVICE_IP) /\
    (r = false -> launch = mLaunchStr (self w)) /\
    trace w' = trace w ++ logs /\
    logs_only logs /\
    bus w' = bus w /\
    requested_state w' = requested_state w.
Proof.
  unfold buildLaunchStr. unfold bind at 1. unfold member at 1.
  set (o := mOptions (self w)).
  by_source o env; destruct (codec o) eqn:Hco; build.
  all: intros H; apply pair_equal_spec in H; destruct H as [Hr Hw];
       subst r; subst w'.
  all: eexists _, _, _; cbn [self trace bus requested_state].
  all: (split; [first [reflexivity | apply deviceType_eta | apply launch_eta] |]).
  all: (split; [intros; first [discriminate | reflexivity]|]).
  all: (split; [intros; first [discriminate | reflexivity]|]).
  all: (split; [rewrite <- ?app_assoc; reflexivity|]).
  all: (split; [simpl; repeat constructor|]).
  all: split; reflexivity.
Qed.

(** X3: whatever [buildLaunchStr] returns, all it does besides logging is
    assign the device type and, when it returns true, the launch string:
    every other member of the decoder and every other field of the
    configuration is as before, no call but logs is made, and the bus and
    the pipeline state are not touched.  When it returns true the device
    type is [DEVICE_FILE] for a file and [DEVICE_IP] otherwise; when it
    returns false the launch string is the one that stood there. *)
Theorem buildLaunchStr_effects :
  forall (env : InitEnv) (w : world),
    exists (dev : DeviceType) (launch : string) (logs : list Effect),
      self (snd (buildLaunchStr env w)) =
        with_mLaunchStr launch
          (with_mOptions (set_deviceType dev (mOptions (self w))) (self w)) /\
      (fst (buildLaunchStr env w) = true ->
       dev = if protocol (resource (mOptions (self w))) =? "file"
             then DEVICE_FILE else DEVICE_IP) /\
      (fst (buildLaunchStr env w) = false -> launch = mLaunchStr (self w)) /\
      trace (snd (buildLaunchStr env w)) = trace w ++ logs /\
      logs_only logs /\
      bus (snd (buildLaunchStr env w)) = bus w /\
      requested_state (snd (buildLaunchStr env w)) = requested_state w.
Proof.
  intros env w. destruct (buildLaunchStr env w) as [r w'] eqn:H.
  exact (buildLaunchStr_outcome env w w' r H).
Qed.

Lemma quotes_app (a b : string) :
  quotes (a ++ b)%string = quotes a + quotes b.
Proof.
  induction a as [|c a IH]; simpl; [reflexivity|]. rewrite IH. lia.
Qed.

Lemma quotes_string_of_Z (z : Z) : quotes (string_of_Z z) = 0.
Proof.
  unfold string_of_Z, NilZero.string_of_int.
  assert (Hu : forall d, quotes (NilEmpty.string_of_uint d) = 0)
    by (induction d; simpl; auto).
  assert (Hn : forall d, quotes (NilZero.string_of_uint d) = 0)
    by (intros []; simpl; auto; apply Hu).
  destruct (Z.to_int z); simpl; auto.
Qed.

(** X4: for an RTP stream with a port above 0 and any of the six codecs
    [buildLaunchStr] returns true.  The double quote it opens before the
    caps is closed for H.264, H.265, VP8 and VP9 only: for MPEG-2 and MPEG-4
    no encoding name and no closing quote are written, and the launch string
    holds one quote more than the path of the resource, not two. *)
Theorem buildLaunchStr_rtp_caps_quote :
  forall (env : InitEnv) (w : world),
    protocol (resource (mOptions (self w))) = "rtp" ->
    (0 < port (resource (mOptions (self w))))%Z ->
    codec (mOptions (self w)) <> CODEC_UNKNOWN ->
    fst (buildLaunchStr env w) = true /\
    quotes (mLaunchStr (self (snd (buildLaunchStr env w)))) =
      quotes (path (resource (mOptions (self w))))
      + match codec (mOptions (self w)) with
        | CODEC_MPEG2 | CODEC_MPEG4 => 1
        | _ => 2
        end.
Proof.
  intros env w Hp Hport Hcodec.
  enough (H : exists w',
             buildLaunchStr env w = (true, w') /\
             quotes (mLaunchStr (self w')) =
               quotes (path (resource (mOptions (self w))))
               + match codec (mOptions (self w)) with
                 | CODEC_MPEG2 | CODEC_MPEG4 => 1
                 | _ => 2
                 end)
    by (destruct H as (w' & -> & Hq); split; [reflexivity|exact Hq]).
  unfold buildLaunchStr. unfold bind at 1. unfold member at 1.
  apply Z.leb_gt in Hport. rewrite Hp, Hport.
  change ("rtp" =? "file") with false. change ("rtp" =? "rtp") with true.
  cbv iota.
  set (o := mOptions (self w)) in *.
  destruct (codec o); [congruence| ..];
    destruct GST_CHECK_VERSION_1_0_0,
      (negb (width o =? 0)%Z && negb (height o =? 0)%Z),
      (negb (is_FLIP_NONE (flipMethod o)));
    build; cbn [orb]; (eexists; split; [reflexivity|]);
    cbn [self mLaunchStr with_mLaunchStr];
    rewrite ?quotes_app, ?quotes_string_of_Z;
    repeat match goal with
           | |- context [quotes ?s] =>
               lazymatch s with
               | path _ => fail
               | _ => let n := eval vm_compute in (quotes s) in
                      change (quotes s) with n
               end
           end;
    lia.
Qed.

Lemma prefix_app (p a b : string) :
  (exists rest, a = (p ++ rest)%string) ->
  exists rest, (a ++ b)%string = (p ++ rest)%string.
Proof. intros (rest & ->). eexists. apply append_assoc. Qed.

Lemma prefix_here (p a : string) :
  a = p -> exists rest, a = (p ++ rest)%string.
Proof. intros ->. exists ""%string. symmetry. apply append_empty. Qed.

(** The launch string [buildLaunchStr] stores: the source element, by
    protocol; the stages up to the decoder, whose name ends in [dec]; what
    the resize options ask for; and the sink. *)
Lemma buildLaunchStr_text (env : InitEnv) (w w' : world) :
  buildLaunchStr env w = (true, w') ->
  exists stages : string,
    let o := mOptions (self w) in
    let sized := negb (width o =? 0)%Z && negb (height o =? 0)%Z in
    let flipped := negb (is_FLIP_NONE (flipMethod o)) in
    mLaunchStr (self w') =
      ((if protocol (resource o) =? "file"
        then "filesrc location=" ++ path (resource o) ++ " ! "
        else if protocol (resource o) =? "rtp"
        then "udpsrc port=" ++ string_of_Z (port (resource o))
             ++ " multicast-group=" ++ path (resource o)
             ++ " auto-multicast=true caps="
        else "rtspsrc location=" ++ uri_string (resource o) ++ " ! queue ! ")
       ++ stages ++ "dec ! "
       ++ (if sized || flipped
           then "nvvidconv"
                ++ (if flipped
                    then " flip-method=" ++ string_of_Z (flip_int (flipMethod o))
                    else "")
                ++ " ! video/x-raw"
                ++ (if sized
                    then ", width=(int)" ++ string_of_Z (width o)
                         ++ ", height=(int)" ++ string_of_Z (height o)
                         ++ ", format=(string)NV12"
                    else "")
                ++ " ! "
           else "video/x-raw ! ")
       ++ "appsink name=mysink")%string.
Proof.
  unfold buildLaunchStr. unfold bind at 1. unfold member at 1.
  set (o := mOptions (self w)).
  intros H. apply bind_inv in H as (r & w1 & H1 & H2).
  destruct r as [ss|]; [|discriminate].
  apply bind_opt_Some in H1 as (ss1 & w2 & Hsrc & H1).
  apply bind_opt_Some in H1 as (ss2 & w3 & Hdec & H1).
  build_in H1. build_in H2.
  apply pair_equal_spec in H1. destruct H1 as [H1 ->].
  apply pair_equal_spec in H2. destruct H2 as [_ <-].
  injection H1 as <-. cbn [self mLaunchStr with_mLaunchStr].
  assert (Hd : exists name : string, ss2 = (ss1 ++ name ++ "dec ! ")%string).
  { destruct (codec o), GST_CHECK_VERSION_1_0_0; build_in Hdec;
      try discriminate;
      apply pair_equal_spec in Hdec; destruct Hdec as [Hdec _];
      injection Hdec as <-;
      first [ solve [exists "omxh264"; reflexivity]
            | solve [exists "omxh265"; reflexivity]
            | solve [exists "omxvp8"; reflexivity]
            | solve [exists "omxvp9"; reflexivity]
            | solve [exists "omxmpeg2video"; reflexivity]
            | solve [exists "omxmpeg4video"; reflexivity]
            | solve [exists "nv_omx_h264"; reflexivity]
            | solve [exists "nv_omx_h265"; reflexivity]
            | solve [exists "nv_omx_vp8"; reflexivity]
            | solve [exists "nv_omx_vp9"; reflexivity]
            | solve [exists "nx_omx_mpeg2video"; reflexivity]
            | solve [exists "nx_omx_mpeg4video"; reflexivity] ]. }
  destruct Hd as (name & ->). clear Hdec.
  assert (Hs : exists rest : string,
             ss1 =
               ((if protocol (resource o) =? "file"
                 then "filesrc location=" ++ path (resource o) ++ " ! "
                 else if protocol (resource o) =? "rtp"
                 then "udpsrc port=" ++ string_of_Z (port (resource o))
                      ++ " multicast-group=" ++ path (resource o)
                      ++ " auto-multicast=true caps="
                 else "rtspsrc location=" ++ uri_string (resource o)
                      ++ " ! queue ! ") ++ rest)%string).
  { revert Hsrc. clear.
    by_source o env; destruct (codec o); build; intros Hsrc;
      try discriminate;
      apply pair_equal_spec in Hsrc; destruct Hsrc as [Hsrc _];
      apply (inj Some) in Hsrc; subst ss1;
      repeat first
        [ solve [apply prefix_here; rewrite ?append_assoc; reflexivity]
        | apply prefix_app ]. }
  destruct Hs as (rest & ->).
  exists (rest ++ name)%string.
  destruct (negb (width o =? 0)%Z && negb (height o =? 0)%Z),
    (negb (is_FLIP_NONE (flipMethod o))); cbn [orb];
    rewrite ?append_assoc; cbn [String.append]; rewrite ?append_assoc;
    reflexivity.
Qed.

(** X5: when both a width and a height other than 0 are configured, the
    launch string [buildLaunchStr] stores ends with the caps that ask for
    exactly that size, in NV12, right before the sink. *)
Theorem buildLaunchStr_requested_size :
  forall (env : InitEnv) (w : world),
    fst (buildLaunchStr env w) = true ->
    width (mOptions (self w)) <> 0%Z ->
    height (mOptions (self w)) <> 0%Z ->
    exists front : string,
      mLaunchStr (self (snd (buildLaunchStr env w))) =
        (front ++ " ! video/x-raw, width=(int)"
         ++ string_of_Z (width (mOptions (self w)))
         ++ ", height=(int)" ++ string_of_Z (height (mOptions (self w)))
         ++ ", format=(string)NV12 ! appsink name=mysink")%string.
Proof.
  intros env w Hok Hwd Hht.
  destruct (buildLaunchStr env w) as [r w'] eqn:H. simpl in Hok. subst r.
  destruct (buildLaunchStr_text env w w' H) as (stages & Ht).
  cbv zeta in Ht. simpl. rewrite Ht.
  apply Z.eqb_neq in Hwd, Hht. rewrite Hwd, Hht. cbn [negb andb orb].
  match goal with
  | |- exists _, (?source ++ _ ++ _ ++ (_ ++ ?flip ++ _) ++ _)%string = _ =>
      exists (source ++ stages ++ "dec ! nvvidconv" ++ flip)%string
  end.
  rewrite !append_assoc. reflexivity.
Qed.

(** X6: a width configured without a height, or a height without a width,
    is ignored: with no flip asked for, the launch string has no converter
    and no size in its caps, and the decoder is followed at once by
    [video/x-raw] and the sink. *)
Theorem buildLaunchStr_size_needs_both :
  forall (env : InitEnv) (w : world),
    fst (buildLaunchStr env w) = true ->
    width (mOptions (self w)) = 0%Z \/ height (mOptions (self w)) = 0%Z ->
    flipMethod (mOptions (self w)) = FLIP_NONE ->
    exists front : string,
      mLaunchStr (self (snd (buildLaunchStr env w))) =
        (front ++ "dec ! video/x-raw ! appsink name=mysink")%string.
Proof.
  intros env w Hok Hsize Hflip.
  destruct (buildLaunchStr env w) as [r w'] eqn:H. simpl in Hok. subst r.
  destruct (buildLaunchStr_text env w w' H) as (stages & Ht).
  cbv zeta in Ht. simpl. rewrite Ht, Hflip.
  assert (Hs : negb (width (mOptions (self w)) =? 0)%Z
               && negb (height (mOptions (self w)) =? 0)%Z = false).
  { destruct Hsize as [-> | ->]; simpl; [reflexivity|apply andb_false_r]. }
  rewrite Hs. cbn [is_FLIP_NONE negb orb].
  match goal with
  | |- exists _, (?source ++ _)%string = _ =>
      exists (source ++ stages)%string
  end.
  rewrite !append_assoc. reflexivity.
Qed.

(** X7: the launch string [buildLaunchStr] stores starts with the source
    element of the protocol: [filesrc] on the path of the resource for a
    file; [udpsrc] on its port, with its path as the multicast group, for
    RTP; [rtspsrc] on its whole URI string, followed by a queue, for RTSP. *)
Theorem buildLaunchStr_source_element :
  forall (env : InitEnv) (w : world),
    fst (buildLaunchStr env w) = true ->
    exists rest : string,
      mLaunchStr (self (snd (buildLaunchStr env w))) =
        ((if protocol (resource (mOptions (self w))) =? "file"
          then "filesrc location=" ++ path (resource (mOptions (self w)))
               ++ " ! "
          else if protocol (resource (mOptions (self w))) =? "rtp"
          then "udpsrc port="
               ++ string_of_Z (port (resource (mOptions (self w))))
               ++ " multicast-group=" ++ path (resource (mOptions (self w)))
               ++ " auto-multicast=true caps="
          else "rtspsrc location=" ++ uri_string (resource (mOptions (self w)))
               ++ " ! queue ! ") ++ rest)%string.
Proof.
  intros env w Hok.
  destruct (buildLaunchStr env w) as [r w'] eqn:H. simpl in Hok. subst r.
  destruct (buildLaunchStr_text env w w' H) as (stages & Ht).
  cbv zeta in Ht. simpl. rewrite Ht. eexists. reflexivity.
Qed.

(** ** Setting up a decoder *)

(** Log lines show in no observation that ignores logs. *)
Lemma omap_logs_only {A : Type} (f : Effect -> option A) (logs : list Effect) :
  (forall lvl text, f (EvLog lvl text) = None) ->
  logs_only logs -> omap f logs = [].
Proof.
  intros Hf. induction 1 as [|e logs He _ IH]; [reflexivity|].
  destruct e; try contradiction. simpl. rewrite Hf. exact IH.
Qed.

Lemma printed_print_all (ms : list GstMessage) : printed (print_all ms) = ms.
Proof.
  unfold printed. induction ms as [|m ms IH]; simpl; [reflexivity|].
  f_equal. exact IH.
Qed.

(** Normalise the observations of a trace built by appending, the further
    ones included. *)
Ltac observe_all :=
  unfold published, delivered, wakes, waits, launched, state_changes,
    callbacks_set, unrefs, unmaps in *;
  repeat (rewrite ?omap_app, ?omap_print_all by (intros; reflexivity); simpl);
  rewrite ?app_nil_r.

(** What [init] has done when it returns: it has asked GStreamer for at most
    one pipeline, from the launch string it stored, and keeps what it got;
    it has registered the callbacks exactly when it returns true, and then
    holds a pipeline that casts, a bus and a sink; it has not touched the
    pipeline state, the bus, the flags, the ring buffers or, but for the
    device type, the configuration. *)
Lemma init_outcome (env : InitEnv) (w w' : world) (r : bool) :
  init env w = (r, w') ->
  callbacks_set (trace w') =
    callbacks_set (trace w) ++ (if r then [tt] else []) /\
  (exists L : list string,
      launched (trace w') = launched (trace w) ++ L /\
      (L = [] \/
       L = [mLaunchStr (self w')] /\
       mPipeline (self w') =
         fst (gst_parse_launch env (mLaunchStr (self w')))) /\
      (r = true -> L = [mLaunchStr (self w')])) /\
  (r = true ->
   GST_PIPELINE env (mPipeline (self w')) <> None /\
   mBus (self w') <> None /\ mAppSink (self w') <> None) /\
  (exists dev, mOptions (self w') = set_deviceType dev (mOptions (self w))) /\
  mEOS (self w') = mEOS (self w) /\
  mStreaming (self w') = mStreaming (self w) /\
  mBufferYUV (self w') = mBufferYUV (self w) /\
  mBufferRGB (self w') = mBufferRGB (self w) /\
  mWaitEvent (self w') = mWaitEvent (self w) /\
  state_changes (trace w') = state_changes (trace w) /\
  requested_state w' = requested_state w /\
  bus w' = bus w.
Proof.
  unfold init. destruct (gstreamerInit env); cbn [negb].
  - unfold bind at 1.
    destruct (buildLaunchStr env w) as [built w1] eqn:Hb.
    apply buildLaunchStr_outcome in Hb
      as (dev & launch & logs & Hself & _ & _ & Htrace & Hlogs & Hbus & Hst).
    assert (Hq : forall (A : Type) (f : Effect -> option A),
               (forall lvl text, f (EvLog lvl text) = None) ->
               omap f (trace w1) = omap f (trace w)).
    { intros A f Hf. rewrite Htrace, omap_app, (omap_logs_only f logs Hf Hlogs).
      apply app_nil_r. }
    destruct built; cbn [negb]; exec.
    + destruct (gst_parse_launch env (mLaunchStr (self w1)))
        as [pipe err] eqn:Hparse.
      rewrite Hself in Hparse. simpl in Hparse.
      cases; intros Hinit; simplify_eq; simpl; observe_all;
        rewrite !Hq by reflexivity; rewrite ?Hself; simpl;
        (split; [reflexivity|]);
        (split; [exists [launch]; split; [reflexivity|]; split;
                 [right; rewrite Hparse; auto|reflexivity]|]);
        repeat split; try congruence; try discriminate;
        try (eexists; reflexivity).
    + intros Hinit. simplify_eq. simpl. observe_all.
      rewrite !Hq by reflexivity. rewrite Hself. simpl.
      split; [reflexivity|].
      split; [exists []; rewrite app_nil_r; repeat split; auto; discriminate|].
      repeat split; try congruence; try discriminate.
      eexists; reflexivity.
  - exec. intros Hinit. simplify_eq. simpl. observe_all.
    split; [reflexivity|].
    split; [exists []; rewrite app_nil_r; repeat split; auto; discriminate|].
    repeat split; try congruence; try discriminate.
    exists (deviceType (mOptions (self w))).
    destruct (mOptions (self w)); reflexivity.
Qed.

(** X8: a decoder that [Create] returns is fully set up and Closed: it
    holds a pipeline, a bus and a sink, neither flag is set, both ring
    buffers are unallocated and no wake is pending; its configuration is
    the one asked for but for the device type; GStreamer was asked for
    exactly one pipeline, from the launch string the decoder keeps; the
    callbacks were registered once; and the pipeline was asked for no state
    change.  (A cast of the NULL pipeline is taken to give NULL.) *)
Theorem Create_decoder :
  forall (env : InitEnv) (options : videoOptions) (d : gstDecoder),
    GST_PIPELINE env None = None ->
    fst (Create env options) = Some d ->
    d = self (snd (Create env options)) /\
    mPipeline d <> None /\ mBus d <> None /\ mAppSink d <> None /\
    mEOS d = false /\ mStreaming d = false /\
    mBufferYUV d = RingBuffer.empty /\ mBufferRGB d = RingBuffer.empty /\
    mWaitEvent d = Event.init /\
    (exists dev, mOptions d = set_deviceType dev options) /\
    launched (trace (snd (Create env options))) = [mLaunchStr d] /\
    callbacks_set (trace (snd (Create env options))) = [tt] /\
    state_changes (trace (snd (Create env options))) = [] /\
    requested_state (snd (Create env options)) = GST_STATE_NULL /\
    bus (snd (Create env options)) = [].
Proof.
  intros env options d Hcast. unfold Create.
  destruct (init env (new_world options)) as [ok w] eqn:Hi.
  apply init_outcome in Hi
    as (Hcb & (L & Hl & _ & HL) & Hh & Ho & He & Hs & Hy & Hr & Hv & Hst
        & Hrs & Hb).
  destruct ok; simpl; [|discriminate]. intros Hd. simplify_eq.
  destruct (Hh eq_refl) as (Hp & Hbus & Hsink).
  rewrite (HL eq_refl) in Hl. simpl in *.
  repeat split; try assumption.
  intros Hnone. rewrite Hnone in Hp. contradiction.
Qed.

(** X9: when [Create] returns NULL the callbacks were never registered and
    the pipeline was asked for no state change; GStreamer was asked for one
    pipeline at most, and whatever it returned is still held by the decoder
    that was given up: the failure path releases nothing.  The last thing
    done is the log of the failure. *)
Theorem Create_failure :
  forall (env : InitEnv) (options : videoOptions),
    fst (Create env options) = None ->
    callbacks_set (trace (snd (Create env options))) = [] /\
    state_changes (trace (snd (Create env options))) = [] /\
    (launched (trace (snd (Create env options))) = [] \/
     launched (trace (snd (Create env options))) =
       [mLaunchStr (self (snd (Create env options)))] /\
     mPipeline (self (snd (Create env options))) =
       fst (gst_parse_launch env
              (mLaunchStr (self (snd (Create env options)))))) /\
    last (trace (snd (Create env options))) =
      Some (EvLog LOG_ERROR "gstDecoder -- failed to create decoder engine").
Proof.
  intros env options. unfold Create.
  destruct (init env (new_world options)) as [ok w] eqn:Hi.
  apply init_outcome in Hi
    as (Hcb & (L & Hl & HL & _) & _ & _ & _ & _ & _ & _ & _ & Hst & _ & _).
  destruct ok; simpl; [discriminate|]. intros _. observe_all.
  simpl in *. repeat split; try assumption.
  - destruct HL as [-> | [-> Hp]]; rewrite Hl; auto.
  - apply last_snoc.
Qed.

(** Without a launch string there is no decoder. *)
Lemma Create_needs_launch (env : InitEnv) (options : videoOptions) :
  fst (buildLaunchStr env (new_world options)) = false ->
  fst (Create env options) = None.
Proof.
  intros Hb. unfold Create, init.
  destruct (gstreamerInit env); cbn [negb]; [|reflexivity].
  unfold bind at 1.
  destruct (buildLaunchStr env (new_world options)) as [built w1].
  simpl in Hb. subst built. reflexivity.
Qed.

Lemma SupportedExtensions_lowercase :
  Forall (fun entry => lowercase entry = entry) SupportedExtensions.
Proof. repeat constructor. Qed.

(** X10: construction compares the extension of a file letter by letter,
    case included: an extension that holds a capital is refused and
    [Create] returns NULL, also where [IsSupportedExtension] accepts it
    (as it does [MP4]). *)
Theorem Create_extension_case :
  forall (env : InitEnv) (options : videoOptions),
    protocol (resource options) = "file" ->
    lowercase (extension (resource options)) <> extension (resource options) ->
    fst (Create env options) = None.
Proof.
  intros env options Hp Hcase. apply Create_needs_launch.
  rewrite buildLaunchStr_result. unfold source_usable.
  cbn [new_world self construct mOptions]. rewrite Hp.
  change ("file" =? "file") with true. cbv iota.
  assert (Hnot : existsb (String.eqb (extension (resource options)))
                   SupportedExtensions = false).
  { apply not_true_is_false. intros Hex. apply existsb_exists in Hex.
    destruct Hex as (entry & Hin & Heq). apply String.eqb_eq in Heq.
    apply Hcase. rewrite Heq.
    exact (proj1 (List.Forall_forall _ _) SupportedExtensions_lowercase _ Hin). }
  rewrite Hnot, andb_false_r. reflexivity.
Qed.

(** ** Opening and closing *)

(** A decoder for which [Open] returns true is streaming and has not seen
    the end of the stream. *)
Lemma Open_opened (env : PipelineEnv) (w w' : world) :
  Open env w = (true, w') ->
  mEOS (self w') = false /\ mStreaming (self w') = true.
Proof. unfold Open. exec. intros H. cases. Qed.


(** X12: from the Closed state, [Open] on a pipeline that accepts the state
    change, followed by [Close], brings the decoder object back to what it
    was: the pipeline was asked for [GST_STATE_PLAYING] and then for
    [GST_STATE_NULL], which is where it is left, and the bus is empty. *)
Theorem Open_then_Close :
  forall (env1 env2 : PipelineEnv) (w : world),
    Closed w ->
    start_accepted (set_state_ret env1) = true ->
    fst (Open env1 w) = true /\
    self (snd (Close env2 (snd (Open env1 w)))) = self w /\
    requested_state (snd (Close env2 (snd (Open env1 w)))) = GST_STATE_NULL /\
    bus (snd (Close env2 (snd (Open env1 w)))) = [] /\
    state_changes (trace (snd (Close env2 (snd (Open env1 w))))) =
      state_changes (trace w) ++ [GST_STATE_PLAYING; GST_STATE_NULL].
Proof.
  intros env1 env2 w [Hs He] Hacc.
  unfold Open, Close. exec. rewrite He, Hs. simpl.
  destruct w as [[] st ms t]. simpl in *. subst.
  destruct (set_state_ret env1); try discriminate;
    destruct (set_state_ret env2); simpl; observe_all;
    rewrite <- ?app_assoc; repeat split.
Qed.

(** X13: a state change drains the bus.  [Open] from the Closed state on a
    pipeline that accepts the change, and [Close] on a decoder that is
    streaming or has seen the end of the stream, print every message that
    was waiting on the bus or was posted during the call, each once and in
    the order of arrival, and leave the bus empty. *)
Theorem state_changes_drain_the_bus :
  (forall (env : PipelineEnv) (w : world),
      Closed w ->
      start_accepted (set_state_ret env) = true ->
      printed (trace (snd (Open env w))) =
        printed (trace w) ++ bus w ++ posted env ++ posted_asleep env /\
      bus (snd (Open env w)) = []) /\
  (forall (env : PipelineEnv) (w : world),
      mStreaming (self w) = true \/ mEOS (self w) = true ->
      printed (trace (snd (Close env w))) =
        printed (trace w) ++ bus w ++ posted env ++ posted_asleep env /\
      bus (snd (Close env w)) = []).
Proof.
  split.
  - intros env w [Hs He] Hacc. unfold Open. exec. rewrite He, Hs. simpl.
    destruct (set_state_ret env); try discriminate; simpl;
      unfold printed; rewrite !omap_app; fold (printed (trace w));
      fold (printed (print_all (bus w ++ posted env)));
      fold (printed (print_all ([] ++ posted_asleep env)));
      rewrite !printed_print_all; simpl; rewrite <- !app_assoc, ?app_nil_r;
      split; reflexivity.
  - intros env w Hopen. unfold Close. exec.
    assert (Hc : negb (mStreaming (self w)) && negb (mEOS (self w)) = false)
      by (destruct Hopen as [-> | ->]; simpl;
          [reflexivity|apply andb_false_r]).
    rewrite Hc.
    destruct (set_state_ret env); simpl;
      unfold printed; rewrite !omap_app; fold (printed (trace w));
      fold (printed (print_all ((bus w ++ posted env) ++ posted_asleep env)));
      rewrite !printed_print_all; simpl; rewrite <- !app_assoc, ?app_nil_r;
      split; reflexivity.
Qed.

(** X14: the destructor closes the stream, so that a decoder that was
    streaming or had seen the end of the stream has its pipeline sent to
    [GST_STATE_NULL], and one that was Closed sees no state change; then it
    releases the sink, the bus and the pipeline, in this order, each once
    and only those that are not NULL, and leaves all three handles NULL. *)
Theorem destructor_releases :
  forall (env : PipelineEnv) (w : world),
    let r := destructor env w in
    fst r = omap id [mAppSink (self w); mBus (self w); mPipeline (self w)] /\
    mAppSink (self (snd r)) = None /\
    mBus (self (snd r)) = None /\
    mPipeline (self (snd r)) = None /\
    mStreaming (self (snd r)) = false /\
    state_changes (trace (snd r)) =
      state_changes (trace w)
      ++ (if mStreaming (self w) || mEOS (self w)
          then [GST_STATE_NULL] else []).
Proof.
  intros env w r. subst r. unfold destructor, Close. exec.
  destruct w as [[o l sink b pipe eos streaming yuv rgb ev] st ms t].
  simpl.
  destruct streaming, eos, sink, b, pipe; simpl;
    destruct (set_state_ret env); simpl; observe_all;
    repeat split; reflexivity.
Qed.

(** ** What no call changes *)

Lemma keeps_refl (w : world) : keeps w w.
Proof. repeat split; auto. Qed.

Lemma keeps_trans (w1 w2 w3 : world) :
  keeps w1 w2 -> keeps w2 w3 -> keeps w1 w3.
Proof.
  intros [(H1 & H2 & H3 & H4) [He Hf]] [(H1' & H2' & H3' & H4') [He' Hf']].
  repeat split; try congruence; auto.
Qed.

(** A step that leaves the wiring and both flags alone. *)
Lemma keeps_members (w w' : world) :
  mLaunchStr (self w') = mLaunchStr (self w) ->
  mAppSink (self w') = mAppSink (self w) ->
  mBus (self w') = mBus (self w) ->
  mPipeline (self w') = mPipeline (self w) ->
  mEOS (self w') = mEOS (self w) ->
  mStreaming (self w') = mStreaming (self w) ->
  keeps w w'.
Proof.
  intros H1 H2 H3 H4 He Hs. unfold keeps, wired_as, flags_agree.
  rewrite He, Hs. repeat split; auto.
Qed.

(** A step that leaves the decoder object alone. *)
Lemma keeps_self (w w' : world) : self w' = self w -> keeps w w'.
Proof. intros H. apply keeps_members; rewrite H; reflexivity. Qed.

Lemma checkBuffer_keeps (p : Pulled) (mem_ok : bool) (w : world) :
  keeps w (snd (checkBuffer p mem_ok w)).
Proof.
  destruct (checkBuffer_ingested p mem_ok w) as (Hi & _).
  destruct Hi as [_ Hs _ _
                 | d wd ht ok yuv _ _ _ _ _ _ _ Hs _ _
                 | d wd ht yuv i _ _ _ _ _ _ _ yuv' Hs _ _];
    apply keeps_members; rewrite Hs; reflexivity.
Qed.

Lemma backend_step_keeps (b : BackendStep) (w : world) :
  keeps w (snd (backend_step b w)).
Proof.
  destruct b as [u|u s|u p m|ms]; simpl.
  - destruct u; simpl; [apply keeps_self; reflexivity|].
    unfold keeps, wired_as, flags_agree. simpl. auto 10.
  - unfold bind, onPreroll. exec.
    apply keeps_members; cases.
  - destruct u; [apply keeps_refl|].
    unfold bind. rewrite onBuffer_this. simpl.
    eapply keeps_trans; [apply checkBuffer_keeps|].
    apply keeps_self; reflexivity.
  - apply keeps_self; reflexivity.
Qed.

Lemma backend_steps_keeps (bs : list BackendStep) (w : world) :
  keeps w (snd (backend_steps bs w)).
Proof.
  revert w. induction bs as [|b bs IH]; intros w; [apply keeps_refl|].
  simpl. unfold bind.
  pose proof (backend_step_keeps b w) as Hb.
  destruct (backend_step b w) as [[] w1]. simpl in Hb.
  eapply keeps_trans; [exact Hb|apply IH].
Qed.

Lemma Open_keeps (env : PipelineEnv) (w : world) :
  keeps w (snd (Open env w)).
Proof.
  unfold Open. exec. unfold keeps, wired_as, flags_agree.
  cases; repeat split; auto; congruence.
Qed.

Lemma Close_keeps (env : PipelineEnv) (w : world) :
  keeps w (snd (Close env w)).
Proof.
  unfold Close. exec. unfold keeps, wired_as, flags_agree.
  cases; repeat split; auto.
Qed.

Lemma Wait_keeps (timeout : Z) (arrivals : list BackendStep) (w : world) :
  keeps w (snd (Wait timeout arrivals w)).
Proof.
  unfold Wait. exec.
  destruct (Event.pending (mWaitEvent (self w)));
    [apply keeps_members; reflexivity|].
  destruct (timeout =? 0)%Z; [apply keeps_self; reflexivity|].
  set (w0 := {| self := self w; requested_state := requested_state w;
                bus := bus w; trace := trace w ++ [EvWait timeout] |}).
  pose proof (backend_steps_keeps arrivals w0) as H1.
  destruct (backend_steps arrivals w0) as [[] w1]. simpl in H1.
  eapply keeps_trans; [exact H1|].
  apply keeps_members; cases.
Qed.

Lemma Capture_keeps (output : option nat) (format : imageFormat)
    (timeout : Z) (env : CaptureEnv) (w : world) :
  keeps w (snd (Capture output format timeout env w)).
Proof.
  unfold Capture. destruct output as [out|]; [|apply keeps_refl].
  unfold bind at 1. unfold member at 1. unfold bind at 1.
  assert (Hopen : keeps w
            (snd ((if negb (mStreaming (self w))
                   then Open (cap_open env) else ret true) w))).
  { destruct (mStreaming (self w)); simpl;
      [apply keeps_refl|apply Open_keeps]. }
  destruct ((if negb (mStreaming (self w))
             then Open (cap_open env) else ret true) w) as [opened w1].
  simpl in Hopen. destruct opened; simpl; [|exact Hopen].
  eapply keeps_trans; [exact Hopen|]. clear Hopen.
  unfold bind at 1.
  pose proof (Wait_keeps timeout (cap_arrivals env) w1) as Hwait.
  destruct (Wait timeout (cap_arrivals env) w1) as [waited w2].
  simpl in Hwait. eapply keeps_trans; [exact Hwait|]. clear Hwait.
  destruct waited as [[|]|]; try (apply keeps_self; reflexivity).
  exec. apply keeps_members; cases.
Qed.

Lemma call_keeps (c : Call) (w : world) : keeps w (snd (call c w)).
Proof.
  destruct c as [env|env|out f t env|b]; simpl; unfold bind.
  - pose proof (Open_keeps env w) as H.
    destruct (Open env w). exact H.
  - pose proof (Close_keeps env w) as H.
    destruct (Close env w). exact H.
  - pose proof (Capture_keeps out f t env w) as H.
    destruct (Capture out f t env w). exact H.
  - pose proof (backend_step_keeps b w) as H.
    destruct (backend_step b w). exact H.
Qed.

Lemma run_keeps (cs : list Call) (w : world) : keeps w (snd (run cs w)).
Proof.
  revert w. induction cs as [|c cs IH]; intros w; [apply keeps_refl|].
  simpl. unfold bind.
  pose proof (call_keeps c w) as Hc.
  destruct (call c w) as [r w1]. simpl in Hc.
  specialize (IH w1). destruct (run cs w1) as [rs w2]. simpl in *.
  eapply keeps_trans; eassumption.
Qed.

(** X15: no call of the consumer and no callback changes the wiring of a
    decoder: over any run the launch string and the three GStreamer handles
    stay what they were. *)
Theorem wiring_is_kept :
  forall (cs : list Call) (w : world),
    wired_as (self w) (self (snd (run cs w))).
Proof. intros cs w. apply run_keeps. Qed.

(** X16: over any run of calls and callbacks taken one after the other,
    [mEOS] once set is never cleared, and the two flags stay in agreement:
    if at the start the decoder is not both at the end of the stream and
    streaming, it never is. *)
Theorem flags_stay_in_agreement :
  forall (cs : list Call) (w : world),
    (mEOS (self w) = true -> mEOS (self (snd (run cs w))) = true) /\
    (flags_agree (self w) -> flags_agree (self (snd (run cs w)))).
Proof. intros cs w. apply run_keeps. Qed.

(** ** Callbacks and resources *)

(** X17: the pre-roll callback discards what it is offered: the decoder
    object and the pipeline state are as before, nothing is published and
    the consumer is not woken.  Under GStreamer 1.0 a pre-roll sample that
    was pulled is given back at once; in any other case nothing is given
    back. *)
Theorem onPreroll_discards :
  forall (user_data : UserData) (preroll : option GstSample) (w : world),
    let w' := snd (onPreroll user_data preroll w) in
    self w' = self w /\
    requested_state w' = requested_state w /\
    published (trace w') = published (trace w) /\
    wakes (trace w') = wakes (trace w) /\
    unrefs (trace w') =
      unrefs (trace w)
      ++ match user_data, preroll with
         | UD_this, Some _ => if GST_CHECK_VERSION_1_0_0 then [tt] else []
         | _, _ => []
         end.
Proof.
  intros u s w. unfold onPreroll. exec.
  destruct u, s, GST_CHECK_VERSION_1_0_0; simpl; observe_all;
    repeat split; reflexivity.
Qed.

(** X18: [checkBuffer] gives back what the appsink handed over exactly
    once, whichever way it returns, and gives nothing back when there is no
    sink or nothing was handed over.  The buffer is unmapped only on the
    path that publishes the frame: under GStreamer 1.0 there are as many
    unmaps as publications, so a buffer that was mapped for a frame that is
    then dropped is never unmapped; under 0.10 nothing is ever unmapped. *)
Theorem checkBuffer_releases :
  forall (p : Pulled) (mem_ok : bool) (w : world),
    let w' := snd (checkBuffer p mem_ok w) in
    unrefs (trace w') =
      unrefs (trace w)
      ++ match mAppSink (self w) with
         | Some _ => if handed_over p then [tt] else []
         | None => []
         end /\
    if GST_CHECK_VERSION_1_0_0
    then length (unmaps (trace w')) + length (published (trace w)) =
         length (unmaps (trace w)) + length (published (trace w'))
    else unmaps (trace w') = unmaps (trace w).
Proof.
  intros p mem_ok w. unfold checkBuffer, handed_over. exec.
  destruct GST_CHECK_VERSION_1_0_0; cases; observe_all;
    rewrite ?length_app; simpl; split; first [reflexivity | lia].
Qed.

(** ** Capture and the pipeline *)

(** X19: [Capture] on a Closed decoder whose pipeline refuses the state
    change returns false as soon as [Open] has failed: it does not wait for
    a frame, the decoder is still Closed, and the one state change asked of
    the pipeline is the refused [GST_STATE_PLAYING]. *)
Theorem Capture_start_refused :
  forall (out : nat) (format : imageFormat) (timeout : Z) (env : CaptureEnv)
         (w : world),
    Closed w ->
    start_accepted (set_state_ret (cap_open env)) = false ->
    Capture (Some out) format timeout env w =
      (Returns false, snd (Open (cap_open env) w)) /\
    Closed (snd (Open (cap_open env) w)) /\
    waits (trace (snd (Open (cap_open env) w))) = waits (trace w) /\
    state_changes (trace (snd (Open (cap_open env) w))) =
      state_changes (trace w) ++ [GST_STATE_PLAYING].
Proof.
  intros out format timeout env w [Hs He] Hacc.
  destruct w as [[] st ms t]. simpl in Hs, He. subst.
  unfold Capture, Open, Closed. exec.
  destruct (set_state_ret (cap_open env)); try discriminate; simpl;
    observe_all; auto.
Qed.

(** A backend step asks nothing of the pipeline. *)
Lemma backend_step_state (b : BackendStep) (w : world) :
  requested_state (snd (backend_step b w)) = requested_state w /\
  state_changes (trace (snd (backend_step b w))) = state_changes (trace w).
Proof.
  destruct b as [u|u s|u p m|ms]; simpl.
  - destruct u; simpl; observe_all; auto.
  - unfold bind, onPreroll. exec. cases; observe_all; auto.
  - destruct u; [auto|].
    unfold bind. rewrite onBuffer_this. simpl.
    destruct (checkBuffer_ingested p m w) as (_ & _ & _ & Hsc & _ & Hrs).
    observe_all. auto.
  - auto.
Qed.

Lemma backend_steps_state (bs : list BackendStep) (w : world) :
  requested_state (snd (backend_steps bs w)) = requested_state w /\
  state_changes (trace (snd (backend_steps bs w))) = state_changes (trace w).
Proof.
  revert w. induction bs as [|b bs IH]; intros w; [auto|].
  simpl. unfold bind.
  pose proof (backend_step_state b w) as [Hb1 Hb2].
  destruct (backend_step b w) as [[] w1]. simpl in Hb1, Hb2.
  destruct (IH w1) as [H1 H2]. split; congruence.
Qed.

Lemma Wait_state (timeout : Z) (arrivals : list BackendStep) (w : world) :
  requested_state (snd (Wait timeout arrivals w)) = requested_state w /\
  state_changes (trace (snd (Wait timeout arrivals w))) =
    state_changes (trace w).
Proof.
  unfold Wait. exec.
  destruct (Event.pending (mWaitEvent (self w))); [simpl; observe_all; auto|].
  destruct (timeout =? 0)%Z; [simpl; observe_all; auto|].
  set (w0 := {| self := self w; requested_state := requested_state w;
                bus := bus w; trace := trace w ++ [EvWait timeout] |}).
  pose proof (backend_steps_state arrivals w0) as [H1 H2].
  destruct (backend_steps arrivals w0) as [[] w1]. simpl in H1, H2.
  assert (H0 : state_changes (trace w0) = state_changes (trace w))
    by (simpl; observe_all; reflexivity).
  cases; rewrite H1, H2; auto.
Qed.

(** Nor does a capture on a decoder that is streaming. *)
Lemma Capture_state (output : option nat) (format : imageFormat)
    (timeout : Z) (env : CaptureEnv) (w w' : world) (r : outcome bool) :
  mStreaming (self w) = true ->
  Capture output format timeout env w = (r, w') ->
  requested_state w' = requested_state w /\
  state_changes (trace w') = state_changes (trace w).
Proof.
  intros Hs. unfold Capture. destruct output as [out|];
    [|intros H; cbv [ret] in H; simplify_eq; auto].
  unfold bind at 1. unfold member at 1. unfold bind at 1.
  rewrite Hs. cbn [negb]. cbv [ret]. cbn [negb].
  unfold bind at 1.
  pose proof (Wait_state timeout (cap_arrivals env) w) as [H1 H2].
  destruct (Wait timeout (cap_arrivals env) w) as [waited w2].
  simpl in H1, H2. rewrite <- H1, <- H2.
  destruct waited as [[|]|];
    try (intros H; simplify_eq; split; reflexivity).
  exec. intros H. cases; observe_all; split; reflexivity.
Qed.

(** X20: only [Open] and [Close] ask the pipeline for a state change.  No
    callback does, the end-of-stream callback included, so that after the
    end of the stream the pipeline stays in the state last asked for until
    [Close] is called; and [Capture] on a decoder that is streaming does
    not either, whatever arrives while it waits and however it returns. *)
Theorem pipeline_state_is_left_alone :
  (forall (bs : list BackendStep) (w : world),
      requested_state (snd (backend_steps bs w)) = requested_state w /\
      state_changes (trace (snd (backend_steps bs w))) =
        state_changes (trace w)) /\
  (forall (output : option nat) (format : imageFormat) (timeout : Z)
          (env : CaptureEnv) (w : world),
      mStreaming (self w) = true ->
      requested_state (snd (Capture output format timeout env w)) =
        requested_state w /\
      state_changes (trace (snd (Capture output format timeout env w))) =
        state_changes (trace w)).
Proof.
  split; [exact backend_steps_state|].
  intros output format timeout env w Hs.
  destruct (Capture output format timeout env w) as [r w'] eqn:Hc.
  exact (Capture_state output format timeout env w w' r Hs Hc).
Qed.

(** Steps of the backend other than the end of the stream leave both flags
    alone. *)
Lemma backend_steps_flags (bs : list BackendStep) (w : world) :
  Forall (fun b => b <> CbEOS UD_this) bs ->
  mEOS (self (snd (backend_steps bs w))) = mEOS (self w) /\
  mStreaming (self (snd (backend_steps bs w))) = mStreaming (self w).
Proof.
  intros Hbs. revert w.
  induction Hbs as [|b bs Hb _ IH]; intros w; [auto|].
  simpl. unfold bind.
  assert (H1 : mEOS (self (snd (backend_step b w))) = mEOS (self w) /\
               mStreaming (self (snd (backend_step b w))) =
                 mStreaming (self w)).
  { destruct b as [u|u s|u p m|ms]; simpl.
    - destruct u; [auto|contradiction].
    - unfold bind, onPreroll. exec. cases.
    - destruct u; [auto|].
      unfold bind. rewrite onBuffer_this. simpl.
      apply checkBuffer_flags.
    - auto. }
  destruct (backend_step b w) as [[] w1]. simpl in H1.
  destruct (IH w1) as [H2 H3]. destruct H1 as [H4 H5]. split; congruence.
Qed.

(** [Capture] on a Closed decoder is [Open] followed, if it succeeds, by
    [Capture] on the decoder it has opened. *)
Lemma Capture_after_Open (out : nat) (format : imageFormat) (timeout : Z)
    (env : CaptureEnv) (w : world) :
  mStreaming (self w) = false ->
  fst (Open (cap_open env) w) = true ->
  Capture (Some out) format timeout env w =
    Capture (Some out) format timeout env (snd (Open (cap_open env) w)).
Proof.
  intros Hs Hopen. unfold Capture at 1.
  unfold bind at 1. unfold member at 1. unfold bind at 1.
  rewrite Hs. cbn [negb].
  destruct (Open (cap_open env) w) as [r w1] eqn:Ho.
  simpl in Hopen. subst r. cbn [negb snd].
  apply Open_opened in Ho as [_ Hs1].
  symmetry.
  unfold Capture. unfold bind at 1. unfold member at 1. unfold bind at 1.
  rewrite Hs1. reflexivity.
Qed.

(** While nothing ends the stream, a capture on a streaming decoder leaves
    both flags alone. *)
Lemma Capture_flags (output : option nat) (format : imageFormat)
    (timeout : Z) (env : CaptureEnv) (w w' : world) (r : outcome bool) :
  mStreaming (self w) = true ->
  Forall (fun b => b <> CbEOS UD_this) (cap_arrivals env) ->
  Capture output format timeout env w = (r, w') ->
  mEOS (self w') = mEOS (self w) /\ mStreaming (self w') = true.
Proof.
  intros Hs Hbs. unfold Capture. destruct output as [out|];
    [|intros H; cbv [ret] in H; simplify_eq; auto].
  unfold bind at 1. unfold member at 1. unfold bind at 1.
  rewrite Hs. cbn [negb]. cbv [ret]. cbn [negb].
  unfold bind at 1.
  assert (Hw : mEOS (self (snd (Wait timeout (cap_arrivals env) w))) =
                 mEOS (self w) /\
               mStreaming (self (snd (Wait timeout (cap_arrivals env) w))) =
                 mStreaming (self w)).
  { unfold Wait. exec.
    destruct (Event.pending (mWaitEvent (self w))); [auto|].
    destruct (timeout =? 0)%Z; [auto|].
    set (w0 := {| self := self w; requested_state := requested_state w;
                  bus := bus w; trace := trace w ++ [EvWait timeout] |}).
    pose proof (backend_steps_flags (cap_arrivals env) w0 Hbs) as [H1 H2].
    destruct (backend_steps (cap_arrivals env) w0) as [[] w1].
    simpl in H1, H2. cases. }
  destruct (Wait timeout (cap_arrivals env) w) as [waited w2].
  simpl in Hw. destruct Hw as [H1 H2]. rewrite <- H1. rewrite Hs in H2.
  destruct waited as [[|]|];
    try (intros H; simplify_eq; split; [reflexivity|assumption]).
  exec. intros H. cases.
Qed.

(** X21: [Capture] on a Closed decoder opens the stream and leaves it
    open: when the pipeline accepts the state change and no end of stream
    arrives while the call waits, the decoder is streaming when [Capture]
    returns, whatever it returns (a frame, a timeout, a failed conversion),
    and the one state change asked of the pipeline was
    [GST_STATE_PLAYING]. *)
Theorem Capture_opens_the_stream :
  forall (out : nat) (format : imageFormat) (timeout : Z) (env : CaptureEnv)
         (w : world),
    Closed w ->
    start_accepted (set_state_ret (cap_open env)) = true ->
    Forall (fun b => b <> CbEOS UD_this) (cap_arrivals env) ->
    let w' := snd (Capture (Some out) format timeout env w) in
    mStreaming (self w') = true /\
    mEOS (self w') = false /\
    state_changes (trace w') = state_changes (trace w) ++ [GST_STATE_PLAYING].
Proof.
  intros out format timeout env w [Hs He] Hacc Hbs w'. subst w'.
  assert (Hopen : fst (Open (cap_open env) w) = true /\
                  mStreaming (self (snd (Open (cap_open env) w))) = true /\
                  mEOS (self (snd (Open (cap_open env) w))) = false /\
                  state_changes (trace (snd (Open (cap_open env) w))) =
                    state_changes (trace w) ++ [GST_STATE_PLAYING]).
  { unfold Open. exec. rewrite He, Hs. simpl.
    destruct (set_state_ret (cap_open env)); try discriminate; simpl;
      observe_all; auto. }
  destruct Hopen as (Ho & Hs1 & He1 & Hc1).
  rewrite (Capture_after_Open out format timeout env w Hs Ho).
  destruct (Capture (Some out) format timeout env
              (snd (Open (cap_open env) w))) as [r w'] eqn:Hc.
  destruct (Capture_flags _ _ _ _ _ _ _ Hs1 Hbs Hc) as [He2 Hs2].
  destruct (Capture_state _ _ _ _ _ _ _ Hs1 Hc) as [_ Hc2].
  simpl. rewrite Hs2, He2, Hc2. auto.
Qed.

(** With memory to be had, [Alloc] succeeds and leaves a pool of the size
    asked for. *)
Lemma Alloc_ok (n : nat) (size : Z) (zc ok : bool) (rb rb' : RingBuffer.t) :
  RingBuffer.Alloc n size zc true rb = (ok, rb') ->
  ok = true /\ RingBuffer.numBuffers rb' = n.
Proof.
  unfold RingBuffer.Alloc.
  destruct (Nat.eqb_spec n (RingBuffer.numBuffers rb)) as [E|E]; simpl;
    [destruct (size =? RingBuffer.bufferSize rb)%Z|];
    intros H; simplify_eq; auto.
Qed.

(** X22: from the frame callback to the caller.  On a streaming decoder
    with a sink, a well-formed raw ring buffer and at least one slot
    configured, a frame of at least 1 by 1 that arrives while memory is to
    be had is what the next [Capture] hands to the colour conversion, with
    the width and height the frame declared, without waiting.  If the
    conversion succeeds [Capture] returns true, this frame is the one frame
    delivered, and the output pointer is set last.  If it fails [Capture]
    returns false, nothing is delivered, the frame is gone from the ring
    buffer, and the decoder is still streaming. *)
Theorem ingested_frame_is_captured :
  forall (p : Pulled) (w : world) (gstData : buffer) (wd ht : Z)
         (out : nat) (format : imageFormat) (timeout : Z) (env : CaptureEnv),
    mAppSink (self w) <> None ->
    mStreaming (self w) = true ->
    RingBuffer.wf (mBufferYUV (self w)) ->
    numBuffers (mOptions (self w)) <> 0 ->
    pulled_data p = Some gstData ->
    (Z.of_nat (length gstData) < 2 ^ 32)%Z ->
    declared p "width" = Some wd ->
    declared p "height" = Some ht ->
    (1 <= wd)%Z -> (1 <= ht)%Z ->
    cap_mem_ok env = true ->
    let w1 := snd (onBuffer UD_this p true w) in
    let r := Capture (Some out) format timeout env w1 in
    match cudaConvertColor gstData IMAGE_NV12 format wd ht with
    | Some _ =>
        fst r = Returns true /\
        delivered (trace (snd r)) = delivered (trace w) ++ [gstData] /\
        exists slot, last (trace (snd r)) = Some (EvOutput out (Some slot))
    | None =>
        fst r = Returns false /\
        delivered (trace (snd r)) = delivered (trace w) /\
        mStreaming (self (snd r)) = true /\
        pending (snd r) = []
    end.
Proof.
  intros p w gstData wd ht out format timeout env
    Hsink Hstr Hwf Hn Hdata Hlen Hwd Hht Hwd1 Hht1 Hmem w1 r.
  subst r w1. rewrite onBuffer_this. cbn [snd].
  destruct (checkBuffer_ingested p true w) as (Hi & Hd & _).
  destruct (checkBuffer p true w) as [[] w1]. cbn [snd] in *.
  assert (Hsize : firstn (Z.to_nat (gstSize_of gstData)) gstData = gstData).
  { unfold gstSize_of. rewrite Z.mod_small by lia. rewrite Nat2Z.id.
    apply firstn_all. }
  destruct Hi as [Hwhy _ _ _
                 | d wd' ht' ok yuv Hd' _ _ _ _ Ha Hno _ _ _
                 | d wd' ht' yuv i Hd' Hwd' Hht' _ _ Ha Hpeek yuv' Hs Hp _].
  - exfalso.
    destruct Hwhy as [H|[H|[H|[H|(wd' & ht' & Hw' & Hh' & Hsmall)]]]];
      try congruence.
    rewrite Hwd in Hw'. rewrite Hht in Hh'. simplify_eq. lia.
  - exfalso. apply Alloc_ok in Ha as [-> Hnum].
    destruct Hno as [Hno|Hno]; [discriminate|].
    unfold RingBuffer.Peek_Write in Hno. rewrite Hnum in Hno.
    destruct (numBuffers (mOptions (self w))); [contradiction|discriminate].
  - rewrite Hdata in Hd'. rewrite Hwd in Hwd'. rewrite Hht in Hht'.
    simplify_eq. subst yuv'. rewrite Hsize in Hs, Hp.
    pose proof (Alloc_wf _ _ _ _ _ _ _ Hwf Ha) as Hwf'.
    destruct (publish_contents yuv i d Hwf' Hpeek) as (Hwf'' & Hlw & Hc).
    set (yuv' := snd (RingBuffer.Next_Write (RingBuffer.fill i d yuv))) in *.
    assert (Hfresh : RingBuffer.fresh yuv' = true /\
                     exists k, RingBuffer.numBuffers yuv' = S k).
    { subst yuv'. clear Hs Hp Hc Hlw Hwf''.
      unfold RingBuffer.Peek_Write in Hpeek.
      unfold RingBuffer.Next_Write, RingBuffer.fill. simpl.
      destruct (RingBuffer.numBuffers yuv) eqn:Hk; [discriminate|].
      simpl. eauto. }
    destruct Hfresh as (Hfresh & k & Hk).
    destruct w1 as [d1 st1 ms1 t1]. cbn [self trace] in *. subst d1.
    unfold Capture, Wait. exec. rewrite Hstr. simpl.
    unfold RingBuffer.Next_ReadLatestOnce. rewrite Hk, Hfresh. simpl.
    destruct (RingBuffer.Alloc (numBuffers (mOptions (self w)))
                (imageFormatSize format wd' ht')
                (zeroCopy (mOptions (self w))) (cap_mem_ok env)
                (mBufferRGB (self w))) as [ok rgb] eqn:Hrgb.
    rewrite Hmem in Hrgb. apply Alloc_ok in Hrgb as [-> Hnum]. simpl.
    unfold RingBuffer.Next_Write. rewrite Hnum.
    destruct (numBuffers (mOptions (self w))) as [|n'] eqn:Hn';
      [contradiction|]. simpl.
    unfold RingBuffer.contents in *. simpl. rewrite Hc.
    destruct (cudaConvertColor d IMAGE_NV12 format wd' ht'); simpl;
      observe_all; rewrite Hd.
    + split; [reflexivity|]. split; [reflexivity|].
      eexists. apply last_snoc.
    + repeat split; auto.
Qed.

End Decoder.

(** * The properties at the sample inputs *)

Local Open Scope string_scope.
Local Open Scope list_scope.

(** ** End of stream while [Open] sleeps *)

(** C1: the end-of-stream callback fires while [Open] sleeps, after its test
    of [mEOS].  [Open] still returns true and sets [mStreaming], so that the
    decoder has both flags set.  The next [Open] returns false; the next
    [Capture] finds [mStreaming] set, does not call [Open], and waits on the
    wait/wake signal: for ever with the infinite timeout, for the whole of a
    finite one. *)
Theorem end_of_stream_lost_in_Open :
  let w := ended_in_Open true in
  let capture timeout :=
    Capture true sample_imageFormatSize sample_cudaConvertColor
      (Some 7%nat) IMAGE_RGB8 timeout (sample_capture []) w in
  fst (Open_meanwhile true quiet_pipeline [CbEOS UD_this]
         (closed_world sample_options)) = true /\
  mEOS (self w) = true /\ mStreaming (self w) = true /\
  waits (trace w) = [] /\
  fst (Open quiet_pipeline w) = false /\
  fst (capture Event.INFINITE) = BlocksForever /\
  waits (trace (snd (capture Event.INFINITE))) = [Event.INFINITE] /\
  fst (capture 1000%Z) = Returns false /\
  waits (trace (snd (capture 1000%Z))) = [1000%Z].
Proof.
  intros w capture. subst capture.
  assert (Hflags :
            fst (Open_meanwhile true quiet_pipeline [CbEOS UD_this]
                   (closed_world sample_options)) = true /\
            mEOS (self w) = true /\ mStreaming (self w) = true).
  { subst w. unfold ended_in_Open. apply Open_meanwhile_EOS.
    - split; reflexivity.
    - reflexivity.
    - left. reflexivity. }
  assert (Hp : Event.pending (mWaitEvent (self w)) = false)
    by (vm_compute; reflexivity).
  assert (Hw : waits (trace w) = []) by (vm_compute; reflexivity).
  clearbody w. destruct Hflags as (Hopen & He & Hs).
  rewrite Open_at_EOS by exact He.
  rewrite !Capture_waits_when_streaming
    by (assumption || reflexivity || discriminate).
  cbv [emit]. cbn [fst snd trace]. unfold waits in *.
  rewrite !omap_app, Hw.
  repeat split; try assumption; reflexivity.
Qed.

(** C2 as first stated does not hold: the pipeline of [failing_pipeline]
    reports an error on the bus during both polls, and [Open], called in the
    Closed state, returns true and leaves the decoder streaming. *)
Lemma Open_ignores_start_error :
  Closed (closed_world sample_options) /\
  In start_error (posted failing_pipeline) /\
  In start_error (posted_asleep failing_pipeline) /\
  msg_type start_error = GST_MESSAGE_ERROR /\
  In (EvMessagePrint start_error)
     (trace (snd (Open failing_pipeline (closed_world sample_options)))) /\
  ~ (fst (Open failing_pipeline (closed_world sample_options)) = false /\
     mStreaming
       (self (snd (Open failing_pipeline (closed_world sample_options))))
     = false).
Proof.
  repeat split; try (simpl; tauto).
  intros [H _]. vm_compute in H. discriminate H.
Qed.

(** [Open_from_Closed] at a pipeline that refuses the state change, and at
    one that accepts it and then reports an error. *)
Lemma Open_from_Closed_witness :
  Closed (closed_world sample_options) /\
  fst (Open {| set_state_ret := GST_STATE_CHANGE_FAILURE;
               posted := []; posted_asleep := [] |}
         (closed_world sample_options)) = false /\
  fst (Open failing_pipeline (closed_world sample_options)) = true.
Proof.
  assert (H : Closed (closed_world sample_options)) by (split; reflexivity).
  split; [exact H|]. split.
  - exact (proj1 (Open_from_Closed
                    {| set_state_ret := GST_STATE_CHANGE_FAILURE;
                       posted := []; posted_asleep := [] |}
                    (closed_world sample_options) H)).
  - exact (proj1 (Open_from_Closed failing_pipeline
                    (closed_world sample_options) H)).
Defined.

(** [frames_delivered_at_most_once] at a capture that finds a wake pending
    and nothing new to read, and at a run of two frames and three captures. *)
Lemma frames_delivered_at_most_once_witness :
  fst (Capture true sample_imageFormatSize sample_cudaConvertColor
         (Some 7) IMAGE_RGB8 1000 (sample_capture [])
         (stale_world sample_options)) = Returns false /\
  exists D P : list buffer,
    delivered
      (trace
         (snd (run true sample_imageFormatSize sample_cudaConvertColor
                 [Backend (CbBuffer UD_this (frame 2 1 [Byte.x10; Byte.x80]) true);
                  Backend (CbBuffer UD_this (frame 2 1 [Byte.x20; Byte.x80]) true);
                  CallCapture (Some 7) IMAGE_RGB8 1000 (sample_capture []);
                  CallCapture (Some 7) IMAGE_RGB8 0 (sample_capture []);
                  CallCapture (Some 7) IMAGE_RGB8 1000
                    (sample_capture
                       [CbBuffer UD_this (frame 2 1 [Byte.x30; Byte.x80]) true])]
                 (closed_world sample_options)))) = D /\
    published
      (trace
         (snd (run true sample_imageFormatSize sample_cudaConvertColor
                 [Backend (CbBuffer UD_this (frame 2 1 [Byte.x10; Byte.x80]) true);
                  Backend (CbBuffer UD_this (frame 2 1 [Byte.x20; Byte.x80]) true);
                  CallCapture (Some 7) IMAGE_RGB8 1000 (sample_capture []);
                  CallCapture (Some 7) IMAGE_RGB8 0 (sample_capture []);
                  CallCapture (Some 7) IMAGE_RGB8 1000
                    (sample_capture
                       [CbBuffer UD_this (frame 2 1 [Byte.x30; Byte.x80]) true])]
                 (closed_world sample_options)))) = P /\
    length D = 2 /\
    sublist D P.
Proof.
  destruct (frames_delivered_at_most_once true sample_imageFormatSize
              sample_cudaConvertColor) as [Hnull Honce].
  split.
  - erewrite (Hnull 7 IMAGE_RGB8 1000%Z (sample_capture [])
                (stale_world sample_options));
      [reflexivity | reflexivity | reflexivity | reflexivity].
  - destruct (Honce
                [Backend (CbBuffer UD_this (frame 2 1 [Byte.x10; Byte.x80]) true);
                 Backend (CbBuffer UD_this (frame 2 1 [Byte.x20; Byte.x80]) true);
                 CallCapture (Some 7) IMAGE_RGB8 1000 (sample_capture []);
                 CallCapture (Some 7) IMAGE_RGB8 0 (sample_capture []);
                 CallCapture (Some 7) IMAGE_RGB8 1000
                   (sample_capture
                      [CbBuffer UD_this (frame 2 1 [Byte.x30; Byte.x80]) true])]
                (closed_world sample_options) eq_refl)
      as (D & P & Hd & Hp & Hn & Hsub).
    exists D, P. split; [exact Hd|]. split; [exact Hp|].
    split; [exact Hn|exact Hsub].
Defined.

(** [onBuffer_survives_ingestion_failure] at a frame without caps, at a
    frame without a height, and at a frame for which no memory is left. *)
Lemma onBuffer_survives_ingestion_failure_witness :
  wakes (trace (snd (onBuffer true UD_this
                       (frame_without_caps [Byte.x10; Byte.x80]) true
                       (closed_world sample_options)))) = [] /\
  wakes (trace (snd (onBuffer false UD_this
                       (frame_without_height 2 [Byte.x10; Byte.x80]) true
                       (closed_world sample_options)))) = [] /\
  wakes (trace (snd (onBuffer true UD_this
                       (frame 2 1 [Byte.x10; Byte.x80]) false
                       (closed_world sample_options)))) = [].
Proof.
  split; [|split].
  - apply (onBuffer_survives_ingestion_failure true
             (frame_without_caps [Byte.x10; Byte.x80]) true
             (closed_world sample_options)).
    apply no_metadata. reflexivity.
  - apply (onBuffer_survives_ingestion_failure false
             (frame_without_height 2 [Byte.x10; Byte.x80]) true
             (closed_world sample_options)).
    apply no_size. right. reflexivity.
  - apply (onBuffer_survives_ingestion_failure true
             (frame 2 1 [Byte.x10; Byte.x80]) false
             (closed_world sample_options)).
    apply (no_memory true _ _ _ [Byte.x10; Byte.x80]); reflexivity.
Defined.

(** [Close_idempotent] at a closed decoder and at one that saw the end of
    stream. *)
Lemma Close_idempotent_witness :
  snd (Close quiet_pipeline (closed_world sample_options))
    = closed_world sample_options /\
  requested_state (snd (Close quiet_pipeline (ended_world sample_options)))
    = GST_STATE_NULL /\
  mEOS (self (snd (Close failing_pipeline
                     (snd (Close quiet_pipeline (ended_world sample_options))))))
    = true.
Proof.
  split; [|split].
  - apply (Close_idempotent quiet_pipeline quiet_pipeline
             (closed_world sample_options)).
    split; reflexivity.
  - apply (Close_idempotent quiet_pipeline failing_pipeline
             (ended_world sample_options)).
    reflexivity.
  - apply (Close_idempotent quiet_pipeline failing_pipeline
             (ended_world sample_options)).
    reflexivity.
Defined.

(** [Create_file_mp4_h264] at the sample stream, for GStreamer 1.0. *)
Lemma Create_file_mp4_h264_witness :
  exists launch,
    launched (trace (snd (Create true sample_init sample_options))) = [launch] /\
    mLaunchStr (self (snd (Create true sample_init sample_options))) = launch /\
    in_order ["filesrc location=/media/clip.mp4"; "qtdemux"; "h264parse";
              "omxh264dec"; "appsink name=mysink"] launch /\
    exists before, launch = (before ++ "appsink name=mysink")%string.
Proof.
  exact (Create_file_mp4_h264 true sample_init sample_options
           eq_refl eq_refl eq_refl eq_refl eq_refl).
Defined.

Lemma mov_unsupported : ~ In "mov" SupportedExtensions.
Proof.
  unfold SupportedExtensions. simpl.
  intros [H|[H|[H|[H|[H|[H|[H|[]]]]]]]]; discriminate H.
Defined.

(** [Create_unsupported_extension] at a [.mov] file. *)
Lemma Create_unsupported_extension_witness :
  fst (Create true sample_init mov_options) = None /\
  launched (trace (snd (Create true sample_init mov_options))) = [] /\
  mPipeline (self (snd (Create true sample_init mov_options))) = None /\
  In (EvLog LOG_ERROR "gstDecoder -- failed to create decoder engine")
     (trace (snd (Create true sample_init mov_options))).
Proof.
  exact (Create_unsupported_extension true sample_init mov_options
           eq_refl mov_unsupported).
Defined.

(** [onBuffer_drops_nonpositive_size] at a frame of width 0. *)
Lemma onBuffer_drops_nonpositive_size_witness :
  self (snd (onBuffer true UD_this (frame 0 480 [Byte.x10; Byte.x80]) true
               (closed_world sample_options)))
  = self (closed_world sample_options).
Proof.
  apply (onBuffer_drops_nonpositive_size true
           (frame 0 480 [Byte.x10; Byte.x80]) true
           (closed_world sample_options) 0%Z 480%Z eq_refl eq_refl).
  left. reflexivity.
Defined.

(** C9 as first stated does not hold, twice over: the width pre-specified
    as 1280 is overwritten by the first frame, and the second frame, of
    another size, overwrites width and height once more. *)
Lemma size_overwritten_again :
  let w0 := closed_world wide_options in
  let w1 := snd (onBuffer true UD_this (frame 640 480 [Byte.x10; Byte.x80]) true w0) in
  let w2 := snd (onBuffer true UD_this (frame 320 240 [Byte.x20; Byte.x80]) true w1) in
  (width (mOptions (self w0)) = 1280 /\ height (mOptions (self w0)) = 0)%Z /\
  (width (mOptions (self w1)) = 640 /\ height (mOptions (self w1)) = 480)%Z /\
  (width (mOptions (self w2)) = 320 /\ height (mOptions (self w2)) = 240)%Z.
Proof. vm_compute. repeat split. Qed.

(** [configuration_changes_only_in_size] at a run that opens, captures and
    closes, at a run that opens and closes, and at a frame of 640 by 480 met
    with a width of 1280. *)
Lemma configuration_changes_only_in_size_witness :
  same_but_size wide_options
    (mOptions
       (self
          (snd (run true sample_imageFormatSize sample_cudaConvertColor
                  [CallOpen quiet_pipeline;
                   CallCapture (Some 7) IMAGE_RGB8 1000
                     (sample_capture
                        [CbBuffer UD_this (frame 640 480 [Byte.x10; Byte.x80]) true]);
                   CallClose quiet_pipeline]
                  (closed_world wide_options))))) /\
  mOptions
    (self
       (snd (run true sample_imageFormatSize sample_cudaConvertColor
               [CallOpen quiet_pipeline; CallClose quiet_pipeline]
               (closed_world wide_options))))
  = mOptions (self (closed_world wide_options)) /\
  (width (mOptions
            (self (snd (onBuffer true UD_this
                          (frame 640 480 [Byte.x10; Byte.x80]) true
                          (closed_world wide_options))))) = 640)%Z.
Proof.
  destruct (configuration_changes_only_in_size true sample_imageFormatSize
              sample_cudaConvertColor) as (Hrun & _ & Hquiet & Hframe).
  split; [|split].
  - exact (Hrun _ (closed_world wide_options)).
  - exact (Hquiet [CallOpen quiet_pipeline; CallClose quiet_pipeline]
             (closed_world wide_options) eq_refl).
  - refine (proj1 (Hframe (frame 640 480 [Byte.x10; Byte.x80]) true
                     (closed_world wide_options) [Byte.x10; Byte.x80]
                     640%Z 480%Z _ eq_refl eq_refl eq_refl _ _)).
    + discriminate.
    + discriminate.
    + discriminate.
Defined.

(** [Create_extension_case] at a file named [.MP4], an extension that
    [IsSupportedExtension] accepts. *)
Lemma Create_extension_case_witness :
  IsSupportedExtension (Some "MP4") = true /\
  fst (Create true sample_init capitals_options) = None.
Proof.
  split; [reflexivity|].
  apply (Create_extension_case true sample_init capitals_options eq_refl).
  intros H. vm_compute in H. discriminate H.
Defined.

(** [buildLaunchStr_rtp_caps_quote] at an MPEG-2 stream over RTP: the path
    holds no quote and the launch string holds one. *)
Lemma buildLaunchStr_rtp_caps_quote_witness :
  fst (buildLaunchStr true sample_init (new_world rtp_options)) = true /\
  quotes (mLaunchStr
            (self (snd (buildLaunchStr true sample_init
                          (new_world rtp_options))))) = 1.
Proof.
  apply (buildLaunchStr_rtp_caps_quote true sample_init
           (new_world rtp_options) eq_refl).
  - reflexivity.
  - discriminate.
Defined.

(** [buildLaunchStr_requested_size] at the sample stream scaled to 1280 by
    720. *)
Lemma buildLaunchStr_requested_size_witness :
  exists front : string,
    mLaunchStr (self (snd (buildLaunchStr true sample_init
                             (new_world scaled_options)))) =
      (front ++ " ! video/x-raw, width=(int)1280, height=(int)720, format=(string)NV12 ! appsink name=mysink")%string.
Proof.
  apply (buildLaunchStr_requested_size true sample_init
           (new_world scaled_options) eq_refl); discriminate.
Defined.

(** [buildLaunchStr_size_needs_both] at the sample stream with a width of
    1280 and no height. *)
Lemma buildLaunchStr_size_needs_both_witness :
  exists front : string,
    mLaunchStr (self (snd (buildLaunchStr true sample_init
                             (new_world wide_options)))) =
      (front ++ "dec ! video/x-raw ! appsink name=mysink")%string.
Proof.
  apply (buildLaunchStr_size_needs_both true sample_init
           (new_world wide_options) eq_refl).
  - right. reflexivity.
  - reflexivity.
Defined.

(** [buildLaunchStr_source_element] at the sample file. *)
Lemma buildLaunchStr_source_element_witness :
  exists rest : string,
    mLaunchStr (self (snd (buildLaunchStr true sample_init
                             (new_world sample_options)))) =
      ("filesrc location=/media/clip.mp4 ! " ++ rest)%string.
Proof.
  exact (buildLaunchStr_source_element true sample_init
           (new_world sample_options) eq_refl).
Defined.

(** [Create_decoder] at the sample stream, where every step of the set-up
    succeeds. *)
Lemma Create_decoder_witness :
  fst (Create true sample_init sample_options) <> None /\
  mAppSink (self (snd (Create true sample_init sample_options))) <> None /\
  callbacks_set (trace (snd (Create true sample_init sample_options))) = [tt].
Proof.
  assert (Hd : fst (Create true sample_init sample_options) =
               Some (self (snd (Create true sample_init sample_options))))
    by (vm_compute; reflexivity).
  destruct (Create_decoder true sample_init sample_options _ eq_refl Hd)
    as (_ & _ & _ & Hsink & _ & _ & _ & _ & _ & _ & _ & Hcb & _).
  split; [rewrite Hd; discriminate|]. split; [exact Hsink|exact Hcb].
Defined.

(** [Create_failure] at a [.mov] file. *)
Lemma Create_failure_witness :
  callbacks_set (trace (snd (Create true sample_init mov_options))) = [] /\
  launched (trace (snd (Create true sample_init mov_options))) = [].
Proof.
  destruct (Create_failure true sample_init mov_options eq_refl)
    as (Hcb & _ & _ & _).
  split; [exact Hcb|reflexivity].
Defined.


(** [Open_then_Close] at the sample decoder. *)
Lemma Open_then_Close_witness :
  self (snd (Close quiet_pipeline
               (snd (Open quiet_pipeline (closed_world sample_options))))) =
  self (closed_world sample_options).
Proof.
  apply (Open_then_Close quiet_pipeline quiet_pipeline
           (closed_world sample_options)).
  - split; reflexivity.
  - reflexivity.
Defined.

(** [state_changes_drain_the_bus] at a pipeline that posts an error at once
    and another during the sleep. *)
Lemma state_changes_drain_the_bus_witness :
  printed (trace (snd (Open failing_pipeline (closed_world sample_options)))) =
    [start_error; start_error] /\
  bus (snd (Close failing_pipeline (ended_world sample_options))) = [].
Proof.
  destruct state_changes_drain_the_bus as [Hopen Hclose].
  split.
  - apply (Hopen failing_pipeline (closed_world sample_options)).
    + split; reflexivity.
    + reflexivity.
  - apply (Hclose failing_pipeline (ended_world sample_options)).
    right. reflexivity.
Defined.

(** [flags_stay_in_agreement] at a run in which the stream ends while the
    decoder is streaming. *)
Lemma flags_stay_in_agreement_witness :
  flags_agree
    (self (snd (run true sample_imageFormatSize sample_cudaConvertColor
                  [CallOpen quiet_pipeline; Backend (CbEOS UD_this);
                   CallOpen quiet_pipeline]
                  (closed_world sample_options)))).
Proof.
  apply (flags_stay_in_agreement true sample_imageFormatSize
           sample_cudaConvertColor).
  intros H. reflexivity.
Defined.

(** [Capture_start_refused] at a pipeline that refuses every state
    change. *)
Lemma Capture_start_refused_witness :
  fst (Capture true sample_imageFormatSize sample_cudaConvertColor
         (Some 7) IMAGE_RGB8 1000 refused_capture
         (closed_world sample_options)) = Returns false /\
  Closed (snd (Open refusing_pipeline (closed_world sample_options))).
Proof.
  destruct (Capture_start_refused true sample_imageFormatSize
              sample_cudaConvertColor 7 IMAGE_RGB8 1000%Z refused_capture
              (closed_world sample_options))
    as (Hc & Hclosed & _).
  - split; reflexivity.
  - reflexivity.
  - split; [rewrite Hc; reflexivity|exact Hclosed].
Defined.

(** [pipeline_state_is_left_alone] at a capture during which the stream
    ends. *)
Lemma pipeline_state_is_left_alone_witness :
  requested_state
    (snd (Capture true sample_imageFormatSize sample_cudaConvertColor
            (Some 7) IMAGE_RGB8 1000 (sample_capture [CbEOS UD_this])
            (stale_world sample_options))) = GST_STATE_PLAYING.
Proof.
  apply (pipeline_state_is_left_alone true sample_imageFormatSize
           sample_cudaConvertColor).
  reflexivity.
Defined.

(** [Capture_opens_the_stream] at a capture that polls a Closed decoder and
    finds no frame. *)
Lemma Capture_opens_the_stream_witness :
  fst (Capture true sample_imageFormatSize sample_cudaConvertColor
         (Some 7) IMAGE_RGB8 0 (sample_capture [])
         (closed_world sample_options)) = Returns false /\
  mStreaming
    (self (snd (Capture true sample_imageFormatSize sample_cudaConvertColor
                  (Some 7) IMAGE_RGB8 0 (sample_capture [])
                  (closed_world sample_options)))) = true.
Proof.
  split; [reflexivity|].
  apply (Capture_opens_the_stream true sample_imageFormatSize
           sample_cudaConvertColor 7 IMAGE_RGB8 0%Z (sample_capture [])
           (closed_world sample_options)).
  - split; reflexivity.
  - reflexivity.
  - constructor.
Defined.

(** [ingested_frame_is_captured] at a frame of 2 by 1 that reaches a
    streaming decoder, captured without waiting. *)
Lemma ingested_frame_is_captured_witness :
  fst (Capture true sample_imageFormatSize sample_cudaConvertColor
         (Some 7) IMAGE_RGB8 0 (sample_capture [])
         (snd (onBuffer true UD_this (frame 2 1 [Byte.x10; Byte.x80]) true
                 (stale_world sample_options)))) = Returns true /\
  delivered
    (trace
       (snd (Capture true sample_imageFormatSize sample_cudaConvertColor
               (Some 7) IMAGE_RGB8 0 (sample_capture [])
               (snd (onBuffer true UD_this (frame 2 1 [Byte.x10; Byte.x80])
                       true (stale_world sample_options)))))) =
    [[Byte.x10; Byte.x80]].
Proof.
  assert (Hwf : RingBuffer.wf (mBufferYUV (self (stale_world sample_options))))
    by (split; [reflexivity|right; simpl; lia]).
  assert (Hlen : (Z.of_nat (length [Byte.x10; Byte.x80]) < 2 ^ 32)%Z)
    by reflexivity.
  assert (Hone : (1 <= 1)%Z) by discriminate.
  assert (Htwo : (1 <= 2)%Z) by discriminate.
  assert (Hsink : mAppSink (self (stale_world sample_options)) <> None)
    by discriminate.
  assert (Hslots : numBuffers (mOptions (self (stale_world sample_options)))
                   <> 0) by discriminate.
  pose proof (ingested_frame_is_captured true sample_imageFormatSize
                sample_cudaConvertColor (frame 2 1 [Byte.x10; Byte.x80])
                (stale_world sample_options) [Byte.x10; Byte.x80] 2%Z 1%Z
                7 IMAGE_RGB8 0%Z (sample_capture [])
                Hsink eq_refl Hwf Hslots eq_refl Hlen eq_refl eq_refl
                Htwo Hone eq_refl) as H.
  cbv zeta in H.
  change (sample_cudaConvertColor [Byte.x10; Byte.x80] IMAGE_NV12 IMAGE_RGB8
            2 1) with (Some [Byte.x10; Byte.x80]) in H.
  cbv iota in H.
  destruct H as (Hr & Hd & _).
  split; [exact Hr|exact Hd].
Defined.
